(** * Repository analyzer: a shallow embedding of [src/lib/gemini-api.ts]

    The source file holds two modules one after the other: the client of
    the generative text service (lines 1-177) and the repository analyzer
    the component imports as [lib/github-api] (from line 177 on).  The
    development follows the file top to bottom:
    - the JavaScript string methods and the regular expressions the code uses,
    - the narrative response parser ([parseAnalysisResult]),
    - the classifier ([isComponent], [isPage], [detectTechnologies]),
    - the tree walker ([analyzeFileStructure]), the aggregator
      ([analyzeProjectStats]), the sampler ([getSampleFiles]) and the
      snapshot builder ([analyzeRepository]), in a state monad over the
      remote host.

    Strings are sequences of 8-bit code units; JSON numbers are the
    integer-valued ones.  Every literal of the source is ASCII, so that
    letter case matters for the letters A-Z only. *)

From Stdlib Require Import String Ascii List ZArith Lia Bool Arith DecimalString.
Import ListNotations.

Set Warnings "-register-all".

Local Open Scope list_scope.
Local Open Scope string_scope.

Set Implicit Arguments.

(* ================================================================= *)
(** ** JavaScript strings *)

Module JsString.

(** [String.prototype.startsWith]. *)
Definition startsWith (s p : string) : bool := String.prefix p s.

(** [String.prototype.endsWith]. *)
Definition endsWith (s suffix : string) : bool :=
  if (String.length s <? String.length suffix)%nat then false
  else String.eqb
         (substring (String.length s - String.length suffix)
                    (String.length suffix) s)
         suffix.

(** [String.prototype.includes]: some suffix of [s] starts with [needle]. *)
Fixpoint includes (s needle : string) : bool :=
  String.prefix needle s ||
  match s with
  | EmptyString => false
  | String _ s' => includes s' needle
  end.

Definition is_upper (c : ascii) : bool :=
  let n := nat_of_ascii c in ((65 <=? n) && (n <=? 90))%nat.

Definition is_lower (c : ascii) : bool :=
  let n := nat_of_ascii c in ((97 <=? n) && (n <=? 122))%nat.

Definition lower_char (c : ascii) : ascii :=
  if is_upper c then ascii_of_nat (nat_of_ascii c + 32) else c.

Definition upper_char (c : ascii) : ascii :=
  if is_lower c then ascii_of_nat (nat_of_ascii c - 32) else c.

(** [String.prototype.toLowerCase], on the letters A-Z. *)
Fixpoint toLowerCase (s : string) : string :=
  match s with
  | EmptyString => EmptyString
  | String c s' => String (lower_char c) (toLowerCase s')
  end.

(** Number of occurrences of a code unit. *)
Fixpoint count (c : ascii) (s : string) : nat :=
  match s with
  | EmptyString => 0
  | String a s' => (if Ascii.eqb a c then 1 else 0) + count c s'
  end.

End JsString.

(* ================================================================= *)
(** ** Regular expressions

    A backtracking matcher in continuation-passing style, as ECMAScript
    defines [RegExp] matching, for the constructs the source's literals
    use. *)

Module Regex.

(** Sets of one code unit. *)
Inductive cset : Type :=
| CChar (c : ascii)      (* a literal, e.g. [\/] or [g] *)
| CAny                   (* [[\s\S]] *)
| CDot                   (* [.]: anything but a line terminator *)
| CNot (c : ascii).      (* [[^c]] *)

Inductive regex : Type :=
| RSet (cs : cset)
| RStar (cs : cset)              (* greedy [cs*] *)
| RPlus (cs : cset)              (* greedy [cs+] *)
| ROpt (r : regex)               (* greedy [r?] *)
| RSeq (r1 r2 : regex)
| RAlt (r1 r2 : regex)
| RGroup (r : regex)             (* capturing parentheses *)
| RBol                           (* [^] *)
| REol                           (* [$] *)
| REps.                          (* the empty pattern *)

(** A literal word: the sequence of its characters. *)
Fixpoint lit (s : string) : regex :=
  match s with
  | EmptyString => REps
  | String c EmptyString => RSet (CChar c)
  | String c s' => RSeq (RSet (CChar c)) (lit s')
  end.

Definition is_line_terminator (a : ascii) : bool :=
  (nat_of_ascii a =? 10)%nat || (nat_of_ascii a =? 13)%nat.

(** Does code unit [a] belong to the set?  [ci] is the [i] flag: both
    sides are canonicalised to upper case (a code unit outside ASCII is
    never canonicalised to an ASCII one). *)
Definition in_cset (ci : bool) (cs : cset) (a : ascii) : bool :=
  match cs with
  | CChar c =>
      if ci then Ascii.eqb (JsString.upper_char a) (JsString.upper_char c)
      else Ascii.eqb a c
  | CAny => true
  | CDot => negb (is_line_terminator a)
  | CNot c =>
      negb (if ci then Ascii.eqb (JsString.upper_char a) (JsString.upper_char c)
            else Ascii.eqb a c)
  end.

Section Matcher.
Variable A : Type.
Variable ci : bool.

(** A continuation receives the input offset, the rest of the input and
    the captures made so far. *)
Definition cont : Type := nat -> string -> list string -> option A.

(** Greedy repetition of a set: the longest run first, then shorter. *)
Fixpoint star (cs : cset) (n : nat) (s : string) (caps : list string)
         (k : cont) : option A :=
  match s with
  | String a s' =>
      if in_cset ci cs a then
        match star cs (S n) s' caps k with
        | Some x => Some x
        | None => k n s caps
        end
      else k n s caps
  | EmptyString => k n s caps
  end.

Fixpoint m (r : regex) (n : nat) (s : string) (caps : list string)
         (k : cont) : option A :=
  match r with
  | RSet cs =>
      match s with
      | String a s' => if in_cset ci cs a then k (S n) s' caps else None
      | EmptyString => None
      end
  | RStar cs => star cs n s caps k
  | RPlus cs =>
      match s with
      | String a s' =>
          if in_cset ci cs a then star cs (S n) s' caps k else None
      | EmptyString => None
      end
  | ROpt r1 =>
      match m r1 n s caps k with
      | Some x => Some x
      | None => k n s caps
      end
  | RSeq r1 r2 => m r1 n s caps (fun n' s' caps' => m r2 n' s' caps' k)
  | RAlt r1 r2 =>
      match m r1 n s caps k with
      | Some x => Some x
      | None => m r2 n s caps k
      end
  | RGroup r1 =>
      m r1 n s caps
        (fun n' s' caps' => k n' s' (caps' ++ [substring 0 (n' - n) s])%list)
  | RBol => if (n =? 0)%nat then k n s caps else None
  | REol => match s with EmptyString => k n s caps | _ => None end
  | REps => k n s caps
  end.
End Matcher.

(** The result of a match: the matched text and the captures, as in the
    array [String.prototype.match] returns, with the index. *)
Record match_result : Type := MatchResult {
  matched : string;
  groups : list string;
  index : nat
}.

(** Leftmost match: try every start offset in turn. *)
Fixpoint exec_from (ci : bool) (r : regex) (n : nat) (s : string)
  : option match_result :=
  match m ci r n s []
          (fun n' _ caps => Some (MatchResult (substring 0 (n' - n) s) caps n))
  with
  | Some res => Some res
  | None =>
      match s with
      | String _ s' => exec_from ci r (S n) s'
      | EmptyString => None
      end
  end.

(** [s.match(r)] for a regex without the [g] flag. *)
Definition exec (ci : bool) (r : regex) (s : string) : option match_result :=
  exec_from ci r 0 s.

(** [r.test(s)]. *)
Definition test (ci : bool) (r : regex) (s : string) : bool :=
  match exec ci r s with Some _ => true | None => false end.

(** [s.replace(r, '')] for a regex without the [g] flag: the first match
    is removed. *)
Definition remove_first (ci : bool) (r : regex) (s : string) : string :=
  match exec ci r s with
  | Some res =>
      substring 0 (index res) s ++
      substring (index res + String.length (matched res))
                (String.length s - (index res + String.length (matched res))) s
  | None => s
  end.

(** *** What a regex can match

    [Matches ci r n w rest]: at offset [n], with [w ++ rest] left to read,
    [r] can consume exactly [w]. *)
Inductive Matches (ci : bool) : regex -> nat -> string -> string -> Prop :=
| MSet cs n a rest :
    in_cset ci cs a = true ->
    Matches ci (RSet cs) n (String a "") rest
| MStarNil cs n rest :
    Matches ci (RStar cs) n "" rest
| MStarCons cs n a w rest :
    in_cset ci cs a = true ->
    Matches ci (RStar cs) (S n) w rest ->
    Matches ci (RStar cs) n (String a w) rest
| MPlus cs n a w rest :
    in_cset ci cs a = true ->
    Matches ci (RStar cs) (S n) w rest ->
    Matches ci (RPlus cs) n (String a w) rest
| MOptSome r n w rest :
    Matches ci r n w rest -> Matches ci (ROpt r) n w rest
| MOptNone r n rest :
    Matches ci (ROpt r) n "" rest
| MSeq r1 r2 n w1 w2 rest :
    Matches ci r1 n w1 (w2 ++ rest) ->
    Matches ci r2 (n + String.length w1) w2 rest ->
    Matches ci (RSeq r1 r2) n (w1 ++ w2) rest
| MAltL r1 r2 n w rest :
    Matches ci r1 n w rest -> Matches ci (RAlt r1 r2) n w rest
| MAltR r1 r2 n w rest :
    Matches ci r2 n w rest -> Matches ci (RAlt r1 r2) n w rest
| MGroup r n w rest :
    Matches ci r n w rest -> Matches ci (RGroup r) n w rest
| MBol rest :
    Matches ci RBol 0 "" rest
| MEol n :
    Matches ci REol n "" ""
| MEps n rest :
    Matches ci REps n "" rest.

End Regex.

(* ================================================================= *)
(** ** Results and exceptions *)

(** What a call that may [throw] produces: a value, or the message of the
    [Error] thrown. *)
Inductive outcome (A : Type) : Type :=
| Ret (a : A)
| Throw (message : string).

Arguments Throw {A} message.

Definition bind_outcome {A B : Type} (c : outcome A) (f : A -> outcome B)
  : outcome B :=
  match c with
  | Ret a => f a
  | Throw e => Throw e
  end.

Notation "'try!' x <- c ; k" := (bind_outcome c (fun x => k))
  (at level 60, x name, c at next level, right associativity).

(* ================================================================= *)
(** ** JSON documents and the JavaScript values read from them *)

Inductive json : Type :=
| JNull
| JBool (b : bool)
| JNum (n : Z)
| JStr (s : string)
| JArr (items : list json)
| JObj (fields : list (string * json)).

(** A JavaScript value read from a document: [None] is [undefined]. *)
Definition value : Type := option json.

(** A JavaScript number, as [Math.min] and [Math.max] return it. *)
Inductive number : Type :=
| NaN
| Num (z : Z).

(** Own property [k] of an object literal's field list. *)
Fixpoint lookup (k : string) (fields : list (string * json)) : value :=
  match fields with
  | [] => None
  | (k', v) :: rest => if String.eqb k' k then Some v else lookup k rest
  end.

(** [o.k]: reading a property of [null] or [undefined] throws a TypeError;
    scalars and arrays have none of the properties the source reads. *)
Definition get (o : value) (k : string) : outcome value :=
  match o with
  | None => Throw "TypeError: Cannot read properties of undefined"
  | Some JNull => Throw "TypeError: Cannot read properties of null"
  | Some (JObj fields) => Ret (lookup k fields)
  | Some _ => Ret None
  end.

(** [o?.k]. *)
Definition get_opt (o : value) (k : string) : value :=
  match o with
  | None | Some JNull => None
  | Some (JObj fields) => lookup k fields
  | Some _ => None
  end.

(** ToBoolean. *)
Definition truthy (v : value) : bool :=
  match v with
  | None => false
  | Some JNull => false
  | Some (JBool b) => b
  | Some (JNum n) => negb (n =? 0)%Z
  | Some (JStr s) => negb (String.eqb s "")
  | Some (JArr _) => true
  | Some (JObj _) => true
  end.

(** [a || d] with a literal default [d]. *)
Definition or_default (a : value) (d : json) : json :=
  match a with
  | Some j => if truthy a then j else d
  | None => d
  end.

(** [Array.isArray(a) ? a : []]. *)
Definition array_or_empty (a : value) : list json :=
  match a with
  | Some (JArr items) => items
  | _ => []
  end.

(** [Math.min(a, b)] and [Math.max(a, b)]: [NaN] is contagious. *)
Definition Math_min (a b : number) : number :=
  match a, b with
  | Num x, Num y => Num (Z.min x y)
  | _, _ => NaN
  end.

Definition Math_max (a b : number) : number :=
  match a, b with
  | Num x, Num y => Num (Z.max x y)
  | _, _ => NaN
  end.

(* ================================================================= *)
(** ** The narrative response parser (gemini-api.ts, lines 130-177) *)

Module Gemini.

Record Architecture : Type := {
  pattern : json;
  components : list json
}.

Record Insights : Type := {
  codeQuality : json;
  complexity : number;
  performance : json
}.

Record AnalysisResult : Type := {
  summary : json;
  features : list json;
  architecture : Architecture;
  insights : Insights;
  recommendations : list json
}.

(** The literal [/\{[\s\S]*\}/]. *)
Definition json_span : Regex.regex :=
  Regex.RSeq (Regex.RSet (Regex.CChar "{"))
    (Regex.RSeq (Regex.RStar Regex.CAny) (Regex.RSet (Regex.CChar "}"))).

(** The object of the [catch] branch. *)
Definition fallback : AnalysisResult := {|
  summary := JStr "Analysis completed but could not parse detailed results. The repository appears to be a software project with various files and components.";
  features := [JStr "Code organization"; JStr "File structure"; JStr "Documentation"];
  architecture := {|
    pattern := JStr "Standard project structure";
    components := [JStr "Source files"; JStr "Configuration files"; JStr "Documentation"]
  |};
  insights := {|
    codeQuality := JStr "Repository structure suggests organized development practices.";
    complexity := Num 5;
    performance := JStr "Performance characteristics depend on the specific implementation details."
  |};
  recommendations := [
    JStr "Consider adding more documentation";
    JStr "Ensure proper testing coverage";
    JStr "Optimize build configuration if applicable"
  ]
|}.

Section Parser.

(** [JSON.parse]: the document, or the SyntaxError it throws. *)
Variable JSON_parse : string -> outcome json.

(** ToNumber of a string, an array or an object (ToPrimitive, then
    StringToNumber), which [Math.min] applies to such an argument. *)
Variable ToNumber_object : json -> number.

(** ToNumber. *)
Definition ToNumber (v : json) : number :=
  match v with
  | JNull => Num 0
  | JBool b => Num (if b then 1 else 0)
  | JNum n => Num n
  | JStr _ | JArr _ | JObj _ => ToNumber_object v
  end.

(** The object literal of the [try] branch, "validate and provide
    defaults", on the parsed document. *)
Definition validate (parsed : json) : outcome AnalysisResult :=
  try! p_summary <- get (Some parsed) "summary";
  try! p_features <- get (Some parsed) "features";
  try! p_architecture <- get (Some parsed) "architecture";
  try! p_insights <- get (Some parsed) "insights";
  try! p_recommendations <- get (Some parsed) "recommendations";
  Ret {|
    summary := or_default p_summary (JStr "No summary available");
    features := array_or_empty p_features;
    architecture := {|
      pattern := or_default (get_opt p_architecture "pattern") (JStr "Unknown");
      components := array_or_empty (get_opt p_architecture "components")
    |};
    insights := {|
      codeQuality :=
        or_default (get_opt p_insights "codeQuality") (JStr "No assessment available");
      complexity :=
        Math_max (Num 1)
          (Math_min (Num 10)
             (ToNumber (or_default (get_opt p_insights "complexity") (JNum 5))));
      performance :=
        or_default (get_opt p_insights "performance")
                   (JStr "No performance notes available")
    |};
    recommendations := array_or_empty p_recommendations
  |}.

(** The [insights.complexity] of the validated document. *)
Definition validated_complexity (parsed : json) : outcome number :=
  try! result <- validate parsed;
  Ret (complexity (insights result)).

(** The body of the [try] block. *)
Definition parse_or_throw (analysisText : string) : outcome AnalysisResult :=
  match Regex.exec false json_span analysisText with
  | None => Throw "No JSON found in response"
  | Some jsonMatch =>
      try! parsed <- JSON_parse (Regex.matched jsonMatch);
      validate parsed
  end.

Definition parseAnalysisResult (analysisText : string) : AnalysisResult :=
  match parse_or_throw analysisText with
  | Ret result => result
  | Throw _ => fallback
  end.

End Parser.

(** *** Balanced spans, in the words of the specification

    A span is balanced when it opens with a brace that is closed by its
    last character and by no earlier one. *)
Fixpoint closes_at_end (depth : nat) (s : string) : bool :=
  match s with
  | EmptyString => false
  | String c rest =>
      if Ascii.eqb c "{" then closes_at_end (S depth) rest
      else if Ascii.eqb c "}" then
        match depth with
        | 0 => false
        | 1 => match rest with EmptyString => true | _ => false end
        | S d => closes_at_end d rest
        end
      else
        match depth with
        | 0 => false
        | _ => closes_at_end depth rest
        end
  end.

Definition balanced_span (s : string) : bool := closes_at_end 0 s.

(** All prefixes of a string, shortest first. *)
Fixpoint prefixes (s : string) : list string :=
  "" :: match s with
        | EmptyString => []
        | String c rest => map (String c) (prefixes rest)
        end.

(** Does some substring of [s] form a balanced span? *)
Fixpoint has_balanced_span (s : string) : bool :=
  existsb balanced_span (prefixes s) ||
  match s with
  | EmptyString => false
  | String _ rest => has_balanced_span rest
  end.

(** No brace occurs in the string. *)
Definition brace_free (s : string) : Prop :=
  JsString.count "{" s = 0 /\ JsString.count "}" s = 0.

End Gemini.

(* ================================================================= *)
(** ** The repository analyzer (gemini-api.ts from line 177, [lib/github-api]) *)

Module GitHub.

(** *** Data *)

(** A node of the file structure: the object literals pushed by
    [analyzeFileStructure], of [type] 'file' and 'directory'. *)
Inductive node : Type :=
| FileNode (name path : string) (size : Z)
| DirNode (name path : string) (children : list node).

Record ProjectStats : Type := {
  totalFiles : nat;
  components : nat;
  pages : nat
}.

Record SampleFile : Type := {
  sample_path : string;
  content : string
}.

(** One element of a directory listing of the host:
    [{name, path, type, size}]. *)
Record entry : Type := {
  item_name : string;
  item_path : string;
  item_type : string;
  item_size : Z
}.

(** A JSON document of the host.  [Doc j] is any document other than a
    listing; when [j] is an array, none of its elements has the [type]
    'file' or 'dir'. *)
Inductive document : Type :=
| Entries (items : list entry)     (* an array of directory entries *)
| Doc (j : json).

(** What [await fetch(url)] gives: a rejection (network error), or a
    response with its [ok] flag and what [await response.json()] gives,
    the document or the error of a body that is not JSON. *)
Inductive response : Type :=
| Rejected (message : string)
| Response (ok : bool) (json : outcome document).

Record RepoData : Type := {
  repository : document;
  stats : ProjectStats;
  languages : list string;
  technologies : list string;
  fileStructure : list node;
  sampleFiles : list SampleFile
}.

(** *** Classifier *)

(** The sequence of several patterns. *)
Fixpoint seqs (l : list Regex.regex) : Regex.regex :=
  match l with
  | [] => Regex.REps
  | [r] => r
  | r :: rest => Regex.RSeq r (seqs rest)
  end.

(** [/\/words?\//]. *)
Definition dir_word (w : string) : Regex.regex :=
  seqs [Regex.lit ("/" ++ w); Regex.ROpt (Regex.RSet (Regex.CChar "s"));
        Regex.RSet (Regex.CChar "/")].

Definition componentExtensions : list string :=
  [".tsx"; ".jsx"; ".vue"; ".svelte"].

Definition componentPatterns : list Regex.regex := [
  dir_word "component";            (* /\/components?\//i *)
  Regex.lit "/ui/";                (* /\/ui\//i *)
  dir_word "widget";               (* /\/widgets?\//i *)
  Regex.lit "/shared/"             (* /\/shared\//i *)
].

Definition isComponent (fileName filePath : string) : bool :=
  existsb (fun ext => JsString.endsWith fileName ext) componentExtensions &&
  existsb (fun pattern => Regex.test true pattern filePath) componentPatterns.

Definition pagePatterns : list Regex.regex := [
  dir_word "page";                 (* /\/pages?\//i *)
  dir_word "route";                (* /\/routes?\//i *)
  dir_word "view";                 (* /\/views?\//i *)
  dir_word "screen";               (* /\/screens?\//i *)
  seqs [Regex.RBol; Regex.lit "page";
        Regex.ROpt (Regex.RSet (Regex.CChar "s"));
        Regex.RSet (Regex.CChar "/")];          (* /^pages?\//i *)
  seqs [Regex.lit "app/"; Regex.RStar Regex.CDot;
        Regex.RSet (Regex.CChar ".");
        Regex.RGroup
          (Regex.RAlt (Regex.lit "tsx")
             (Regex.RAlt (Regex.lit "jsx")
                (Regex.RAlt (Regex.lit "js") (Regex.lit "ts"))));
        Regex.REol]                 (* /app\/.*\.(tsx|jsx|js|ts)$/i *)
].

Definition isPage (fileName filePath : string) : bool :=
  existsb (fun pattern => Regex.test true pattern filePath) pagePatterns ||
  JsString.includes (JsString.toLowerCase fileName) "page" ||
  JsString.includes (JsString.toLowerCase fileName) "route".

(** *** Aggregator *)

(** The three counters [countFiles] increments. *)
Definition count_file (name path : string) (acc : ProjectStats) : ProjectStats :=
  {| totalFiles := S (totalFiles acc);
     components :=
       if isComponent name path then S (components acc) else components acc;
     pages := if isPage name path then S (pages acc) else pages acc |}.

(** [countFiles] on one element of the loop. *)
Fixpoint countFile (file : node) (acc : ProjectStats) : ProjectStats :=
  match file with
  | FileNode name path _ => count_file name path acc
  | DirNode _ _ children =>
      (fix countFiles (files : list node) (acc : ProjectStats) : ProjectStats :=
         match files with
         | [] => acc
         | file :: rest => countFiles rest (countFile file acc)
         end) children acc
  end.

Fixpoint countFiles (files : list node) (acc : ProjectStats) : ProjectStats :=
  match files with
  | [] => acc
  | file :: rest => countFiles rest (countFile file acc)
  end.

Definition analyzeProjectStats (fileStructure : list node) : ProjectStats :=
  countFiles fileStructure {| totalFiles := 0; components := 0; pages := 0 |}.

(** The number of FileNodes a predicate on name and path holds for, at
    any depth. *)
Fixpoint count_in_node (p : string -> string -> bool) (n : node) : nat :=
  match n with
  | FileNode name path _ => if p name path then 1 else 0
  | DirNode _ _ children => list_sum (map (count_in_node p) children)
  end.

Definition count_in_tree (p : string -> string -> bool) (tree : list node) : nat :=
  list_sum (map (count_in_node p) tree).

(** The number of FileNodes reachable at any depth. *)
Definition file_count (tree : list node) : nat :=
  count_in_tree (fun _ _ => true) tree.

(** The counters, each grown by a number of files. *)
Definition counted (files comps pgs : nat) (acc : ProjectStats) : ProjectStats :=
  {| totalFiles := totalFiles acc + files;
     components := components acc + comps;
     pages := pages acc + pgs |}.

(** *** Shape of a tree *)

Definition children_of (n : node) : list node :=
  match n with
  | FileNode _ _ _ => []
  | DirNode _ _ children => children
  end.

(** The nodes at nesting level [k]; the nodes of the tree itself are at
    level 1, their children at level 2. *)
Fixpoint level (k : nat) (tree : list node) : list node :=
  match k with
  | 0 => []
  | S k' =>
      match k' with
      | 0 => tree
      | S _ => level k' (flat_map children_of tree)
      end
  end.

(** A node and all nodes below it, in pre-order. *)
Fixpoint nodes_of (n : node) : list node :=
  n :: match n with
       | FileNode _ _ _ => []
       | DirNode _ _ children => flat_map nodes_of children
       end.

Definition all_nodes (tree : list node) : list node := flat_map nodes_of tree.

(** The directory names the walker does not descend into. *)
Definition excluded (name : string) : bool :=
  JsString.startsWith name "." || String.eqb name "node_modules".

(** *** Technology detection *)

(** [Set.prototype.add], in insertion order. *)
Definition set_add (x : string) (set : list string) : list string :=
  if existsb (String.eqb x) set then set else set ++ [x].

(** The [fileName.includes(marker)] rules, in source order. *)
Definition fileNameMarkers : list (string * string) := [
  ("package.json", "Node.js");
  ("next.config", "Next.js");
  ("nuxt.config", "Nuxt.js");
  ("vue.config", "Vue.js");
  ("angular.json", "Angular");
  ("svelte.config", "Svelte");
  ("vite.config", "Vite");
  ("webpack.config", "Webpack");
  ("tailwind.config", "Tailwind CSS");
  ("postcss.config", "PostCSS");
  ("tsconfig.json", "TypeScript");
  ("jest.config", "Jest");
  ("cypress.config", "Cypress");
  ("playwright.config", "Playwright");
  ("docker", "Docker");
  ("docker-compose", "Docker Compose");
  (".env", "Environment Variables");
  ("prisma", "Prisma");
  ("supabase", "Supabase");
  ("firebase", "Firebase")
].

Definition fileNameMarkersAfterGraphql : list (string * string) := [
  ("eslint", "ESLint");
  ("prettier", "Prettier");
  ("husky", "Husky");
  ("lint-staged", "Lint Staged")
].

Definition add_markers (markers : list (string * string)) (text : string)
           (set : list string) : list string :=
  fold_left (fun acc rule =>
               if JsString.includes text (fst rule) then set_add (snd rule) acc
               else acc) markers set.

Definition tech_of_file (name path : string) (set : list string) : list string :=
  let fileName := JsString.toLowerCase name in
  let filePath := JsString.toLowerCase path in
  let set := add_markers fileNameMarkers fileName set in
  let set := if JsString.includes filePath "graphql" then set_add "GraphQL" set
             else set in
  add_markers fileNameMarkersAfterGraphql fileName set.

Fixpoint analyzeTechFile (file : node) (set : list string) : list string :=
  match file with
  | FileNode name path _ => tech_of_file name path set
  | DirNode _ _ children =>
      (fix analyzeTech (files : list node) (set : list string) : list string :=
         match files with
         | [] => set
         | file :: rest => analyzeTech rest (analyzeTechFile file set)
         end) children set
  end.

Fixpoint analyzeTech (files : list node) (set : list string) : list string :=
  match files with
  | [] => set
  | file :: rest => analyzeTech rest (analyzeTechFile file set)
  end.

Definition detectTechnologies (fileStructure : list node)
           (languages : list string) : list string :=
  analyzeTech fileStructure (fold_left (fun acc lang => set_add lang acc) languages []).

(** *** The remote host

    [fetch] is the only effect of the module.  The host is a state
    machine: a request returns a response and the host's next state, so a
    host may answer the same URL differently at different times. *)

Section Host.

Variable World : Type.
Variable fetch : string -> World -> response * World.

(** [atob]: the decoded text, or the error it throws on malformed input. *)
Variable atob : string -> outcome string.

(** ToString of the value passed to [atob]. *)
Variable ToString : value -> string.

(** The state of a run: the host, and the URLs requested so far. *)
Record state : Type := {
  world : World;
  requests : list string
}.

Definition M (A : Type) : Type := state -> A * state.

Definition ret {A : Type} (a : A) : M A := fun st => (a, st).

Definition bind {A B : Type} (c : M A) (f : A -> M B) : M B :=
  fun st => let (a, st') := c st in f a st'.

Notation "x <- c ;; k" := (bind c (fun x => k))
  (at level 61, c at next level, right associativity).

(** [await fetch(url)]. *)
Definition do_fetch (url : string) : M response :=
  fun st =>
    let (r, w) := fetch url (world st) in
    (r, {| world := w; requests := requests st ++ [url] |}).

(** A computation only adds requests to the log. *)
Definition appends {A : Type} (c : M A) : Prop :=
  forall st, exists new, requests (snd (c st)) = (requests st ++ new)%list.

(** *** Tree walker *)

Definition contents_url (owner repo path : string) : string :=
  "https://api.github.com/repos/" ++ owner ++ "/" ++ repo ++ "/contents/" ++ path.

(** The [for (const item of contents)] loop; [walk] is the recursive call
    on a path. *)
Fixpoint walk_items (walk : string -> M (list node)) (contents : list entry)
         (files : list node) : M (list node) :=
  match contents with
  | [] => ret files
  | item :: rest =>
      if String.eqb (item_type item) "file" then
        walk_items walk rest
          (files ++ [FileNode (item_name item) (item_path item) (item_size item)])
      else if String.eqb (item_type item) "dir"
              && negb (JsString.startsWith (item_name item) ".")
              && negb (String.eqb (item_name item) "node_modules") then
        subFiles <- walk (item_path item) ;;
        walk_items walk rest
          (files ++ [DirNode (item_name item) (item_path item) subFiles])
      else walk_items walk rest files
  end.

(** What the loop adds for a listing, as a relation: the nodes added and
    the states before and after. *)
Inductive emitted (walk : string -> M (list node))
  : list entry -> state -> list node -> state -> Prop :=
| emitted_nil st :
    emitted walk [] st [] st
| emitted_file item rest st added st' :
    item_type item = "file" ->
    emitted walk rest st added st' ->
    emitted walk (item :: rest) st
            (FileNode (item_name item) (item_path item) (item_size item) :: added) st'
| emitted_dir item rest st subFiles st1 added st' :
    item_type item = "dir" ->
    excluded (item_name item) = false ->
    walk (item_path item) st = (subFiles, st1) ->
    emitted walk rest st1 added st' ->
    emitted walk (item :: rest) st
            (DirNode (item_name item) (item_path item) subFiles :: added) st'
| emitted_skip item rest st added st' :
    item_type item <> "file" ->
    item_type item <> "dir" \/ excluded (item_name item) = true ->
    emitted walk rest st added st' ->
    emitted walk (item :: rest) st added st'.

(** A listing call keeps to the tree it returns: it only adds requests,
    each for its own path or for the path of a directory of the tree, and
    the tree holds no excluded directory. *)
Definition keeps_to_tree (owner repo : string) (walk : string -> M (list node))
  : Prop :=
  forall path st,
    (exists new,
        requests (snd (walk path st)) = (requests st ++ new)%list /\
        forall url, In url new ->
          url = contents_url owner repo path \/
          exists name p children,
            In (DirNode name p children) (all_nodes (fst (walk path st))) /\
            url = contents_url owner repo p) /\
    (forall name p children,
        In (DirNode name p children) (all_nodes (fst (walk path st))) ->
        excluded name = false).

(** [analyzeFileStructure] with the number of levels it may still list. *)
Fixpoint walk (levels : nat) (owner repo path : string) (depth : Z)
  : M (list node) :=
  match levels with
  | 0 => ret []
  | S levels' =>
      if (depth >? 3)%Z then ret []
      else
        r <- do_fetch (contents_url owner repo path) ;;
        match r with
        | Rejected _ => ret []
        | Response ok json =>
            if negb ok then ret []
            else
              match json with
              | Throw _ => ret []
              | Ret (Doc _) => ret []
              | Ret (Entries contents) =>
                  walk_items
                    (fun p => walk levels' owner repo p (depth + 1)%Z)
                    contents []
              end
        end
  end.

(** The depth grows by one at each call and stops the recursion at 4:
    [4 - depth] levels are all a call can list. *)
Definition analyzeFileStructure (owner repo path : string) (depth : Z)
  : M (list node) :=
  walk (Z.to_nat (4 - depth)) owner repo path depth.

(** *** Sampler *)

Definition targetFiles : list string :=
  ["package.json"; "README.md"; "tsconfig.json"; "next.config.js"; "vite.config.ts"].

Definition is_target (name : string) : bool :=
  existsb (fun target => JsString.includes name target) targetFiles.

(** The [try] block of [findAndFetchFiles]: what is pushed, if anything. *)
Definition fetch_sample (owner repo path : string) : M (option SampleFile) :=
  r <- do_fetch (contents_url owner repo path) ;;
  ret match r with
      | Rejected _ => None
      | Response ok json =>
          if ok then
            match json with
            | Throw _ => None
            | Ret (Doc JNull) => None
            | Ret (Doc data) =>
                match atob (ToString (get_opt (Some data) "content")) with
                | Ret text => Some {| sample_path := path; content := text |}
                | Throw _ => None
                end
            | Ret (Entries _) =>
                match atob (ToString None) with
                | Ret text => Some {| sample_path := path; content := text |}
                | Throw _ => None
                end
            end
          else None
      end.

Definition push_sample (found : option SampleFile) (sampleFiles : list SampleFile)
  : list SampleFile :=
  match found with
  | Some f => sampleFiles ++ [f]
  | None => sampleFiles
  end.

(** [findAndFetchFiles] on one element of the loop. *)
Fixpoint findAndFetchFile (owner repo : string) (file : node)
         (sampleFiles : list SampleFile) : M (list SampleFile) :=
  match file with
  | FileNode name path _ =>
      if is_target name then
        found <- fetch_sample owner repo path ;;
        ret (push_sample found sampleFiles)
      else ret sampleFiles
  | DirNode _ _ children =>
      (fix findAndFetchFiles (files : list node) (sampleFiles : list SampleFile)
         : M (list SampleFile) :=
         match files with
         | [] => ret sampleFiles
         | file :: rest =>
             sampleFiles' <- findAndFetchFile owner repo file sampleFiles ;;
             findAndFetchFiles rest sampleFiles'
         end) children sampleFiles
  end.

Fixpoint findAndFetchFiles (owner repo : string) (files : list node)
         (sampleFiles : list SampleFile) : M (list SampleFile) :=
  match files with
  | [] => ret sampleFiles
  | file :: rest =>
      sampleFiles' <- findAndFetchFile owner repo file sampleFiles ;;
      findAndFetchFiles owner repo rest sampleFiles'
  end.

(** The paths of the candidates of a node, in pre-order: the FileNodes
    whose name contains one of [targetFiles]. *)
Fixpoint candidates_of (n : node) : list string :=
  match n with
  | FileNode name path _ => if is_target name then [path] else []
  | DirNode _ _ children => flat_map candidates_of children
  end.

Definition candidates (tree : list node) : list string :=
  flat_map candidates_of tree.

(** The samples of a list of paths, fetched one after the other; a
    failed fetch adds nothing. *)
Fixpoint fetch_each (owner repo : string) (paths : list string)
         (sampleFiles : list SampleFile) : M (list SampleFile) :=
  match paths with
  | [] => ret sampleFiles
  | path :: rest =>
      found <- fetch_sample owner repo path ;;
      fetch_each owner repo rest (push_sample found sampleFiles)
  end.

(** [slice(0, 5)]. *)
Definition getSampleFiles (owner repo : string) (fileStructure : list node)
  : M (list SampleFile) :=
  sampleFiles <- findAndFetchFiles owner repo fileStructure [] ;;
  ret (firstn 5 sampleFiles).

(** *** Snapshot builder *)

(** The literal [/github\.com\/([^\/]+)\/([^\/]+)/]. *)
Definition github_url : Regex.regex :=
  seqs [Regex.lit "github.com/";
        Regex.RGroup (Regex.RPlus (Regex.CNot "/"));
        Regex.RSet (Regex.CChar "/");
        Regex.RGroup (Regex.RPlus (Regex.CNot "/"))].

(** The literal [/\.git$/]. *)
Definition dot_git_suffix : Regex.regex :=
  seqs [Regex.lit ".git"; Regex.REol].

(** The array indices ["0"], ..., as [Object.keys] lists them. *)
Definition index_keys (n : nat) : list string :=
  map (fun i => NilEmpty.string_of_uint (Nat.to_uint i)) (seq 0 n).

(** [Object.keys]. *)
Definition Object_keys (o : document) : outcome (list string) :=
  match o with
  | Entries items => Ret (index_keys (List.length items))
  | Doc JNull => Throw "TypeError: Cannot convert undefined or null to object"
  | Doc (JObj fields) => Ret (map fst fields)
  | Doc (JArr items) => Ret (index_keys (List.length items))
  | Doc (JStr s) => Ret (index_keys (String.length s))
  | Doc (JBool _) | Doc (JNum _) => Ret []
  end.

(** Computations that may throw. *)
Definition ME (A : Type) : Type := M (outcome A).

Definition bindE {A B : Type} (c : ME A) (f : A -> ME B) : ME B :=
  r <- c ;;
  match r with
  | Ret a => f a
  | Throw e => ret (Throw e)
  end.

Notation "x <-! c ;; k" := (bindE c (fun x => k))
  (at level 61, c at next level, right associativity).

Definition throw {A : Type} (message : string) : ME A := ret (Throw message).

Definition lift {A : Type} (c : M A) : ME A := a <- c ;; ret (Ret a).

Definition pure {A : Type} (c : outcome A) : ME A := ret c.

(** [await fetch(url)], throwing on a rejection. *)
Definition fetch_or_throw (url : string) : ME (bool * outcome document) :=
  r <- do_fetch url ;;
  match r with
  | Rejected e => throw e
  | Response ok json => ret (Ret (ok, json))
  end.

Definition repo_url (owner repo : string) : string :=
  "https://api.github.com/repos/" ++ owner ++ "/" ++ repo.

(** The body of the [try] block of [analyzeRepository]. *)
Definition analyze_or_throw (owner cleanRepo : string) : ME RepoData :=
  repoResponse <-! fetch_or_throw (repo_url owner cleanRepo) ;;
  if negb (fst repoResponse) then throw "Repository not found or not accessible"
  else
    repository <-! pure (snd repoResponse) ;;
    contentsResponse <-! fetch_or_throw (repo_url owner cleanRepo ++ "/contents") ;;
    if negb (fst contentsResponse) then throw "Failed to fetch repository contents"
    else
      contents <-! pure (snd contentsResponse) ;;
      languagesResponse <-! fetch_or_throw (repo_url owner cleanRepo ++ "/languages") ;;
      languages <-! pure (if fst languagesResponse then snd languagesResponse
                          else Ret (Doc (JObj []))) ;;
      fileStructure <-! lift (analyzeFileStructure owner cleanRepo "" 0) ;;
      let stats := analyzeProjectStats fileStructure in
      keys <-! pure (Object_keys languages) ;;
      let technologies := detectTechnologies fileStructure keys in
      sampleFiles <-! lift (getSampleFiles owner cleanRepo fileStructure) ;;
      ret (Ret {| repository := repository;
                  stats := stats;
                  languages := keys;
                  technologies := technologies;
                  fileStructure := fileStructure;
                  sampleFiles := sampleFiles |}).

Definition analyzeRepository (repoUrl : string) : ME RepoData :=
  match Regex.exec false github_url repoUrl with
  | None => throw "Invalid GitHub repository URL"
  | Some found =>
      let owner := nth 0 (Regex.groups found) "" in
      let repo := nth 1 (Regex.groups found) "" in
      let cleanRepo := Regex.remove_first false dot_git_suffix repo in
      r <- analyze_or_throw owner cleanRepo ;;
      match r with
      | Ret data => ret (Ret data)
      | Throw message => throw ("Failed to analyze repository: " ++ message)
      end
  end.

End Host.

End GitHub.

(* ================================================================= *)
(** ** The client of the generative text service (gemini-api.ts, lines 1-128) *)

Module Client.

(** The double quote and the line feed. *)
Definition quote : string := String "034" "".
Definition newline : string := String "010" "".

(** [Array.prototype.join] on strings. *)
Fixpoint join (sep : string) (l : list string) : string :=
  match l with
  | [] => ""
  | [x] => x
  | x :: rest => x ++ sep ++ join sep rest
  end.

(** The text of a template literal that is written on several lines: each
    line, and the line feed after it. *)
Fixpoint lines (l : list string) : string :=
  match l with
  | [] => ""
  | x :: rest => x ++ newline ++ lines rest
  end.

(** A count in a template literal: its decimal digits. *)
Definition count_text (n : nat) : string :=
  NilEmpty.string_of_uint (Nat.to_uint n).

(** A status code in a template literal. *)
Definition status_text (status : Z) : string :=
  NilZero.string_of_int (Z.to_int status).

(** [file.content.substring(0, 1000)], and '...' after a longer content. *)
Definition excerpt (content : string) : string :=
  substring 0 1000 content ++
  (if (1000 <? String.length content)%nat then "..." else "").

(** The template of the [map] callback on a sample. *)
Definition sample_section (file : GitHub.SampleFile) : string :=
  newline ++ "--- " ++ GitHub.sample_path file ++ " ---" ++ newline ++
  excerpt (GitHub.content file) ++ newline.

(** The lines of the template of [createAnalysisPrompt], the first after
    the opening backquote, with the text of each interpolation. *)
Definition prompt_lines
           (name description stars language created updated : string)
           (totalFiles components pages languages technologies samples : string)
  : list string := [
  "";
  "Analyze this GitHub repository and provide a comprehensive analysis in the following JSON format:";
  "";
  "{";
  "  " ++ quote ++ "summary" ++ quote ++ ": " ++ quote ++ "Brief overview of what this project does and its purpose" ++ quote ++ ",";
  "  " ++ quote ++ "features" ++ quote ++ ": [" ++ quote ++ "List of main features/functionalities" ++ quote ++ "],";
  "  " ++ quote ++ "architecture" ++ quote ++ ": {";
  "    " ++ quote ++ "pattern" ++ quote ++ ": " ++ quote ++ "Architecture pattern used (MVC, Component-based, etc.)" ++ quote ++ ",";
  "    " ++ quote ++ "components" ++ quote ++ ": [" ++ quote ++ "Key architectural components" ++ quote ++ "]";
  "  },";
  "  " ++ quote ++ "insights" ++ quote ++ ": {";
  "    " ++ quote ++ "codeQuality" ++ quote ++ ": " ++ quote ++ "Assessment of code quality and organization" ++ quote ++ ",";
  "    " ++ quote ++ "complexity" ++ quote ++ ": 5,";
  "    " ++ quote ++ "performance" ++ quote ++ ": " ++ quote ++ "Performance considerations and potential issues" ++ quote;
  "  },";
  "  " ++ quote ++ "recommendations" ++ quote ++ ": [" ++ quote ++ "List of improvement suggestions" ++ quote ++ "]";
  "}";
  "";
  "Repository Information:";
  "- Name: " ++ name;
  "- Description: " ++ description;
  "- Stars: " ++ stars;
  "- Language: " ++ language;
  "- Created: " ++ created;
  "- Last Updated: " ++ updated;
  "";
  "Statistics:";
  "- Total Files: " ++ totalFiles;
  "- Components: " ++ components;
  "- Pages: " ++ pages;
  "- Languages: " ++ languages;
  "- Technologies: " ++ technologies;
  "";
  "Sample File Contents:";
  samples;
  "";
  "Please provide a thorough analysis focusing on:";
  "1. What the application does and its main purpose";
  "2. Technical architecture and patterns used";
  "3. Code quality and organization";
  "4. Performance considerations";
  "5. Suggestions for improvement";
  "";
  "Respond ONLY with valid JSON format."
].

(** A property of the repository document; an array has none of those
    the template reads. *)
Definition repository_field (repository : GitHub.document) (k : string)
  : outcome value :=
  match repository with
  | GitHub.Entries _ => Ret None
  | GitHub.Doc j => get (Some j) k
  end.

(** [x[0]]. *)
Definition first_of (x : value) : outcome value :=
  match x with
  | None => Throw "TypeError: Cannot read properties of undefined"
  | Some JNull => Throw "TypeError: Cannot read properties of null"
  | Some (JArr items) => Ret (nth_error items 0)
  | Some (JStr s) =>
      Ret match s with
          | EmptyString => None
          | String c _ => Some (JStr (String c ""))
          end
  | Some (JObj fields) => Ret (lookup "0" fields)
  | Some (JBool _) | Some (JNum _) => Ret None
  end.

(** What [await fetch(url, {method: 'POST', ...})] gives: a rejection, or
    a response with its [ok] flag, its status and what
    [await response.json()] gives. *)
Inductive response : Type :=
| Rejected (message : string)
| Response (ok : bool) (status : Z) (json : outcome json).

Definition endpoint : string :=
  "https://generativelanguage.googleapis.com/v1beta/models/gemini-1.5-flash-latest:generateContent?key=".

Section Service.

Variable World : Type.

(** The service: the URL and the prompt of the request body (the other
    fields of the body are constants), and the state of the service. *)
Variable post : string -> string -> World -> response * World.

Variable JSON_parse : string -> outcome json.
Variable ToNumber_object : json -> number.

(** ToString, of a value in a template literal. *)
Variable ToString : value -> string.

Definition createAnalysisPrompt (repoData : GitHub.RepoData) : outcome string :=
  let repository := GitHub.repository repoData in
  let stats := GitHub.stats repoData in
  try! name <- repository_field repository "name";
  try! description <- repository_field repository "description";
  try! stars <- repository_field repository "stargazers_count";
  try! language <- repository_field repository "language";
  try! created <- repository_field repository "created_at";
  try! updated <- repository_field repository "updated_at";
  Ret (lines
         (prompt_lines
            (ToString name)
            (ToString (Some (or_default description (JStr "No description"))))
            (ToString stars) (ToString language)
            (ToString created) (ToString updated)
            (count_text (GitHub.totalFiles stats))
            (count_text (GitHub.components stats))
            (count_text (GitHub.pages stats))
            (join ", " (GitHub.languages repoData))
            (join ", " (GitHub.technologies repoData))
            (join newline (map sample_section (GitHub.sampleFiles repoData))))).

(** [parseAnalysisResult] on the value read from the response: a value
    that is no string has no [match] method, and the TypeError is caught by
    the parser. *)
Definition parse_value (analysisText : value) : Gemini.AnalysisResult :=
  match analysisText with
  | Some (JStr text) => Gemini.parseAnalysisResult JSON_parse ToNumber_object text
  | _ => Gemini.fallback
  end.

Definition invalid_format : string := "Invalid response format from Gemini API".

(** The statements after [const data = await response.json()]. *)
Definition read_candidates (data : json) : outcome Gemini.AnalysisResult :=
  try! candidates <- get (Some data) "candidates";
  if negb (truthy candidates) then Throw invalid_format
  else
    try! candidate <- first_of candidates;
    if negb (truthy candidate) then Throw invalid_format
    else
      try! content <- get candidate "content";
      if negb (truthy content) then Throw invalid_format
      else
        try! parts <- get content "parts";
        try! part <- first_of parts;
        try! analysisText <- get part "text";
        Ret (parse_value analysisText).

(** The branch [if (!response.ok)]: it always throws. *)
Definition status_error (status : Z) (json : outcome json) : string :=
  let errorData := match json with Ret j => j | Throw _ => JObj [] end in
  if (status =? 400)%Z then
    "Invalid API key or request format. Please check your Gemini API key."
  else if (status =? 403)%Z then
    "API key does not have permission to access Gemini API."
  else if (status =? 429)%Z then
    "Rate limit exceeded. Please try again later."
  else
    match get (Some errorData) "error" with
    | Throw e => e
    | Ret error =>
        "Gemini API error (" ++ status_text status ++ "): " ++
        ToString (Some (or_default (get_opt error "message") (JStr "Unknown error")))
    end.

(** The state of a run: the service, and the requests sent so far, each
    with its URL and its prompt. *)
Record state : Type := {
  service : World;
  sent : list (string * string)
}.

Definition analyzeWithGemini (repoData : GitHub.RepoData) (apiKey : string)
           (st : state) : outcome Gemini.AnalysisResult * state :=
  match createAnalysisPrompt repoData with
  | Throw e => (Throw e, st)
  | Ret prompt =>
      let (r, w) := post (endpoint ++ apiKey) prompt (service st) in
      (match r with
       | Rejected e => Throw e
       | Response ok status json =>
           if negb ok then Throw (status_error status json)
           else
             try! data <- json;
             read_candidates data
       end,
       {| service := w; sent := sent st ++ [(endpoint ++ apiKey, prompt)] |})
  end.

End Service.

End Client.

(* ================================================================= *)
(** ** Some hosts and trees

    Concrete hosts, on which the functions of the module run. *)

Module Hosts.

Definition dir_entry (name path : string) : GitHub.entry :=
  {| GitHub.item_name := name; GitHub.item_path := path;
     GitHub.item_type := "dir"; GitHub.item_size := 0 |}.

Definition file_entry (name path : string) (size : Z) : GitHub.entry :=
  {| GitHub.item_name := name; GitHub.item_path := path;
     GitHub.item_type := "file"; GitHub.item_size := size |}.

Definition start {World : Type} (w : World) : GitHub.state World :=
  {| GitHub.world := w; GitHub.requests := [] |}.

(** A decoder that takes every text for its own encoding. *)
Definition plain_atob (s : string) : outcome string := Ret s.

Definition plain_ToString (v : value) : string :=
  match v with
  | Some (JStr s) => s
  | Some _ => "[object Object]"
  | None => "undefined"
  end.

(** Every directory holds one directory, [sub], again. *)
Definition nested (url : string) (w : unit) : GitHub.response * unit :=
  (GitHub.Response true (Ret (GitHub.Entries [dir_entry "sub" "sub"])), w).

(** The root holds [.git], [node_modules], [src] and a README; nothing
    else can be listed. *)
Definition hidden (url : string) (w : unit) : GitHub.response * unit :=
  (if String.eqb url "https://api.github.com/repos/acme/widgets/contents/" then
     GitHub.Response true
       (Ret (GitHub.Entries [dir_entry ".git" ".git";
                             dir_entry "node_modules" "node_modules";
                             dir_entry "src" "src";
                             file_entry "README.md" "README.md" 10]))
   else GitHub.Response false (Throw "Unexpected token"), w).

(** The metadata of the repository is served; its contents are not. *)
Definition metadata_only (url : string) (w : unit) : GitHub.response * unit :=
  (if String.eqb url "https://api.github.com/repos/acme/widgets" then
     GitHub.Response true (Ret (GitHub.Doc (JObj [("name", JStr "widgets")])))
   else GitHub.Response false (Ret (GitHub.Doc (JObj [("message", JStr "Not Found")]))),
   w).

(** The host answers three requests, then the network is down.  The
    state counts the requests. *)
Definition three_then_down (url : string) (n : nat) : GitHub.response * nat :=
  (if (n <? 3)%nat then GitHub.Response true (Ret (GitHub.Doc (JObj [])))
   else GitHub.Rejected "Failed to fetch", S n).

(** Every file is served but the root [package.json]. *)
Definition all_but_package_json (url : string) (w : unit) : GitHub.response * unit :=
  (if String.eqb url "https://api.github.com/repos/acme/widgets/contents/package.json"
   then GitHub.Rejected "Failed to fetch"
   else GitHub.Response true (Ret (GitHub.Doc (JObj [("content", JStr "e30=")]))), w).

(** Every file is served. *)
Definition serves_all (url : string) (w : unit) : GitHub.response * unit :=
  (GitHub.Response true (Ret (GitHub.Doc (JObj [("content", JStr "e30=")]))), w).

(** A tree with seven candidates. *)
Definition seven_candidates : list GitHub.node := [
  GitHub.FileNode "package.json" "package.json" 100;
  GitHub.FileNode "README.md" "README.md" 100;
  GitHub.FileNode "index.html" "index.html" 100;
  GitHub.DirNode "app" "app" [
    GitHub.FileNode "tsconfig.json" "app/tsconfig.json" 100;
    GitHub.FileNode "main.ts" "app/main.ts" 100;
    GitHub.FileNode "vite.config.ts" "app/vite.config.ts" 100
  ];
  GitHub.FileNode "next.config.js" "next.config.js" 100;
  GitHub.DirNode "docs" "docs" [
    GitHub.FileNode "README.md" "docs/README.md" 100;
    GitHub.FileNode "old-package.json.bak" "docs/old-package.json.bak" 100
  ]
].

End Hosts.

(* ================================================================= *)
(** ** Letter case and patterns *)

(** The 256 code units. *)
Definition all_ascii : list ascii := map ascii_of_nat (seq 0 256).

Fixpoint all_chars (p : ascii -> bool) (s : string) : bool :=
  match s with
  | EmptyString => true
  | String a s' => p a && all_chars p s'
  end.

(** No letter A-Z occurs in the literals of a set or of a pattern. *)
Definition cset_lower (cs : Regex.cset) : bool :=
  match cs with
  | Regex.CChar c | Regex.CNot c => negb (JsString.is_upper c)
  | Regex.CAny | Regex.CDot => true
  end.

Fixpoint regex_lower (r : Regex.regex) : bool :=
  match r with
  | Regex.RSet cs | Regex.RStar cs | Regex.RPlus cs => cset_lower cs
  | Regex.ROpt r1 | Regex.RGroup r1 => regex_lower r1
  | Regex.RSeq r1 r2 | Regex.RAlt r1 r2 => regex_lower r1 && regex_lower r2
  | Regex.RBol | Regex.REol | Regex.REps => true
  end.

(** The directory segments of the component patterns and of the page
    patterns, in lower case. *)
Definition componentSegments : list string :=
  ["/component/"; "/components/"; "/ui/"; "/widget/"; "/widgets/"; "/shared/"].

Definition pageSegments : list string :=
  ["/page/"; "/pages/"; "/route/"; "/routes/"; "/view/"; "/views/";
   "/screen/"; "/screens/"].

Definition appExtensions : list string := ["tsx"; "jsx"; "js"; "ts"].

(** A path of the application-router convention, in lower case: [app/],
    then a run without line terminator, then a dot and one of the four
    extensions at the end. *)
Definition app_route_path (s : string) : Prop :=
  exists pre mid ext,
    s = pre ++ "app/" ++ mid ++ "." ++ ext /\
    In ext appExtensions /\
    all_chars (fun a => negb (Regex.is_line_terminator a)) mid = true.

(* ================================================================= *)
(** ** Technology tags, rule by rule *)

(** All rules on the file name, in source order. *)
Definition fileNameRules : list (string * string) :=
  GitHub.fileNameMarkers ++ GitHub.fileNameMarkersAfterGraphql.

(** A file gives a tag when its lower-cased name holds a marker of the
    tag, or, for GraphQL, when its lower-cased path holds "graphql". *)
Definition file_gives_tag (name path tag : string) : Prop :=
  (exists marker,
      In (marker, tag) fileNameRules /\
      JsString.includes (JsString.toLowerCase name) marker = true) \/
  (tag = "GraphQL" /\
   JsString.includes (JsString.toLowerCase path) "graphql" = true).

(** A tree with its names and paths rewritten. *)
Fixpoint rename (f g : string -> string) (n : GitHub.node) : GitHub.node :=
  match n with
  | GitHub.FileNode name path size => GitHub.FileNode (f name) (g path) size
  | GitHub.DirNode name path children =>
      GitHub.DirNode (f name) (g path) (map (rename f g) children)
  end.

(** What a traversal keeps: no duplicate, the tags it had come first, and
    a tag is in the set after it exactly when it was before or a file of
    the tree gives it. *)
Definition tech_step (nodes : list GitHub.node) (set result : list string)
  : Prop :=
  (NoDup set -> NoDup result) /\
  (exists more, result = (set ++ more)%list) /\
  (forall t,
      In t result <->
      In t set \/
      exists name path size,
        In (GitHub.FileNode name path size) nodes /\ file_gives_tag name path t).

(* ================================================================= *)
(** ** Listings and trees *)

(** The entries of a listing the walker makes a node of. *)
Definition kept (item : GitHub.entry) : bool :=
  String.eqb (GitHub.item_type item) "file" ||
  String.eqb (GitHub.item_type item) "dir" && negb (GitHub.excluded (GitHub.item_name item)).

Definition node_name (n : GitHub.node) : string :=
  match n with
  | GitHub.FileNode name _ _ | GitHub.DirNode name _ _ => name
  end.

Definition node_path (n : GitHub.node) : string :=
  match n with
  | GitHub.FileNode _ path _ | GitHub.DirNode _ path _ => path
  end.

Definition is_dir (n : GitHub.node) : bool :=
  match n with
  | GitHub.FileNode _ _ _ => false
  | GitHub.DirNode _ _ _ => true
  end.

(** The number of directories at the nesting levels 1 to [k]. *)
Fixpoint dirs_within (k : nat) (tree : list GitHub.node) : nat :=
  match k with
  | 0 => 0
  | S k' =>
      list_sum (map (fun n => match n with
                              | GitHub.FileNode _ _ _ => 0
                              | GitHub.DirNode _ _ children =>
                                  1 + dirs_within k' children
                              end) tree)
  end.

(** The error of a response the [try] block cannot go on with, for the
    metadata fetch and for the fetch of the root contents: the message of a
    rejection or of a body that is not JSON, or the message the block throws
    itself on a failure status. *)
Definition fetch_error (on_status : string) (r : GitHub.response) : option string :=
  match r with
  | GitHub.Rejected message => Some message
  | GitHub.Response false _ => Some on_status
  | GitHub.Response true (Throw message) => Some message
  | GitHub.Response true (Ret _) => None
  end.

(** The host answers two requests, then the network is down. *)
Definition two_then_down (url : string) (n : nat) : GitHub.response * nat :=
  (if (n <? 2)%nat then GitHub.Response true (Ret (GitHub.Doc (JObj [])))
   else GitHub.Rejected "Failed to fetch", S n).

(* ================================================================= *)
(** ** Some services and snapshots *)

Module Services.

(** The service refuses every request for its rate. *)
Definition rate_limited (url prompt : string) (w : unit) : Client.response * unit :=
  (Client.Response false 429 (Throw "Unexpected end of JSON input"), w).

(** A document with one candidate, whose first part holds the text. *)
Definition answer (text : string) : json :=
  JObj [("candidates",
         JArr [JObj [("content",
                      JObj [("parts", JArr [JObj [("text", JStr text)]]);
                            ("role", JStr "model")])]])].

(** The service answers every request with the same text. *)
Definition answers (text : string) (url prompt : string) (w : unit)
  : Client.response * unit :=
  (Client.Response true 200 (Ret (answer text)), w).

(** The service answers with a document without candidates. *)
Definition blocked (url prompt : string) (w : unit) : Client.response * unit :=
  (Client.Response true 200 (Ret (JObj [("promptFeedback", JObj [])])), w).

(** The service answers every request with the same document. *)
Definition replies (data : json) (url prompt : string) (w : unit)
  : Client.response * unit :=
  (Client.Response true 200 (Ret data), w).


(** A candidate whose first part has no text. *)
Definition no_text : json :=
  JObj [("candidates",
         JArr [JObj [("content", JObj [("parts", JArr [JObj []])])]])].

Definition start {World : Type} (w : World) : Client.state World :=
  {| Client.service := w; Client.sent := [] |}.

Definition small_snapshot : GitHub.RepoData :=
  {| GitHub.repository := GitHub.Doc (JObj [("name", JStr "widgets")]);
     GitHub.stats :=
       {| GitHub.totalFiles := 12; GitHub.components := 3; GitHub.pages := 0 |};
     GitHub.languages := ["TypeScript"; "CSS"];
     GitHub.technologies := ["TypeScript"; "CSS"; "Vite"];
     GitHub.fileStructure := [];
     GitHub.sampleFiles :=
       [{| GitHub.sample_path := "package.json"; GitHub.content := "{}" |};
        {| GitHub.sample_path := "README.md"; GitHub.content := "# widgets" |}] |}.

(** A snapshot whose metadata document is null. *)
Definition null_snapshot : GitHub.RepoData :=
  {| GitHub.repository := GitHub.Doc JNull;
     GitHub.stats :=
       {| GitHub.totalFiles := 0; GitHub.components := 0; GitHub.pages := 0 |};
     GitHub.languages := [];
     GitHub.technologies := [];
     GitHub.fileStructure := [];
     GitHub.sampleFiles := [] |}.

End Services.

(** A result with every field the page shows: texts that are not empty,
    and a complexity within 1..10, or NaN. *)
Definition populated (r : Gemini.AnalysisResult) : Prop :=
  truthy (Some (Gemini.summary r)) = true /\
  truthy (Some (Gemini.pattern (Gemini.architecture r))) = true /\
  truthy (Some (Gemini.codeQuality (Gemini.insights r))) = true /\
  truthy (Some (Gemini.performance (Gemini.insights r))) = true /\
  (Gemini.complexity (Gemini.insights r) = NaN \/
   exists z, Gemini.complexity (Gemini.insights r) = Num z /\ (1 <= z <= 10)%Z).

(* ================================================================= *)
(** * Properties *)

(** ** Strings *)

Lemma append_nil_r (s : string) : s ++ "" = s.
Proof. induction s; simpl; congruence. Qed.

Lemma append_assoc (a b c : string) : (a ++ b) ++ c = a ++ b ++ c.
Proof. induction a; simpl; congruence. Qed.

Lemma length_append (a b : string) :
  String.length (a ++ b) = String.length a + String.length b.
Proof. induction a; simpl; congruence. Qed.

Lemma prefix_iff (p s : string) :
  String.prefix p s = true <-> exists r, s = p ++ r.
Proof.
  revert s; induction p as [|c p IH]; intros s.
  - split; [intros _; exists s; reflexivity | intros _; destruct s; reflexivity].
  - destruct s as [|d s]; simpl;
      [split; [discriminate | intros [r H]; discriminate]|].
    destruct (ascii_dec c d) as [->|Hne].
    + rewrite IH. split; intros [r H]; exists r; congruence.
    + split; [discriminate | intros [r H]; congruence].
Qed.

Lemma includes_nil (needle : string) :
  JsString.includes "" needle = String.prefix needle "" || false.
Proof. reflexivity. Qed.

Lemma includes_cons (c : ascii) (s needle : string) :
  JsString.includes (String c s) needle =
  String.prefix needle (String c s) || JsString.includes s needle.
Proof. reflexivity. Qed.

Lemma includes_iff (s needle : string) :
  JsString.includes s needle = true <-> exists a b, s = a ++ needle ++ b.
Proof.
  induction s as [|c s IH].
  - rewrite includes_nil, orb_false_r, prefix_iff. split.
    + intros [r H]. exists "", r. exact H.
    + intros [a [b H]]. destruct a; [exists b; exact H | discriminate].
  - rewrite includes_cons, orb_true_iff, IH, prefix_iff. split.
    + intros [[r H] | [a [b H]]].
      * exists "", r. exact H.
      * exists (String c a), b. simpl. congruence.
    + intros [a [b H]]. destruct a as [|c' a]; simpl in H.
      * left. exists b. exact H.
      * right. exists a, b. congruence.
Qed.

Lemma count_append (c : ascii) (a b : string) :
  JsString.count c (a ++ b) = JsString.count c a + JsString.count c b.
Proof. induction a; simpl; lia. Qed.

Lemma toLowerCase_append (a b : string) :
  JsString.toLowerCase (a ++ b) = JsString.toLowerCase a ++ JsString.toLowerCase b.
Proof. induction a; simpl; congruence. Qed.

Lemma substring_all (s : string) : substring 0 (String.length s) s = s.
Proof. induction s; simpl; congruence. Qed.

Lemma substring_prefix (w rest : string) :
  substring 0 (String.length w) (w ++ rest) = w.
Proof. induction w; simpl; [destruct rest; reflexivity | congruence]. Qed.

Lemma substring_skip (pre s : string) (n : nat) :
  substring (String.length pre) n (pre ++ s) = substring 0 n s.
Proof. induction pre; simpl; [reflexivity | assumption]. Qed.

(** ** The matcher finds what the pattern can match *)

Section MatcherFacts.

Variable A : Type.
Variable ci : bool.

Lemma star_sound (cs : Regex.cset) (s : string) :
  forall n caps (k : Regex.cont A) x,
    Regex.star ci cs n s caps k = Some x ->
    exists w rest,
      s = w ++ rest /\ Regex.Matches ci (Regex.RStar cs) n w rest /\
      k (n + String.length w) rest caps = Some x.
Proof.
  induction s as [|a s IH]; intros n caps k x H; simpl in H.
  - exists "", "". rewrite Nat.add_0_r. repeat split; [constructor | exact H].
  - destruct (Regex.in_cset ci cs a) eqn:Ha.
    + destruct (Regex.star ci cs (S n) s caps k) eqn:Hs.
      * injection H as <-. apply IH in Hs as (w & rest & -> & Hm & Hk).
        exists (String a w), rest. simpl. repeat split.
        -- now apply Regex.MStarCons.
        -- now rewrite Nat.add_succ_r.
      * exists "", (String a s). rewrite Nat.add_0_r.
        repeat split; [constructor | exact H].
    + exists "", (String a s). rewrite Nat.add_0_r.
      repeat split; [constructor | exact H].
Qed.

Lemma m_sound (r : Regex.regex) :
  forall n s caps (k : Regex.cont A) x,
    Regex.m ci r n s caps k = Some x ->
    exists w rest caps',
      s = w ++ rest /\ Regex.Matches ci r n w rest /\
      k (n + String.length w) rest caps' = Some x.
Proof.
  induction r as [cs|cs|cs|r IH|r1 IH1 r2 IH2|r1 IH1 r2 IH2|r IH| | |];
    intros n s caps k x H; simpl in H.
  - destruct s as [|a s]; [discriminate|].
    destruct (Regex.in_cset ci cs a) eqn:Ha; [|discriminate].
    exists (String a ""), s, caps. simpl. rewrite Nat.add_1_r.
    repeat split; [now constructor | exact H].
  - apply star_sound in H as (w & rest & -> & Hm & Hk).
    now exists w, rest, caps.
  - destruct s as [|a s]; [discriminate|].
    destruct (Regex.in_cset ci cs a) eqn:Ha; [|discriminate].
    apply star_sound in H as (w & rest & -> & Hm & Hk).
    exists (String a w), rest, caps. simpl. repeat split.
    + now apply Regex.MPlus.
    + now rewrite Nat.add_succ_r.
  - destruct (Regex.m ci r n s caps k) eqn:Hr.
    + injection H as <-. apply IH in Hr as (w & rest & caps' & -> & Hm & Hk).
      exists w, rest, caps'. repeat split; [now constructor | exact Hk].
    + exists "", s, caps. rewrite Nat.add_0_r.
      repeat split; [apply Regex.MOptNone | exact H].
  - apply IH1 in H as (w1 & rest1 & caps1 & -> & Hm1 & Hk1).
    apply IH2 in Hk1 as (w2 & rest & caps2 & -> & Hm2 & Hk2).
    exists (w1 ++ w2), rest, caps2. repeat split.
    + now rewrite append_assoc.
    + now constructor.
    + now rewrite length_append, Nat.add_assoc.
  - destruct (Regex.m ci r1 n s caps k) eqn:Hr.
    + injection H as <-. apply IH1 in Hr as (w & rest & caps' & -> & Hm & Hk).
      exists w, rest, caps'. repeat split; [now apply Regex.MAltL | exact Hk].
    + apply IH2 in H as (w & rest & caps' & -> & Hm & Hk).
      exists w, rest, caps'. repeat split; [now apply Regex.MAltR | exact Hk].
  - apply IH in H as (w & rest & caps' & -> & Hm & Hk).
    eexists w, rest, _. repeat split; [now constructor | exact Hk].
  - destruct (Nat.eqb_spec n 0) as [->|]; [|discriminate].
    exists "", s, caps. repeat split; [constructor | exact H].
  - destruct s; [|discriminate].
    exists "", "", caps. rewrite Nat.add_0_r. repeat split; [constructor | exact H].
  - exists "", s, caps. rewrite Nat.add_0_r. repeat split; [constructor | exact H].
Qed.

Lemma m_complete (r : Regex.regex) (n : nat) (w rest : string) :
  Regex.Matches ci r n w rest ->
  forall (k : Regex.cont A),
    (forall caps', k (n + String.length w) rest caps' <> None) ->
    forall caps, Regex.m ci r n (w ++ rest) caps k <> None.
Proof.
  induction 1 as [cs n a rest Ha|cs n rest|cs n a w rest Ha Hm IH
                 |cs n a w rest Ha Hm IH|r n w rest Hm IH|r n rest
                 |r1 r2 n w1 w2 rest Hm1 IH1 Hm2 IH2|r1 r2 n w rest Hm IH
                 |r1 r2 n w rest Hm IH|r n w rest Hm IH|rest|n|n rest];
    intros k Hk caps; simpl.
  - rewrite Ha. simpl in Hk. rewrite Nat.add_1_r in Hk. apply Hk.
  - simpl in Hk. rewrite Nat.add_0_r in Hk.
    destruct rest as [|a rest]; simpl; [apply Hk|].
    destruct (Regex.in_cset ci cs a); [|apply Hk].
    destruct (Regex.star ci cs (S n) rest caps k); [discriminate | apply Hk].
  - rewrite Ha. simpl in IH.
    specialize (IH k). simpl in Hk. rewrite Nat.add_succ_r in Hk.
    specialize (IH Hk caps).
    destruct (Regex.star ci cs (S n) (w ++ rest) caps k); [discriminate | contradiction].
  - rewrite Ha. simpl in IH. apply IH. simpl in Hk.
    now rewrite Nat.add_succ_r in Hk.
  - specialize (IH k Hk caps).
    destruct (Regex.m ci r n (w ++ rest) caps k); [discriminate | contradiction].
  - simpl in Hk. rewrite Nat.add_0_r in Hk.
    destruct (Regex.m ci r n rest caps k); [discriminate | apply Hk].
  - rewrite append_assoc. apply IH1. intros caps'. apply IH2.
    intros caps''. rewrite length_append, Nat.add_assoc in Hk. apply Hk.
  - specialize (IH k Hk caps).
    destruct (Regex.m ci r1 n (w ++ rest) caps k); [discriminate | contradiction].
  - destruct (Regex.m ci r1 n (w ++ rest) caps k); [discriminate | now apply IH].
  - apply IH. intros caps'. apply Hk.
  - apply Hk.
  - simpl in Hk. rewrite Nat.add_0_r in Hk. apply Hk.
  - simpl in Hk. rewrite Nat.add_0_r in Hk. apply Hk.
Qed.

End MatcherFacts.

Lemma exec_here_sound (ci : bool) (r : Regex.regex) (n : nat) (s : string)
      (res : Regex.match_result) :
  Regex.m ci r n s []
    (fun n' _ caps => Some (Regex.MatchResult (substring 0 (n' - n) s) caps n))
  = Some res ->
  exists w rest,
    s = w ++ rest /\ Regex.Matches ci r n w rest /\
    Regex.matched res = w /\ Regex.index res = n.
Proof.
  intros H. apply m_sound in H as (w & rest & caps' & Hs & Hm & Hk).
  injection Hk as <-. exists w, rest. simpl. repeat split; try assumption.
  rewrite Hs. replace (n + String.length w - n) with (String.length w) by lia.
  apply substring_prefix.
Qed.

Lemma exec_from_sound (ci : bool) (r : Regex.regex) (s : string) :
  forall n res,
    Regex.exec_from ci r n s = Some res ->
    exists pre w rest,
      s = pre ++ w ++ rest /\
      Regex.Matches ci r (n + String.length pre) w rest /\
      Regex.matched res = w /\ Regex.index res = n + String.length pre.
Proof.
  induction s as [|a s IH]; intros n res H; simpl in H.
  - destruct (Regex.m ci r n "" [] _) eqn:Hm; [|discriminate].
    injection H as <-. apply exec_here_sound in Hm as (w & rest & Hs & Hm & Hw & Hi).
    exists "", w, rest. simpl. rewrite Nat.add_0_r. now repeat split.
  - destruct (Regex.m ci r n (String a s) [] _) eqn:Hm.
    + injection H as <-.
      apply exec_here_sound in Hm as (w & rest & Hs & Hm & Hw & Hi).
      exists "", w, rest. simpl. rewrite Nat.add_0_r. now repeat split.
    + apply IH in H as (pre & w & rest & -> & Hmt & Hw & Hi).
      exists (String a pre), w, rest. simpl.
      rewrite Nat.add_succ_r. now repeat split.
Qed.

Lemma exec_from_complete (ci : bool) (r : Regex.regex) (pre w rest : string) :
  forall n,
    Regex.Matches ci r (n + String.length pre) w rest ->
    Regex.exec_from ci r n (pre ++ w ++ rest) <> None.
Proof.
  induction pre as [|a pre IH]; intros n Hm.
  - simpl in Hm. rewrite Nat.add_0_r in Hm.
    assert (Hne : Regex.m ci r n (w ++ rest) []
              (fun n' _ caps =>
                 Some (Regex.MatchResult (substring 0 (n' - n) (w ++ rest)) caps n))
            <> None)
      by (apply m_complete with (1 := Hm); discriminate).
    simpl. destruct (w ++ rest) eqn:E; simpl;
      destruct (Regex.m ci r n _ [] _); congruence.
  - simpl. destruct (Regex.m ci r n _ [] _); [discriminate|].
    apply IH. simpl in Hm. now rewrite Nat.add_succ_r in Hm.
Qed.

(** [test] decides whether some substring matches. *)
Lemma test_iff (ci : bool) (r : Regex.regex) (s : string) :
  Regex.test ci r s = true <->
  exists pre w rest,
    s = pre ++ w ++ rest /\ Regex.Matches ci r (String.length pre) w rest.
Proof.
  unfold Regex.test, Regex.exec. split.
  - destruct (Regex.exec_from ci r 0 s) eqn:E; [|discriminate]. intros _.
    apply exec_from_sound in E as (pre & w & rest & Hs & Hm & _).
    now exists pre, w, rest.
  - intros (pre & w & rest & -> & Hm).
    pose proof (@exec_from_complete ci r pre w rest 0 Hm) as Hne.
    destruct (Regex.exec_from ci r 0 _); congruence.
Qed.

(** ** Narrative response parser *)

Lemma in_cset_char_cs (c a : ascii) :
  Regex.in_cset false (Regex.CChar c) a = true -> a = c.
Proof. simpl. apply Ascii.eqb_eq. Qed.

(** A match of [/\{[\s\S]*\}/] opens with a brace and ends with one. *)
Lemma json_span_shape (n : nat) (w rest : string) :
  Regex.Matches false Gemini.json_span n w rest ->
  exists mid, w = "{" ++ mid ++ "}".
Proof.
  unfold Gemini.json_span. intros H.
  inversion H as [| | | | | |? ? ? w1 w23 ? H1 H23| | | | | |]; subst; clear H.
  inversion H23 as [| | | | | |? ? ? w2 w3 ? H2 H3| | | | | |]; subst; clear H23.
  inversion H1 as [? ? a ? Ha| | | | | | | | | | | |]; subst; clear H1.
  inversion H3 as [? ? b ? Hb| | | | | | | | | | | |]; subst; clear H3.
  apply in_cset_char_cs in Ha, Hb. subst. now exists w2.
Qed.

Lemma closes_after_brace_free (body : string) :
  Gemini.brace_free body -> Gemini.closes_at_end 1 (body ++ "}") = true.
Proof.
  unfold Gemini.brace_free. induction body as [|c body IH]; simpl; [reflexivity|].
  destruct (Ascii.eqb c "{"); [lia|]. destruct (Ascii.eqb c "}"); [lia|].
  simpl. exact IH.
Qed.

Lemma in_prefixes (w rest : string) : In w (Gemini.prefixes (w ++ rest)).
Proof.
  revert rest. induction w as [|c w IH]; intros rest.
  - destruct rest; simpl; now left.
  - simpl. right. apply in_map, IH.
Qed.

Lemma has_balanced_span_intro (pre w rest : string) :
  Gemini.balanced_span w = true ->
  Gemini.has_balanced_span (pre ++ w ++ rest) = true.
Proof.
  intros Hw. induction pre as [|c pre IH].
  - simpl. assert (H : existsb Gemini.balanced_span (Gemini.prefixes (w ++ rest)) = true)
      by (apply existsb_exists; exists w; split; [apply in_prefixes | exact Hw]).
    destruct (w ++ rest); simpl in *; rewrite H; reflexivity.
  - simpl. rewrite IH. apply orb_true_r.
Qed.

(** Between an opening brace and a later closing brace there is a
    balanced span: the innermost one. *)
Lemma innermost_span (mid : string) :
  forall before inner after,
    Gemini.brace_free inner ->
    Gemini.has_balanced_span (before ++ "{" ++ inner ++ mid ++ "}" ++ after) = true.
Proof.
  induction mid as [|c mid IH]; intros before inner after Hfree.
  - simpl. replace (before ++ String "{" (inner ++ String "}" after))
      with (before ++ ("{" ++ inner ++ "}") ++ after)
      by (simpl; now rewrite append_assoc).
    apply has_balanced_span_intro. unfold Gemini.balanced_span. simpl.
    now apply closes_after_brace_free.
  - destruct (Ascii.eqb c "{") eqn:Eo; [|destruct (Ascii.eqb c "}") eqn:Ec].
    + apply Ascii.eqb_eq in Eo. subst c.
      specialize (IH (before ++ "{" ++ inner) "" after).
      replace (before ++ "{" ++ inner ++ String "{" mid ++ "}" ++ after)
        with ((before ++ "{" ++ inner) ++ "{" ++ "" ++ mid ++ "}" ++ after)
        by (simpl; rewrite append_assoc; reflexivity).
      apply IH. split; reflexivity.
    + apply Ascii.eqb_eq in Ec. subst c.
      replace (before ++ "{" ++ inner ++ String "}" mid ++ "}" ++ after)
        with (before ++ ("{" ++ inner ++ "}") ++ (mid ++ "}" ++ after))
        by (simpl; rewrite append_assoc; reflexivity).
      apply has_balanced_span_intro. unfold Gemini.balanced_span. simpl.
      now apply closes_after_brace_free.
    + specialize (IH before (inner ++ String c "") after).
      replace (before ++ "{" ++ inner ++ String c mid ++ "}" ++ after)
        with (before ++ "{" ++ (inner ++ String c "") ++ mid ++ "}" ++ after)
        by (simpl; rewrite append_assoc; reflexivity).
      apply IH. destruct Hfree as [Ho Hc]. unfold Gemini.brace_free.
      rewrite !count_append. simpl. rewrite Eo, Ec. lia.
Qed.

(** Without a balanced span the pattern finds nothing. *)
Lemma no_span_no_match (text : string) :
  Gemini.has_balanced_span text = false ->
  Regex.exec false Gemini.json_span text = None.
Proof.
  intros Hno. destruct (Regex.exec false Gemini.json_span text) eqn:E; [|reflexivity].
  apply exec_from_sound in E as (pre & w & rest & -> & Hm & _).
  apply json_span_shape in Hm as [mid ->].
  enough (Gemini.has_balanced_span (pre ++ ("{" ++ mid ++ "}") ++ rest) = true)
    by congruence.
  replace (pre ++ ("{" ++ mid ++ "}") ++ rest)
    with (pre ++ "{" ++ "" ++ mid ++ "}" ++ rest)
    by (simpl; rewrite append_assoc; reflexivity).
  apply innermost_span. split; reflexivity.
Qed.

(** C7: a response text without a balanced span of braces is answered
    with the fixed fallback result, whose complexity is 5 and whose
    features and recommendations are not empty; the parser is a total
    function to [AnalysisResult], and every error thrown while parsing,
    by [JSON.parse] or otherwise, is answered with the fallback too: no
    parse error reaches the caller. *)
Theorem no_span_gives_fallback
        (JSON_parse : string -> outcome json) (ToNumber_object : json -> number)
        (text : string) :
  Gemini.has_balanced_span text = false ->
  Gemini.parseAnalysisResult JSON_parse ToNumber_object text = Gemini.fallback /\
  Gemini.complexity (Gemini.insights Gemini.fallback) = Num 5 /\
  Gemini.features Gemini.fallback <> [] /\
  Gemini.recommendations Gemini.fallback <> [] /\
  (forall other message,
      Gemini.parse_or_throw JSON_parse ToNumber_object other = Throw message ->
      Gemini.parseAnalysisResult JSON_parse ToNumber_object other = Gemini.fallback).
Proof.
  intros Hno. split; [|repeat split; try discriminate].
  - unfold Gemini.parseAnalysisResult, Gemini.parse_or_throw.
    now rewrite (no_span_no_match _ Hno).
  - intros other message Hthrow. unfold Gemini.parseAnalysisResult.
    now rewrite Hthrow.
Qed.

Lemma no_span_gives_fallback_witness :
  Gemini.has_balanced_span "Sorry, I cannot analyze this } { repository." = false /\
  Gemini.parseAnalysisResult (fun _ => Throw "SyntaxError") (fun _ => NaN)
    "Sorry, I cannot analyze this } { repository." = Gemini.fallback.
Proof.
  split; [vm_compute; reflexivity|].
  apply (no_span_gives_fallback (fun _ => Throw "SyntaxError") (fun _ => NaN)
           "Sorry, I cannot analyze this } { repository.").
  vm_compute; reflexivity.
Defined.

(** The clamp into [1,10] of a complexity that is a number other than 0. *)
Lemma complexity_clamped (ToNumber_object : json -> number) (n : Z) :
  n <> 0%Z ->
  Gemini.validated_complexity ToNumber_object
    (JObj [("insights", JObj [("complexity", JNum n)])])
  = Ret (Num (Z.max 1 (Z.min 10 n))).
Proof.
  intros Hn. unfold Gemini.validated_complexity, Gemini.validate. simpl.
  destruct (Z.eqb_spec n 0); [contradiction | reflexivity].
Qed.

(** C1: the complexity of the validated document, as the code computes
    it.  A complexity of 15 yields 10, a missing one yields 5 and a
    negative one yields 1; a complexity of 0 is taken by [|| 5] for a
    missing one and yields 5, where the clamp into [1,10] would give 1. *)
Theorem complexity_zero_yields_default (ToNumber_object : json -> number) :
  Gemini.validated_complexity ToNumber_object
    (JObj [("insights", JObj [("complexity", JNum 0)])]) = Ret (Num 5) /\
  Gemini.validated_complexity ToNumber_object
    (JObj [("insights", JObj [("complexity", JNum 15)])]) = Ret (Num 10) /\
  Gemini.validated_complexity ToNumber_object
    (JObj [("insights", JObj [])]) = Ret (Num 5) /\
  Gemini.validated_complexity ToNumber_object (JObj []) = Ret (Num 5) /\
  Gemini.validated_complexity ToNumber_object
    (JObj [("insights", JObj [("complexity", JNum (-3))])]) = Ret (Num 1).
Proof. repeat split. Qed.

(** ** Aggregator *)

(** Induction on a node, with the children of a directory. *)
Lemma node_forest_ind (P : GitHub.node -> Prop) :
  (forall name path size, P (GitHub.FileNode name path size)) ->
  (forall name path children,
      Forall P children -> P (GitHub.DirNode name path children)) ->
  forall n, P n.
Proof.
  intros Hfile Hdir. fix IH 1. intros [name path size|name path children].
  - apply Hfile.
  - apply Hdir. induction children as [|c cs IHcs]; constructor.
    + apply IH.
    + exact IHcs.
Qed.

Lemma countFile_dir (name path : string) (children : list GitHub.node)
      (acc : GitHub.ProjectStats) :
  GitHub.countFile (GitHub.DirNode name path children) acc
  = GitHub.countFiles children acc.
Proof. reflexivity. Qed.

Lemma countFiles_Forall (files : list GitHub.node) :
  Forall (fun n => forall acc,
              GitHub.countFile n acc =
              GitHub.counted
                (GitHub.count_in_node (fun _ _ => true) n)
                (GitHub.count_in_node GitHub.isComponent n)
                (GitHub.count_in_node GitHub.isPage n) acc) files ->
  forall acc,
    GitHub.countFiles files acc =
    GitHub.counted
      (GitHub.file_count files)
      (GitHub.count_in_tree GitHub.isComponent files)
      (GitHub.count_in_tree GitHub.isPage files) acc.
Proof.
  unfold GitHub.file_count, GitHub.count_in_tree, GitHub.counted.
  induction 1 as [|n files Hn _ IH]; intros acc; simpl.
  - destruct acc; simpl. now rewrite !Nat.add_0_r.
  - rewrite Hn, IH. unfold GitHub.counted. simpl. f_equal; lia.
Qed.

Lemma countFile_counts (n : GitHub.node) :
  forall acc,
    GitHub.countFile n acc =
    GitHub.counted
      (GitHub.count_in_node (fun _ _ => true) n)
      (GitHub.count_in_node GitHub.isComponent n)
      (GitHub.count_in_node GitHub.isPage n) acc.
Proof.
  induction n as [name path size|name path children IH] using node_forest_ind;
    intros acc.
  - unfold GitHub.counted. simpl. unfold GitHub.count_file.
    destruct (GitHub.isComponent name path), (GitHub.isPage name path);
      f_equal; lia.
  - rewrite countFile_dir. now apply countFiles_Forall.
Qed.

Lemma countFiles_counts (files : list GitHub.node) (acc : GitHub.ProjectStats) :
  GitHub.countFiles files acc =
  GitHub.counted
    (GitHub.file_count files)
    (GitHub.count_in_tree GitHub.isComponent files)
    (GitHub.count_in_tree GitHub.isPage files) acc.
Proof.
  apply countFiles_Forall. apply Forall_forall. intros n _. apply countFile_counts.
Qed.

Lemma count_in_node_le (p : string -> string -> bool) (n : GitHub.node) :
  GitHub.count_in_node p n <= GitHub.count_in_node (fun _ _ => true) n.
Proof.
  induction n as [name path size|name path children IH] using node_forest_ind;
    simpl.
  - destruct (p name path); lia.
  - induction IH as [|c cs Hc _ IHcs]; simpl; lia.
Qed.

Lemma count_in_tree_le (p : string -> string -> bool) (tree : list GitHub.node) :
  GitHub.count_in_tree p tree <= GitHub.file_count tree.
Proof.
  unfold GitHub.file_count, GitHub.count_in_tree.
  induction tree as [|n tree IH]; simpl; [lia|].
  pose proof (count_in_node_le p n). lia.
Qed.

(** C6: [totalFiles] is the number of FileNodes reachable at any depth,
    and neither [components] nor [pages] exceeds it. *)
Theorem stats_count_files (tree : list GitHub.node) :
  GitHub.totalFiles (GitHub.analyzeProjectStats tree) = GitHub.file_count tree /\
  GitHub.components (GitHub.analyzeProjectStats tree)
    <= GitHub.totalFiles (GitHub.analyzeProjectStats tree) /\
  GitHub.pages (GitHub.analyzeProjectStats tree)
    <= GitHub.totalFiles (GitHub.analyzeProjectStats tree).
Proof.
  unfold GitHub.analyzeProjectStats. rewrite countFiles_counts. simpl.
  pose proof (count_in_tree_le GitHub.isComponent tree).
  pose proof (count_in_tree_le GitHub.isPage tree).
  repeat split; lia.
Qed.

(** ** Classifier *)

(** Under the [i] flag only a slash matches a slash. *)
Lemma in_cset_ci_slash (a : ascii) :
  Regex.in_cset true (Regex.CChar "/") a = true -> a = "/"%char.
Proof.
  destruct a as [[] [] [] [] [] [] [] []]; vm_compute; intros H;
    first [reflexivity | discriminate H].
Qed.

Lemma in_cset_self (ci : bool) (c : ascii) :
  Regex.in_cset ci (Regex.CChar c) c = true.
Proof. destruct ci; simpl; apply Ascii.eqb_refl. Qed.

(** A literal matches itself. *)
Lemma lit_matches (ci : bool) (s : string) (n : nat) (rest : string) :
  s <> "" -> Regex.Matches ci (Regex.lit s) n s rest.
Proof.
  revert n. induction s as [|c s IH]; intros n Hne; [contradiction|].
  destruct s as [|d s].
  - simpl. constructor. apply in_cset_self.
  - change (Regex.lit (String c (String d s)))
      with (Regex.RSeq (Regex.RSet (Regex.CChar c)) (Regex.lit (String d s))).
    change (String c (String d s)) with (String c "" ++ String d s).
    constructor.
    + constructor. apply in_cset_self.
    + apply IH. discriminate.
Qed.

Ltac invert_matches :=
  repeat match goal with
         | H : Regex.Matches _ (Regex.RSeq _ _) _ _ _ |- _ =>
             inversion H; subst; clear H
         | H : Regex.Matches _ (Regex.RSet _) _ _ _ |- _ =>
             inversion H; subst; clear H
         | H : Regex.Matches _ (Regex.ROpt _) _ _ _ |- _ =>
             inversion H; subst; clear H
         end.

Ltac slashes :=
  repeat match goal with
         | H : Regex.in_cset true (Regex.CChar "/") _ = true |- _ =>
             apply in_cset_ci_slash in H; subst
         end.

(** What a component pattern matches opens with a slash and holds a
    second one. *)
Lemma component_pattern_slashes (pattern : Regex.regex) (n : nat) (w rest : string) :
  In pattern GitHub.componentPatterns ->
  Regex.Matches true pattern n w rest ->
  (exists w', w = String "/" w') /\ 2 <= JsString.count "/" w.
Proof.
  intros Hin Hm. simpl in Hin.
  destruct Hin as [<-|[<-|[<-|[<-|[]]]]]; cbv in Hm; invert_matches; slashes;
    (split; [eexists; simpl; reflexivity|]); simpl;
    repeat match goal with
           | |- context [if Ascii.eqb ?a ?b then 1 else 0] =>
               generalize (if Ascii.eqb a b then 1 else 0); intro
           end; lia.
Qed.

Lemma component_test_slashes (pattern : Regex.regex) (path : string) :
  In pattern GitHub.componentPatterns ->
  Regex.test true pattern path = true ->
  2 <= JsString.count "/" path.
Proof.
  intros Hin Ht. apply test_iff in Ht as (pre & w & rest & -> & Hm).
  apply (component_pattern_slashes Hin) in Hm as [_ Hw].
  rewrite !count_append. lia.
Qed.

(** A path with fewer than two slashes is no component path. *)
Lemma isComponent_needs_two_slashes (name path : string) :
  JsString.count "/" path < 2 -> GitHub.isComponent name path = false.
Proof.
  intros Hlt. unfold GitHub.isComponent. apply andb_false_intro2.
  destruct (existsb _ GitHub.componentPatterns) eqn:E; [|reflexivity].
  apply existsb_exists in E as (pattern & Hin & Ht).
  apply (component_test_slashes _ Hin) in Ht. lia.
Qed.

(** C9: what a component pattern matches opens with a slash, so a file
    directly under a top-level components/, ui/, widgets/ or shared/
    directory, whose root-relative path holds one slash only, is not a
    component, while src/components/Button.tsx is one. *)
Theorem top_level_component_dir_not_matched :
  (forall pattern n w rest,
      In pattern GitHub.componentPatterns ->
      Regex.Matches true pattern n w rest ->
      exists w', w = String "/" w') /\
  (forall dir name,
      In dir ["components"; "ui"; "widgets"; "shared"] ->
      JsString.count "/" name = 0 ->
      GitHub.isComponent name (dir ++ "/" ++ name) = false) /\
  GitHub.isComponent "Button.tsx" "components/Button.tsx" = false /\
  GitHub.isComponent "Button.tsx" "src/components/Button.tsx" = true.
Proof.
  split; [|split; [|split; vm_compute; reflexivity]].
  - intros pattern n w rest Hin Hm.
    now destruct (component_pattern_slashes Hin Hm).
  - intros dir name Hdir Hname. apply isComponent_needs_two_slashes.
    rewrite !count_append, Hname. simpl in Hdir.
    destruct Hdir as [<-|[<-|[<-|[<-|[]]]]]; vm_compute; lia.
Qed.

Lemma top_level_component_dir_not_matched_witness :
  In "components" ["components"; "ui"; "widgets"; "shared"] /\
  JsString.count "/" "Card.jsx" = 0 /\
  GitHub.isComponent "Card.jsx" ("components" ++ "/" ++ "Card.jsx") = false /\
  In (Regex.lit "/ui/") GitHub.componentPatterns /\
  Regex.Matches true (Regex.lit "/ui/") 3 "/ui/" "Card.jsx" /\
  exists w', "/ui/" = String "/" w'.
Proof.
  assert (Hin : In (Regex.lit "/ui/") GitHub.componentPatterns)
    by (simpl; auto).
  assert (Hm : Regex.Matches true (Regex.lit "/ui/") 3 "/ui/" "Card.jsx")
    by (apply lit_matches; discriminate).
  split; [simpl; auto|]. split; [reflexivity|]. split.
  - apply (proj1 (proj2 top_level_component_dir_not_matched) "components" "Card.jsx");
      [simpl; auto | reflexivity].
  - split; [exact Hin|]. split; [exact Hm|].
    exact (proj1 top_level_component_dir_not_matched _ _ _ _ Hin Hm).
Defined.

(** A path that holds /components/ matches the first component pattern. *)
Lemma components_dir_matches (path : string) :
  JsString.includes path "/components/" = true ->
  Regex.test true (GitHub.dir_word "component") path = true.
Proof.
  intros H. apply includes_iff in H as (a & b & ->). apply test_iff.
  exists a, "/components/", b. split; [reflexivity|].
  change (GitHub.dir_word "component")
    with (Regex.RSeq (Regex.lit "/component")
            (Regex.RSeq (Regex.ROpt (Regex.RSet (Regex.CChar "s")))
                        (Regex.RSet (Regex.CChar "/")))).
  change "/components/" with ("/component" ++ "s" ++ "/").
  constructor.
  - apply lit_matches. discriminate.
  - constructor.
    + apply Regex.MOptSome. constructor. reflexivity.
    + constructor. reflexivity.
Qed.

(** A name that holds "page" still holds it in lower case. *)
Lemma lower_includes_page (name : string) :
  JsString.includes name "page" = true ->
  JsString.includes (JsString.toLowerCase name) "page" = true.
Proof.
  intros H. apply includes_iff in H as (a & b & ->). apply includes_iff.
  exists (JsString.toLowerCase a), (JsString.toLowerCase b).
  now rewrite !toLowerCase_append.
Qed.

(** C10: a .tsx file whose path holds /components/ and whose name holds
    "page" is both a component and a page; the aggregator counts it in
    both counters, and [components + pages] exceeds [totalFiles]. *)
Theorem component_and_page_overlap (name path : string) (size : Z) :
  JsString.endsWith name ".tsx" = true ->
  JsString.includes path "/components/" = true ->
  JsString.includes name "page" = true ->
  GitHub.isComponent name path = true /\
  GitHub.isPage name path = true /\
  (forall acc,
      GitHub.countFile (GitHub.FileNode name path size) acc
      = {| GitHub.totalFiles := S (GitHub.totalFiles acc);
           GitHub.components := S (GitHub.components acc);
           GitHub.pages := S (GitHub.pages acc) |}) /\
  GitHub.analyzeProjectStats [GitHub.FileNode name path size]
  = {| GitHub.totalFiles := 1; GitHub.components := 1; GitHub.pages := 1 |} /\
  GitHub.totalFiles (GitHub.analyzeProjectStats [GitHub.FileNode name path size])
  < GitHub.components (GitHub.analyzeProjectStats [GitHub.FileNode name path size])
    + GitHub.pages (GitHub.analyzeProjectStats [GitHub.FileNode name path size]).
Proof.
  intros Hext Hpath Hname.
  assert (Hc : GitHub.isComponent name path = true).
  { unfold GitHub.isComponent. apply andb_true_intro. split.
    - simpl. now rewrite Hext.
    - change GitHub.componentPatterns
        with (GitHub.dir_word "component" :: tl GitHub.componentPatterns).
      simpl existsb. now rewrite (components_dir_matches _ Hpath). }
  assert (Hp : GitHub.isPage name path = true).
  { unfold GitHub.isPage. rewrite (lower_includes_page _ Hname).
    now rewrite orb_true_r. }
  assert (Hs : GitHub.analyzeProjectStats [GitHub.FileNode name path size]
               = {| GitHub.totalFiles := 1; GitHub.components := 1;
                    GitHub.pages := 1 |}).
  { unfold GitHub.analyzeProjectStats. simpl. unfold GitHub.count_file.
    now rewrite Hc, Hp. }
  rewrite Hs. simpl. repeat split; [exact Hc | exact Hp | | lia].
  intros acc. unfold GitHub.count_file. now rewrite Hc, Hp.
Qed.

Lemma component_and_page_overlap_witness :
  GitHub.isComponent "homepage.tsx" "src/components/homepage.tsx" = true /\
  GitHub.isPage "homepage.tsx" "src/components/homepage.tsx" = true /\
  (forall acc,
      GitHub.countFile
        (GitHub.FileNode "homepage.tsx" "src/components/homepage.tsx" 120) acc
      = {| GitHub.totalFiles := S (GitHub.totalFiles acc);
           GitHub.components := S (GitHub.components acc);
           GitHub.pages := S (GitHub.pages acc) |}) /\
  GitHub.analyzeProjectStats
    [GitHub.FileNode "homepage.tsx" "src/components/homepage.tsx" 120]
  = {| GitHub.totalFiles := 1; GitHub.components := 1; GitHub.pages := 1 |} /\
  GitHub.totalFiles (GitHub.analyzeProjectStats
    [GitHub.FileNode "homepage.tsx" "src/components/homepage.tsx" 120])
  < GitHub.components (GitHub.analyzeProjectStats
      [GitHub.FileNode "homepage.tsx" "src/components/homepage.tsx" 120])
    + GitHub.pages (GitHub.analyzeProjectStats
        [GitHub.FileNode "homepage.tsx" "src/components/homepage.tsx" 120]).
Proof.
  apply (@component_and_page_overlap "homepage.tsx" "src/components/homepage.tsx" 120);
    vm_compute; reflexivity.
Defined.

(** ** Tree walker *)

Lemma level_app (k : nat) :
  forall a b : list GitHub.node,
    GitHub.level k (a ++ b) = (GitHub.level k a ++ GitHub.level k b)%list.
Proof.
  induction k as [|k IH]; intros a b; [reflexivity|].
  destruct k as [|k]; [reflexivity|].
  change (GitHub.level (S (S k)) (a ++ b))
    with (GitHub.level (S k) (flat_map GitHub.children_of (a ++ b))).
  now rewrite flat_map_app, IH.
Qed.

Lemma level_step (k : nat) (tree : list GitHub.node) :
  GitHub.level (S (S k)) tree
  = GitHub.level (S k) (flat_map GitHub.children_of tree).
Proof. reflexivity. Qed.

(** The children of a directory at level [k] are at level [k + 1]. *)
Lemma level_children (k : nat) :
  forall tree name path children,
    In (GitHub.DirNode name path children) (GitHub.level (S k) tree) ->
    incl children (GitHub.level (S (S k)) tree).
Proof.
  induction k as [|k IH]; intros tree name path children Hin.
  - simpl in Hin. simpl. intros c Hc. apply in_flat_map.
    exists (GitHub.DirNode name path children). now split.
  - rewrite level_step in Hin. rewrite level_step. now apply IH in Hin.
Qed.

Lemma all_nodes_app (a b : list GitHub.node) :
  GitHub.all_nodes (a ++ b) = (GitHub.all_nodes a ++ GitHub.all_nodes b)%list.
Proof. apply flat_map_app. Qed.

Section WalkerFacts.

Variable World : Type.
Variable fetch : string -> World -> GitHub.response * World.
Variables owner repo : string.

Lemma do_fetch_requests (url : string) (st : GitHub.state World) :
  GitHub.requests (snd (GitHub.do_fetch fetch url st))
  = (GitHub.requests st ++ [url])%list.
Proof.
  unfold GitHub.do_fetch. destruct (fetch url (GitHub.world st)). reflexivity.
Qed.

(** The loop adds the nodes of the relation, after those it was given. *)
Lemma walk_items_emitted (walk : string -> GitHub.M World (list GitHub.node))
      (contents : list GitHub.entry) :
  forall files st,
  exists added st',
    GitHub.walk_items walk contents files st = ((files ++ added)%list, st') /\
    GitHub.emitted walk contents st added st'.
Proof.
  induction contents as [|item rest IH]; intros files st; simpl.
  - exists [], st. rewrite app_nil_r. split; [reflexivity | constructor].
  - destruct (String.eqb_spec (GitHub.item_type item) "file") as [Hf|Hf].
    + destruct (IH (files ++ [GitHub.FileNode (GitHub.item_name item)
                      (GitHub.item_path item) (GitHub.item_size item)])%list st)
        as (added & st' & Heq & Hem).
      eexists _, st'. split.
      * rewrite Heq, <- app_assoc. reflexivity.
      * now constructor.
    + destruct (String.eqb_spec (GitHub.item_type item) "dir") as [Hd|Hd]; simpl.
      * destruct (GitHub.excluded (GitHub.item_name item)) eqn:Hex;
          unfold GitHub.excluded in Hex; apply orb_true_iff in Hex || apply orb_false_iff in Hex.
        -- assert (Hc : negb (JsString.startsWith (GitHub.item_name item) ".")
                         && negb (GitHub.item_name item =? "node_modules") = false)
             by (destruct Hex as [-> | ->]; [reflexivity | apply andb_false_r]).
           rewrite Hc. destruct (IH files st) as (added & st' & Heq & Hem).
           exists added, st'. split; [exact Heq|].
           apply GitHub.emitted_skip; auto. right. unfold GitHub.excluded.
           now apply orb_true_iff.
        -- destruct Hex as [H1 H2]. rewrite H1, H2. simpl.
           unfold GitHub.bind.
           destruct (walk (GitHub.item_path item) st) as [subFiles st1] eqn:Hw.
           destruct (IH (files ++ [GitHub.DirNode (GitHub.item_name item)
                           (GitHub.item_path item) subFiles])%list st1)
             as (added & st' & Heq & Hem).
           eexists _, st'. split.
           ++ rewrite Heq, <- app_assoc. reflexivity.
           ++ eapply GitHub.emitted_dir; eauto. unfold GitHub.excluded.
              now rewrite H1, H2.
      * destruct (IH files st) as (added & st' & Heq & Hem).
        exists added, st'. split; [exact Heq|].
        apply GitHub.emitted_skip; auto.
Qed.

(** A call that may list at least one level returns at once, or sends
    its request and adds what the loop emits for some listing (the empty
    one when the request fails). *)
Lemma walk_S_cases (levels : nat) (path : string) (depth : Z)
      (st : GitHub.state World) :
  GitHub.walk fetch (S levels) owner repo path depth st = ([], st) \/
  exists contents added st',
    GitHub.emitted (fun p => GitHub.walk fetch levels owner repo p (depth + 1)%Z)
                   contents
                   (snd (GitHub.do_fetch fetch (GitHub.contents_url owner repo path) st))
                   added st' /\
    GitHub.walk fetch (S levels) owner repo path depth st = (added, st').
Proof.
  simpl. destruct (depth >? 3)%Z; [now left|]. right.
  unfold GitHub.bind.
  destruct (GitHub.do_fetch fetch (GitHub.contents_url owner repo path) st)
    as [r st1] eqn:Hf. simpl.
  assert (Hnone : exists contents added st',
             GitHub.emitted
               (fun p => GitHub.walk fetch levels owner repo p (depth + 1)%Z)
               contents st1 added st' /\
             (@nil GitHub.node, st1) = (added, st'))
    by (exists [], [], st1; split; [constructor | reflexivity]).
  destruct r as [message|ok json]; [exact Hnone|].
  destruct ok; simpl; [|exact Hnone].
  destruct json as [[contents|j]|message]; try exact Hnone.
  destruct (walk_items_emitted
              (fun p => GitHub.walk fetch levels owner repo p (depth + 1)%Z)
              contents [] st1) as (added & st' & Heq & Hem).
  exists contents, added, st'. split; [exact Hem | exact Heq].
Qed.

(** *** Levels *)

Lemma level_nil (k : nat) : GitHub.level k [] = [].
Proof.
  induction k as [|k IH]; [reflexivity|]. destruct k; [reflexivity|].
  rewrite level_step. exact IH.
Qed.

Lemma emitted_children_level (walk : string -> GitHub.M World (list GitHub.node))
      (k : nat) contents st added st' :
  (forall p st0, GitHub.level k (fst (walk p st0)) = []) ->
  GitHub.emitted walk contents st added st' ->
  GitHub.level k (flat_map GitHub.children_of added) = [].
Proof.
  intros Hwalk. induction 1 as [st|item rest st added st' Hf _ IH
                               |item rest st subFiles st1 added st' Hd Hex Hw _ IH
                               |item rest st added st' Hf Hd _ IH].
  - apply level_nil.
  - simpl. exact IH.
  - simpl. rewrite level_app, IH, app_nil_r.
    specialize (Hwalk (GitHub.item_path item) st). now rewrite Hw in Hwalk.
  - exact IH.
Qed.

(** A call that may list [levels] levels returns no node below them. *)
Lemma walk_height (levels : nat) :
  forall path depth st k,
    levels < k ->
    GitHub.level k (fst (GitHub.walk fetch levels owner repo path depth st)) = [].
Proof.
  induction levels as [|levels IH]; intros path depth st k Hk.
  - simpl. apply level_nil.
  - destruct (walk_S_cases levels path depth st)
      as [-> | (contents & added & st' & Hem & ->)]; simpl.
    + apply level_nil.
    + destruct k as [|[|k]]; try lia. rewrite level_step.
      apply emitted_children_level with (2 := Hem).
      intros p st0. apply IH. lia.
Qed.

(** *** Levels are enough *)

Lemma walk_items_ext (walk1 walk2 : string -> GitHub.M World (list GitHub.node))
      (contents : list GitHub.entry) :
  (forall p st, walk1 p st = walk2 p st) ->
  forall files st,
    GitHub.walk_items walk1 contents files st
    = GitHub.walk_items walk2 contents files st.
Proof.
  intros Hext. induction contents as [|item rest IH]; intros files st; simpl;
    [reflexivity|].
  destruct (GitHub.item_type item =? "file"); [apply IH|].
  destruct (_ && _ && _); [|apply IH].
  unfold GitHub.bind. rewrite Hext.
  destruct (walk2 (GitHub.item_path item) st). apply IH.
Qed.

(** The recursion of [analyzeFileStructure] ends by its depth test alone:
    any number of levels from [4 - depth] on gives the same run. *)
Lemma walk_levels_enough (levels : nat) :
  forall path depth st,
    (4 - depth <= Z.of_nat levels)%Z ->
    GitHub.walk fetch levels owner repo path depth st
    = GitHub.analyzeFileStructure fetch owner repo path depth st.
Proof.
  unfold GitHub.analyzeFileStructure.
  induction levels as [|levels IH]; intros path depth st Hle.
  - replace (Z.to_nat (4 - depth)) with 0 by lia. reflexivity.
  - destruct (Z.gtb_spec depth 3) as [Hgt|Hngt].
    + replace (Z.to_nat (4 - depth)) with 0 by lia. simpl.
      destruct (Z.gtb_spec depth 3); [reflexivity | lia].
    + replace (Z.to_nat (4 - depth)) with (S (Z.to_nat (4 - (depth + 1)))) by lia.
      simpl. destruct (Z.gtb_spec depth 3); [lia|].
      unfold GitHub.bind.
      destruct (GitHub.do_fetch fetch (GitHub.contents_url owner repo path) st)
        as [r st1].
      destruct r as [message|ok json]; [reflexivity|].
      destruct ok; simpl; [|reflexivity].
      destruct json as [[contents|j]|message]; try reflexivity.
      apply walk_items_ext. intros p st0. apply IH. lia.
Qed.

(** *** Excluded directories *)

Lemma emitted_keeps_to_tree (walk : string -> GitHub.M World (list GitHub.node))
      contents st added st' :
  GitHub.keeps_to_tree owner repo walk ->
  GitHub.emitted walk contents st added st' ->
  (exists new,
      GitHub.requests st' = (GitHub.requests st ++ new)%list /\
      forall url, In url new ->
        exists name p children,
          In (GitHub.DirNode name p children) (GitHub.all_nodes added) /\
          url = GitHub.contents_url owner repo p) /\
  (forall name p children,
      In (GitHub.DirNode name p children) (GitHub.all_nodes added) ->
      GitHub.excluded name = false).
Proof.
  intros Hkeeps. induction 1 as [st|item rest st added st' Hf _ IH
                                |item rest st subFiles st1 added st' Hd Hex Hw _ IH
                                |item rest st added st' Hf Hd _ IH].
  - split.
    + exists []. rewrite app_nil_r. split; [reflexivity | intros url []].
    + intros name p children [].
  - destruct IH as [(new & Hreq & Hnew) Hdirs]. split.
    + exists new. split; [exact Hreq|]. intros url Hin.
      destruct (Hnew url Hin) as (name & p & children & Hn & ->).
      exists name, p, children. split; [now right | reflexivity].
    + intros name p children [Heq|Hin]; [discriminate | eauto].
  - destruct IH as [(new & Hreq & Hnew) Hdirs].
    destruct (Hkeeps (GitHub.item_path item) st) as [(new1 & Hreq1 & Hnew1) Hdirs1].
    rewrite Hw in Hreq1, Hnew1, Hdirs1. simpl in Hreq1, Hnew1, Hdirs1.
    change (GitHub.all_nodes
              (GitHub.DirNode (GitHub.item_name item) (GitHub.item_path item) subFiles
                 :: added))
      with (GitHub.DirNode (GitHub.item_name item) (GitHub.item_path item) subFiles
              :: GitHub.all_nodes subFiles ++ GitHub.all_nodes added)%list.
    split.
    + exists (new1 ++ new)%list. split.
      * now rewrite Hreq, Hreq1, app_assoc.
      * intros url Hin. apply in_app_or in Hin as [Hin|Hin].
        -- destruct (Hnew1 url Hin) as [->|(name & p & children & Hn & ->)].
           ++ eexists _, _, _. split; [now left | reflexivity].
           ++ exists name, p, children. split; [|reflexivity].
              right. apply in_or_app. now left.
        -- destruct (Hnew url Hin) as (name & p & children & Hn & ->).
           exists name, p, children. split; [|reflexivity].
           right. apply in_or_app. now right.
    + intros name p children [Heq|Hin].
      * injection Heq as <- _ _. exact Hex.
      * apply in_app_or in Hin as [Hin|Hin]; eauto.
  - exact IH.
Qed.

Lemma walk_keeps_to_tree (levels : nat) :
  forall depth,
    GitHub.keeps_to_tree owner repo
      (fun p => GitHub.walk fetch levels owner repo p depth).
Proof.
  induction levels as [|levels IH]; intros depth path st.
  - simpl. split.
    + exists []. rewrite app_nil_r. split; [reflexivity | intros url []].
    + intros name p children [].
  - destruct (walk_S_cases levels path depth st)
      as [-> | (contents & added & st' & Hem & ->)]; simpl.
    + split.
      * exists []. rewrite app_nil_r. split; [reflexivity | intros url []].
      * intros name p children [].
    + apply (emitted_keeps_to_tree (IH (depth + 1)%Z)) in Hem
        as [(new & Hreq & Hnew) Hdirs].
      rewrite do_fetch_requests in Hreq. split; [|exact Hdirs].
      exists (GitHub.contents_url owner repo path :: new). split.
      * now rewrite Hreq, <- app_assoc.
      * intros url [<-|Hin]; [now left | right; auto].
Qed.

End WalkerFacts.

(** C4: a call at a depth above 3 returns the empty sequence without a
    request, so in the tree of a walk from depth 0 every directory at
    nesting level 4 (or below) has no children, whatever the host lists. *)
Theorem depth_bound (World : Type) (fetch : string -> World -> GitHub.response * World)
        (owner repo path : string) :
  (forall depth st,
      (3 < depth)%Z ->
      GitHub.analyzeFileStructure fetch owner repo path depth st = ([], st)) /\
  (forall st k name p children,
      4 <= k ->
      In (GitHub.DirNode name p children)
         (GitHub.level k (fst (GitHub.analyzeFileStructure fetch owner repo path 0 st))) ->
      children = []).
Proof.
  split.
  - intros depth st Hd. unfold GitHub.analyzeFileStructure.
    replace (Z.to_nat (4 - depth)) with 0 by lia. reflexivity.
  - intros st k name p children Hk Hin.
    destruct k as [|k]; [lia|]. apply level_children in Hin.
    unfold GitHub.analyzeFileStructure in Hin. rewrite walk_height in Hin.
    + destruct children as [|c cs]; [reflexivity|].
      destruct (Hin c). now left.
    + change (Z.to_nat (4 - 0)) with 4. lia.
Qed.

Lemma depth_bound_witness :
  (3 < 4)%Z /\
  GitHub.analyzeFileStructure Hosts.nested "acme" "widgets" "a/b/c/d" 4 (Hosts.start tt)
  = ([], Hosts.start tt) /\
  4 <= 4 /\
  In (GitHub.DirNode "sub" "sub" [])
     (GitHub.level 4
        (fst (GitHub.analyzeFileStructure Hosts.nested "acme" "widgets" "" 0
                (Hosts.start tt)))) /\
  @nil GitHub.node = [].
Proof.
  assert (H34 : (3 < 4)%Z) by lia.
  assert (Hin : In (GitHub.DirNode "sub" "sub" [])
     (GitHub.level 4
        (fst (GitHub.analyzeFileStructure Hosts.nested "acme" "widgets" "" 0
                (Hosts.start tt))))) by (vm_compute; auto).
  split; [exact H34|]. split.
  - exact (proj1 (depth_bound Hosts.nested "acme" "widgets" "a/b/c/d") 4%Z
             (Hosts.start tt) H34).
  - split; [lia|]. split; [exact Hin|].
    exact (proj2 (depth_bound Hosts.nested "acme" "widgets" "")
             (Hosts.start tt) 4 "sub" "sub" [] (le_n 4) Hin).
Defined.

(** C2, as the code has it: the walker does not descend into a directory
    whose name starts with a dot or is node_modules, and such an entry of
    a listing is dropped.  No directory of the tree, at any depth, has
    such a name, and every request of the walk is for its own path or for
    the path of a directory of the tree. *)
Theorem excluded_dirs_dropped
        (World : Type) (fetch : string -> World -> GitHub.response * World)
        (owner repo path : string) (depth : Z) (st : GitHub.state World) :
  (forall name p children,
      In (GitHub.DirNode name p children)
         (GitHub.all_nodes (fst (GitHub.analyzeFileStructure fetch owner repo path depth st))) ->
      JsString.startsWith name "." = false /\ name <> "node_modules") /\
  (exists new,
      GitHub.requests (snd (GitHub.analyzeFileStructure fetch owner repo path depth st))
      = (GitHub.requests st ++ new)%list /\
      forall url, In url new ->
        url = GitHub.contents_url owner repo path \/
        exists name p children,
          In (GitHub.DirNode name p children)
             (GitHub.all_nodes
                (fst (GitHub.analyzeFileStructure fetch owner repo path depth st))) /\
          url = GitHub.contents_url owner repo p).
Proof.
  unfold GitHub.analyzeFileStructure.
  destruct (walk_keeps_to_tree fetch owner repo (Z.to_nat (4 - depth)) depth path st)
    as [Hreq Hdirs].
  split; [|exact Hreq].
  intros name p children Hin. apply Hdirs in Hin.
  unfold GitHub.excluded in Hin. apply orb_false_iff in Hin as [H1 H2].
  split; [exact H1|]. now apply String.eqb_neq.
Qed.

Lemma excluded_dirs_dropped_witness :
  In (GitHub.DirNode "src" "src" [])
     (GitHub.all_nodes
        (fst (GitHub.analyzeFileStructure Hosts.hidden "acme" "widgets" "" 0
                (Hosts.start tt)))) /\
  JsString.startsWith "src" "." = false /\ "src" <> "node_modules".
Proof.
  assert (Hin : In (GitHub.DirNode "src" "src" [])
     (GitHub.all_nodes
        (fst (GitHub.analyzeFileStructure Hosts.hidden "acme" "widgets" "" 0
                (Hosts.start tt))))) by (vm_compute; auto).
  split; [exact Hin|].
  exact (proj1 (excluded_dirs_dropped Hosts.hidden "acme" "widgets" "" 0
                  (Hosts.start tt)) "src" "src" [] Hin).
Defined.

(** The host lists [.git] and [node_modules] at the root: neither is a
    node of the tree, with or without children. *)
Lemma excluded_dir_not_emitted :
  fst (Hosts.hidden "https://api.github.com/repos/acme/widgets/contents/" tt)
  = GitHub.Response true
      (Ret (GitHub.Entries [Hosts.dir_entry ".git" ".git";
                            Hosts.dir_entry "node_modules" "node_modules";
                            Hosts.dir_entry "src" "src";
                            Hosts.file_entry "README.md" "README.md" 10])) /\
  fst (GitHub.analyzeFileStructure Hosts.hidden "acme" "widgets" "" 0 (Hosts.start tt))
  = [GitHub.DirNode "src" "src" []; GitHub.FileNode "README.md" "README.md" 10] /\
  ~ (exists name p children,
        GitHub.excluded name = true /\
        In (GitHub.DirNode name p children)
           (fst (GitHub.analyzeFileStructure Hosts.hidden "acme" "widgets" "" 0
                   (Hosts.start tt)))).
Proof.
  split; [reflexivity|]. split; [reflexivity|].
  intros (name & p & children & Hex & [H|[H|[]]]); [|discriminate H].
  injection H as <- _ _. discriminate Hex.
Qed.

(** ** Sampler *)

(** A name is a candidate when it holds one of the five target names. *)
Lemma is_target_iff (name : string) :
  GitHub.is_target name = true <->
  exists target a b,
    In target ["package.json"; "README.md"; "tsconfig.json"; "next.config.js";
               "vite.config.ts"] /\
    name = a ++ target ++ b.
Proof.
  unfold GitHub.is_target. rewrite existsb_exists. split.
  - intros (target & Hin & Hinc). apply includes_iff in Hinc as (a & b & ->).
    now exists target, a, b.
  - intros (target & a & b & Hin & ->). exists target. split; [exact Hin|].
    apply includes_iff. now exists a, b.
Qed.

Section SamplerFacts.

Variable World : Type.
Variable fetch : string -> World -> GitHub.response * World.
Variable atob : string -> outcome string.
Variable ToString : value -> string.
Variables owner repo : string.

Lemma fetch_each_app (a b : list string) :
  forall sampleFiles st,
    GitHub.fetch_each fetch atob ToString owner repo (a ++ b) sampleFiles st
    = GitHub.fetch_each fetch atob ToString owner repo b (fst (GitHub.fetch_each fetch atob ToString owner repo a sampleFiles st))
                 (snd (GitHub.fetch_each fetch atob ToString owner repo a sampleFiles st)).
Proof.
  induction a as [|path a IH]; intros sampleFiles st; simpl; [reflexivity|].
  unfold GitHub.bind. destruct (GitHub.fetch_sample fetch atob ToString owner repo path st) as [found st1]. apply IH.
Qed.

Lemma findAndFetchFile_dir (name path : string) (children : list GitHub.node)
      (sampleFiles : list GitHub.SampleFile) (st : GitHub.state World) :
  GitHub.findAndFetchFile fetch atob ToString owner repo
    (GitHub.DirNode name path children) sampleFiles st
  = GitHub.findAndFetchFiles fetch atob ToString owner repo children sampleFiles st.
Proof.
  revert sampleFiles st. induction children as [|c cs IH]; intros sampleFiles st;
    [reflexivity|].
  simpl. unfold GitHub.bind.
  destruct (GitHub.findAndFetchFile fetch atob ToString owner repo c sampleFiles st)
    as [sampleFiles' st1].
  apply IH.
Qed.

Lemma findAndFetchFiles_Forall (files : list GitHub.node) :
  Forall (fun n => forall sampleFiles st,
              GitHub.findAndFetchFile fetch atob ToString owner repo n sampleFiles st
              = GitHub.fetch_each fetch atob ToString owner repo (GitHub.candidates_of n) sampleFiles st) files ->
  forall sampleFiles st,
    GitHub.findAndFetchFiles fetch atob ToString owner repo files sampleFiles st
    = GitHub.fetch_each fetch atob ToString owner repo (GitHub.candidates files) sampleFiles st.
Proof.
  induction 1 as [|n files Hn _ IH]; intros sampleFiles st; [reflexivity|].
  unfold GitHub.candidates. simpl. rewrite fetch_each_app.
  unfold GitHub.bind. rewrite Hn.
  destruct (GitHub.fetch_each fetch atob ToString owner repo (GitHub.candidates_of n) sampleFiles st) as [found st1].
  apply IH.
Qed.

(** The traversal fetches the candidates in pre-order. *)
Lemma findAndFetchFile_candidates (n : GitHub.node) :
  forall sampleFiles st,
    GitHub.findAndFetchFile fetch atob ToString owner repo n sampleFiles st
    = GitHub.fetch_each fetch atob ToString owner repo (GitHub.candidates_of n) sampleFiles st.
Proof.
  induction n as [name path size|name path children IH] using node_forest_ind;
    intros sampleFiles st.
  - simpl. destruct (GitHub.is_target name); [|reflexivity].
    simpl. unfold GitHub.bind. now destruct (GitHub.fetch_sample fetch atob ToString owner repo path st).
  - rewrite findAndFetchFile_dir. now apply findAndFetchFiles_Forall.
Qed.

Lemma findAndFetchFiles_candidates (files : list GitHub.node)
      (sampleFiles : list GitHub.SampleFile) (st : GitHub.state World) :
  GitHub.findAndFetchFiles fetch atob ToString owner repo files sampleFiles st
  = GitHub.fetch_each fetch atob ToString owner repo (GitHub.candidates files) sampleFiles st.
Proof.
  apply findAndFetchFiles_Forall, Forall_forall. intros n _.
  apply findAndFetchFile_candidates.
Qed.

Lemma getSampleFiles_first_five (tree : list GitHub.node) (st : GitHub.state World) :
  fst (GitHub.getSampleFiles fetch atob ToString owner repo tree st)
  = firstn 5 (fst (GitHub.fetch_each fetch atob ToString owner repo (GitHub.candidates tree) [] st)).
Proof.
  unfold GitHub.getSampleFiles, GitHub.bind.
  rewrite findAndFetchFiles_candidates.
  now destruct (GitHub.fetch_each fetch atob ToString owner repo (GitHub.candidates tree) [] st).
Qed.

(** When every fetch succeeds, every path gives its sample. *)
Lemma fetch_each_all (paths : list string) :
  (forall path st,
      In path paths ->
      exists text,
        fst (GitHub.fetch_sample fetch atob ToString owner repo path st)
        = Some {| GitHub.sample_path := path; GitHub.content := text |}) ->
  forall sampleFiles st,
    map GitHub.sample_path (fst (GitHub.fetch_each fetch atob ToString owner repo paths sampleFiles st))
    = (map GitHub.sample_path sampleFiles ++ paths)%list.
Proof.
  induction paths as [|path paths IH]; intros Hall sampleFiles st; simpl.
  - now rewrite app_nil_r.
  - unfold GitHub.bind. destruct (Hall path st (or_introl eq_refl)) as [text Hf].
    destruct (GitHub.fetch_sample fetch atob ToString owner repo path st) as [found st1]. simpl in Hf. subst found.
    rewrite IH by (intros p st0 Hp; apply Hall; now right).
    simpl. rewrite map_app, <- app_assoc. reflexivity.
Qed.

End SamplerFacts.

(** C5, as the code has it: the sampler returns at most 5 entries; its
    candidates are the FileNodes whose name holds one of the five target
    names; the result is the first 5 samples of the candidates whose
    content could be fetched, in pre-order, and when the content of every
    candidate can be fetched it is the first 5 candidates in pre-order. *)
Theorem samples_first_five_fetched
        (World : Type) (fetch : string -> World -> GitHub.response * World)
        (atob : string -> outcome string) (ToString : value -> string)
        (owner repo : string) (tree : list GitHub.node) (st : GitHub.state World) :
  List.length (fst (GitHub.getSampleFiles fetch atob ToString owner repo tree st)) <= 5 /\
  (forall name, GitHub.is_target name = true <->
     exists target a b,
       In target ["package.json"; "README.md"; "tsconfig.json"; "next.config.js";
                  "vite.config.ts"] /\
       name = a ++ target ++ b) /\
  fst (GitHub.getSampleFiles fetch atob ToString owner repo tree st)
  = firstn 5 (fst (GitHub.fetch_each fetch atob ToString owner repo
                     (GitHub.candidates tree) [] st)) /\
  ((forall path st0,
       In path (GitHub.candidates tree) ->
       exists text,
         fst (GitHub.fetch_sample fetch atob ToString owner repo path st0)
         = Some {| GitHub.sample_path := path; GitHub.content := text |}) ->
   map GitHub.sample_path
       (fst (GitHub.getSampleFiles fetch atob ToString owner repo tree st))
   = firstn 5 (GitHub.candidates tree)).
Proof.
  split; [|split; [|split]].
  - rewrite getSampleFiles_first_five. apply firstn_le_length.
  - apply is_target_iff.
  - apply getSampleFiles_first_five.
  - intros Hall. rewrite getSampleFiles_first_five, <- firstn_map.
    now rewrite (@fetch_each_all _ _ _ _ _ _ _ Hall).
Qed.

Lemma samples_first_five_fetched_witness :
  map GitHub.sample_path
      (fst (GitHub.getSampleFiles Hosts.serves_all Hosts.plain_atob
              Hosts.plain_ToString "acme" "widgets" Hosts.seven_candidates
              (Hosts.start tt)))
  = firstn 5 (GitHub.candidates Hosts.seven_candidates).
Proof.
  apply (proj2 (proj2 (proj2
           (samples_first_five_fetched Hosts.serves_all Hosts.plain_atob
              Hosts.plain_ToString "acme" "widgets" Hosts.seven_candidates
              (Hosts.start tt))))).
  intros path st0 _. exists "e30=". reflexivity.
Defined.

(** Seven candidates, of which the host fails to serve the first: the
    result is not the first five candidates. *)
Lemma failed_fetch_shifts_samples :
  GitHub.candidates Hosts.seven_candidates
  = ["package.json"; "README.md"; "app/tsconfig.json"; "app/vite.config.ts";
     "next.config.js"; "docs/README.md"; "docs/old-package.json.bak"] /\
  map GitHub.sample_path
      (fst (GitHub.getSampleFiles Hosts.all_but_package_json Hosts.plain_atob
              Hosts.plain_ToString "acme" "widgets" Hosts.seven_candidates
              (Hosts.start tt)))
  = ["README.md"; "app/tsconfig.json"; "app/vite.config.ts"; "next.config.js";
     "docs/README.md"] /\
  map GitHub.sample_path
      (fst (GitHub.getSampleFiles Hosts.all_but_package_json Hosts.plain_atob
              Hosts.plain_ToString "acme" "widgets" Hosts.seven_candidates
              (Hosts.start tt)))
  <> firstn 5 (GitHub.candidates Hosts.seven_candidates).
Proof.
  split; [reflexivity|]. split; [reflexivity|]. discriminate.
Qed.

(** ** Snapshot builder *)

Lemma substring_none (s : string) : forall n, substring n 0 s = "".
Proof.
  induction s as [|c s IH]; intros [|n]; simpl; auto.
Qed.

Lemma append_inj_r (a b s : string) : a ++ s = b ++ s -> a = b.
Proof.
  revert b. induction a as [|c a IH]; intros [|d b] H; simpl in H.
  - reflexivity.
  - apply (f_equal String.length) in H. simpl in H.
    rewrite length_append in H. lia.
  - apply (f_equal String.length) in H. simpl in H.
    rewrite length_append in H. lia.
  - injection H as -> H. f_equal. now apply IH.
Qed.

(** [/\.git$/] matches the four characters at the end of the input. *)
Lemma dot_git_suffix_shape (n : nat) (w rest : string) :
  Regex.Matches false GitHub.dot_git_suffix n w rest -> w = ".git" /\ rest = "".
Proof.
  intros H. cbv in H. invert_matches.
  repeat match goal with
         | H : Regex.in_cset false (Regex.CChar _) _ = true |- _ =>
             apply in_cset_char_cs in H; subst
         end.
  match goal with
  | H : Regex.Matches _ Regex.REol _ _ _ |- _ => inversion H; subst; clear H
  end.
  split; reflexivity.
Qed.

(** [replace(/\.git$/, '')] strips a trailing .git. *)
Lemma strip_dot_git (repo : string) :
  Regex.remove_first false GitHub.dot_git_suffix (repo ++ ".git") = repo.
Proof.
  unfold Regex.remove_first, Regex.exec.
  destruct (Regex.exec_from false GitHub.dot_git_suffix 0 (repo ++ ".git"))
    as [res|] eqn:E.
  - apply exec_from_sound in E as (pre & w & rest & Hs & Hm & Hw & Hi).
    apply dot_git_suffix_shape in Hm as [-> ->]. simpl in Hi.
    rewrite Hw, Hi. change (".git" ++ "") with ".git" in Hs.
    apply append_inj_r in Hs. subst pre.
    rewrite length_append. simpl String.length.
    replace (String.length repo + 4 - (String.length repo + 4)) with 0 by lia.
    now rewrite substring_none, substring_prefix, append_nil_r.
  - exfalso. revert E.
    replace (repo ++ ".git") with (repo ++ ".git" ++ "") by reflexivity.
    apply exec_from_complete. simpl.
    change GitHub.dot_git_suffix
      with (Regex.RSeq (Regex.lit ".git") Regex.REol).
    change ".git" with (".git" ++ "") at 2. constructor.
    + apply lit_matches. discriminate.
    + constructor.
Qed.

Section BuilderFacts.

Variable World : Type.
Variable fetch : string -> World -> GitHub.response * World.
Variable atob : string -> outcome string.
Variable ToString : value -> string.

Lemma appends_ret (A : Type) (a : A) : GitHub.appends (GitHub.ret (World := World) a).
Proof. intros st. exists []. simpl. now rewrite app_nil_r. Qed.

Lemma appends_bind (A B : Type) (c : GitHub.M World A) (f : A -> GitHub.M World B) :
  GitHub.appends c -> (forall a, GitHub.appends (f a)) ->
  GitHub.appends (GitHub.bind c f).
Proof.
  intros Hc Hf st. unfold GitHub.bind. destruct (Hc st) as [new1 H1].
  destruct (c st) as [a st1]. simpl in H1. destruct (Hf a st1) as [new2 H2].
  exists (new1 ++ new2)%list. now rewrite H2, H1, app_assoc.
Qed.

Lemma appends_do_fetch (url : string) : GitHub.appends (GitHub.do_fetch fetch url).
Proof. intros st. exists [url]. apply do_fetch_requests. Qed.

Lemma appends_bindE (A B : Type) (c : GitHub.ME World A)
      (f : A -> GitHub.ME World B) :
  GitHub.appends c -> (forall a, GitHub.appends (f a)) ->
  GitHub.appends (GitHub.bindE c f).
Proof.
  intros Hc Hf. unfold GitHub.bindE. apply appends_bind; [exact Hc|].
  intros [a|e]; [apply Hf | apply appends_ret].
Qed.

Lemma appends_fetch_or_throw (url : string) :
  GitHub.appends (GitHub.fetch_or_throw fetch url).
Proof.
  unfold GitHub.fetch_or_throw. apply appends_bind; [apply appends_do_fetch|].
  intros [e|ok json]; apply appends_ret.
Qed.

Lemma appends_walk (owner repo path : string) (depth : Z) :
  GitHub.appends (GitHub.analyzeFileStructure fetch owner repo path depth).
Proof.
  intros st. unfold GitHub.analyzeFileStructure.
  destruct (walk_keeps_to_tree fetch owner repo (Z.to_nat (4 - depth)) depth path st)
    as [(new & Hreq & _) _].
  now exists new.
Qed.

Lemma appends_fetch_sample (owner repo path : string) :
  GitHub.appends (GitHub.fetch_sample fetch atob ToString owner repo path).
Proof.
  unfold GitHub.fetch_sample. apply appends_bind; [apply appends_do_fetch|].
  intros r. apply appends_ret.
Qed.

Lemma appends_fetch_each (owner repo : string) (paths : list string) :
  forall sampleFiles,
    GitHub.appends (GitHub.fetch_each fetch atob ToString owner repo paths sampleFiles).
Proof.
  induction paths as [|path paths IH]; intros sampleFiles; simpl.
  - apply appends_ret.
  - apply appends_bind; [apply appends_fetch_sample | intros found; apply IH].
Qed.

Lemma appends_getSampleFiles (owner repo : string) (tree : list GitHub.node) :
  GitHub.appends (GitHub.getSampleFiles fetch atob ToString owner repo tree).
Proof.
  unfold GitHub.getSampleFiles. apply appends_bind; [|intros; apply appends_ret].
  intros st. rewrite findAndFetchFiles_candidates. apply appends_fetch_each.
Qed.

(** The first request of the [try] block is for the repository, under
    the owner and the name it was given. *)
Lemma analyze_or_throw_first_request (owner cleanRepo : string)
      (st : GitHub.state World) :
  exists more,
    GitHub.requests
      (snd (GitHub.analyze_or_throw fetch atob ToString owner cleanRepo st))
    = (GitHub.requests st ++ GitHub.repo_url owner cleanRepo :: more)%list.
Proof.
  unfold GitHub.analyze_or_throw.
  set (rest := fun repoResponse : bool * outcome GitHub.document => _).
  assert (Hrest : forall a, GitHub.appends (rest a)).
  { intros [ok json]. unfold rest. simpl.
    destruct ok; simpl; [|apply appends_ret].
    apply appends_bindE; [apply appends_ret|]. intros repository.
    apply appends_bindE; [apply appends_fetch_or_throw|]. intros [ok2 json2]. simpl.
    destruct ok2; simpl; [|apply appends_ret].
    apply appends_bindE; [apply appends_ret|]. intros contents.
    apply appends_bindE; [apply appends_fetch_or_throw|]. intros [ok3 json3].
    apply appends_bindE; [apply appends_ret|]. intros languages.
    apply appends_bindE.
    { unfold GitHub.lift. apply appends_bind; [apply appends_walk|].
      intros; apply appends_ret. }
    intros fileStructure.
    apply appends_bindE; [apply appends_ret|]. intros keys.
    apply appends_bindE; [|intros; apply appends_ret].
    unfold GitHub.lift. apply appends_bind; [apply appends_getSampleFiles|].
    intros; apply appends_ret. }
  unfold GitHub.bindE, GitHub.bind at 1, GitHub.fetch_or_throw, GitHub.bind at 1.
  pose proof (do_fetch_requests fetch (GitHub.repo_url owner cleanRepo) st) as Hreq.
  destruct (GitHub.do_fetch fetch (GitHub.repo_url owner cleanRepo) st) as [r st1].
  simpl in Hreq. destruct r as [e|ok json]; simpl.
  - exists []. exact Hreq.
  - destruct (Hrest (ok, json) st1) as [new Hnew]. exists new.
    now rewrite Hnew, Hreq, <- app_assoc.
Qed.

End BuilderFacts.

(** C8: a URL the owner/repo pattern does not match is rejected with
    'Invalid GitHub repository URL' in the state the call started in: no
    request is made.  For a URL it matches, the first request is for the
    owner captured and the repository name captured, less a trailing
    .git; https://github.com/acme/widgets.git gives acme and widgets. *)
Theorem invalid_url_rejected_before_fetch
        (World : Type) (fetch : string -> World -> GitHub.response * World)
        (atob : string -> outcome string) (ToString : value -> string)
        (repoUrl : string) :
  (forall st,
      Regex.exec false GitHub.github_url repoUrl = None ->
      GitHub.analyzeRepository fetch atob ToString repoUrl st
      = (Throw "Invalid GitHub repository URL", st)) /\
  (forall found st,
      Regex.exec false GitHub.github_url repoUrl = Some found ->
      exists more,
        GitHub.requests (snd (GitHub.analyzeRepository fetch atob ToString repoUrl st))
        = (GitHub.requests st
           ++ GitHub.repo_url
                (nth 0 (Regex.groups found) "")
                (Regex.remove_first false GitHub.dot_git_suffix
                   (nth 1 (Regex.groups found) ""))
           :: more)%list) /\
  (forall repo,
      Regex.remove_first false GitHub.dot_git_suffix (repo ++ ".git") = repo) /\
  Regex.exec false GitHub.github_url "https://github.com/acme/widgets.git"
  = Some {| Regex.matched := "github.com/acme/widgets.git";
            Regex.groups := ["acme"; "widgets.git"];
            Regex.index := 8 |} /\
  Regex.remove_first false GitHub.dot_git_suffix "widgets.git" = "widgets".
Proof.
  split; [|split; [|split; [|split]]].
  - intros st Hno. unfold GitHub.analyzeRepository. now rewrite Hno.
  - intros found st Hfound. unfold GitHub.analyzeRepository. rewrite Hfound.
    unfold GitHub.bind.
    destruct (analyze_or_throw_first_request fetch atob ToString
                (nth 0 (Regex.groups found) "")
                (Regex.remove_first false GitHub.dot_git_suffix
                   (nth 1 (Regex.groups found) "")) st) as [more Hmore].
    destruct (GitHub.analyze_or_throw _ _ _ _ _ st) as [[data|message] st'];
      exists more; exact Hmore.
  - apply strip_dot_git.
  - reflexivity.
  - reflexivity.
Qed.

Lemma invalid_url_rejected_before_fetch_witness :
  Regex.exec false GitHub.github_url "https://gitlab.com/acme/widgets" = None /\
  GitHub.analyzeRepository Hosts.three_then_down Hosts.plain_atob
    Hosts.plain_ToString "https://gitlab.com/acme/widgets" (Hosts.start 0)
  = (Throw "Invalid GitHub repository URL", Hosts.start 0) /\
  exists more,
    GitHub.requests
      (snd (GitHub.analyzeRepository Hosts.three_then_down Hosts.plain_atob
              Hosts.plain_ToString "https://github.com/acme/widgets.git"
              (Hosts.start 0)))
    = "https://api.github.com/repos/acme/widgets" :: more.
Proof.
  assert (Hno : Regex.exec false GitHub.github_url "https://gitlab.com/acme/widgets"
                = None) by reflexivity.
  split; [exact Hno|]. split.
  - exact (proj1 (invalid_url_rejected_before_fetch Hosts.three_then_down
                    Hosts.plain_atob Hosts.plain_ToString
                    "https://gitlab.com/acme/widgets") (Hosts.start 0) Hno).
  - exact (proj1 (proj2 (invalid_url_rejected_before_fetch Hosts.three_then_down
                           Hosts.plain_atob Hosts.plain_ToString
                           "https://github.com/acme/widgets.git"))
             {| Regex.matched := "github.com/acme/widgets.git";
                Regex.groups := ["acme"; "widgets.git"];
                Regex.index := 8 |}
             (Hosts.start 0) eq_refl).
Defined.

(** ** Local recovery *)

Lemma Object_keys_total (languages : GitHub.document) :
  languages <> GitHub.Doc JNull ->
  exists keys, GitHub.Object_keys languages = Ret keys.
Proof.
  intros Hne. destruct languages as [items|[]]; simpl; eauto. contradiction.
Qed.

(** The [try] block returns once its first three fetches are answered. *)
Lemma analyze_or_throw_recovers
      (World : Type) (fetch : string -> World -> GitHub.response * World)
      (atob : string -> outcome string) (ToString : value -> string)
      (owner cleanRepo : string)
      (st : GitHub.state World) (w1 w2 w3 : World)
      (repository contents : GitHub.document)
      (ok3 : bool) (json3 : outcome GitHub.document) :
  let url := GitHub.repo_url owner cleanRepo in
  fetch url (GitHub.world st) = (GitHub.Response true (Ret repository), w1) ->
  fetch (url ++ "/contents") w1 = (GitHub.Response true (Ret contents), w2) ->
  fetch (url ++ "/languages") w2 = (GitHub.Response ok3 json3, w3) ->
  (ok3 = true -> exists languages,
      json3 = Ret languages /\ languages <> GitHub.Doc JNull) ->
  exists data st',
    GitHub.analyze_or_throw fetch atob ToString owner cleanRepo st = (Ret data, st') /\
    GitHub.repository data = repository /\
    GitHub.fileStructure data
    = fst (GitHub.analyzeFileStructure fetch owner cleanRepo "" 0
             {| GitHub.world := w3;
                GitHub.requests :=
                  (GitHub.requests st
                   ++ [url; (url ++ "/contents")%string;
                       (url ++ "/languages")%string])%list |}) /\
    GitHub.stats data = GitHub.analyzeProjectStats (GitHub.fileStructure data) /\
    List.length (GitHub.sampleFiles data) <= 5.
Proof.
  intros url H1 H2 H3 Hlang.
  assert (Hkeys : exists languages keys,
             (if ok3 then json3 else Ret (GitHub.Doc (JObj []))) = Ret languages /\
             GitHub.Object_keys languages = Ret keys).
  { destruct ok3.
    - destruct (Hlang eq_refl) as (languages & -> & Hne).
      destruct (Object_keys_total Hne) as [keys Hk]. now exists languages, keys.
    - exists (GitHub.Doc (JObj [])), []. now split. }
  destruct Hkeys as (languages & keys & Hl & Hk).
  unfold GitHub.analyze_or_throw. fold url. clearbody url.
  unfold GitHub.lift, GitHub.bindE, GitHub.fetch_or_throw, GitHub.bind,
    GitHub.do_fetch, GitHub.pure, GitHub.ret, GitHub.throw.
  rewrite H1. cbn [fst snd negb GitHub.world GitHub.requests].
  rewrite H2. cbn [fst snd negb GitHub.world GitHub.requests].
  rewrite H3. cbn [fst snd negb GitHub.world GitHub.requests].
  rewrite Hl. rewrite <- !app_assoc. cbn [app].
  destruct (GitHub.analyzeFileStructure fetch owner cleanRepo "" 0 _)
    as [fileStructure st4] eqn:Hwalk.
  rewrite Hk.
  assert (Hfive : List.length
                    (fst (GitHub.getSampleFiles fetch atob ToString owner cleanRepo
                            fileStructure st4)) <= 5)
    by (rewrite getSampleFiles_first_five; apply firstn_le_length).
  destruct (GitHub.getSampleFiles fetch atob ToString owner cleanRepo
              fileStructure st4) as [sampleFiles st5].
  eexists _, st5. split; [reflexivity|].
  cbn [GitHub.repository GitHub.fileStructure GitHub.stats GitHub.sampleFiles].
  repeat split. exact Hfive.
Qed.

(** C3, as the code has it: once the metadata fetch and the fetch of the
    root contents have succeeded and the language fetch has been answered
    (with a failure status, or with a document other than null), no
    failure of a listing fetch of the tree walk or of a sample fetch makes
    the call fail: the snapshot is returned, with the tree the walker
    recovered and at most five samples. *)
Theorem snapshot_survives_walk_failures
        (World : Type) (fetch : string -> World -> GitHub.response * World)
        (atob : string -> outcome string) (ToString : value -> string)
        (repoUrl : string) (found : Regex.match_result)
        (st : GitHub.state World) (w1 w2 w3 : World)
        (repository contents : GitHub.document)
        (ok3 : bool) (json3 : outcome GitHub.document) :
  let owner := nth 0 (Regex.groups found) "" in
  let cleanRepo := Regex.remove_first false GitHub.dot_git_suffix
                     (nth 1 (Regex.groups found) "") in
  let url := GitHub.repo_url owner cleanRepo in
  Regex.exec false GitHub.github_url repoUrl = Some found ->
  fetch url (GitHub.world st) = (GitHub.Response true (Ret repository), w1) ->
  fetch (url ++ "/contents") w1 = (GitHub.Response true (Ret contents), w2) ->
  fetch (url ++ "/languages") w2 = (GitHub.Response ok3 json3, w3) ->
  (ok3 = true -> exists languages,
      json3 = Ret languages /\ languages <> GitHub.Doc JNull) ->
  exists data st',
    GitHub.analyzeRepository fetch atob ToString repoUrl st = (Ret data, st') /\
    GitHub.repository data = repository /\
    GitHub.fileStructure data
    = fst (GitHub.analyzeFileStructure fetch owner cleanRepo "" 0
             {| GitHub.world := w3;
                GitHub.requests :=
                  (GitHub.requests st
                   ++ [url; (url ++ "/contents")%string;
                       (url ++ "/languages")%string])%list |}) /\
    GitHub.stats data = GitHub.analyzeProjectStats (GitHub.fileStructure data) /\
    List.length (GitHub.sampleFiles data) <= 5.
Proof.
  intros owner cleanRepo url Hfound H1 H2 H3 Hlang.
  destruct (analyze_or_throw_recovers fetch atob ToString owner cleanRepo st
              H1 H2 H3 Hlang) as (data & st' & Hrun & Hrest).
  exists data, st'. split; [|exact Hrest].
  unfold GitHub.analyzeRepository. rewrite Hfound. fold owner cleanRepo.
  unfold GitHub.bind. rewrite Hrun. reflexivity.
Qed.

Lemma snapshot_survives_walk_failures_witness :
  exists data st',
    GitHub.analyzeRepository Hosts.three_then_down Hosts.plain_atob
      Hosts.plain_ToString "https://github.com/acme/widgets.git" (Hosts.start 0)
    = (Ret data, st') /\
    GitHub.fileStructure data = [] /\
    GitHub.requests st'
    = ["https://api.github.com/repos/acme/widgets";
       "https://api.github.com/repos/acme/widgets/contents";
       "https://api.github.com/repos/acme/widgets/languages";
       "https://api.github.com/repos/acme/widgets/contents/"].
Proof.
  destruct (@snapshot_survives_walk_failures nat Hosts.three_then_down
              Hosts.plain_atob Hosts.plain_ToString
              "https://github.com/acme/widgets.git"
              {| Regex.matched := "github.com/acme/widgets.git";
                 Regex.groups := ["acme"; "widgets.git"];
                 Regex.index := 8 |}
              (Hosts.start 0) 1 2 3
              (GitHub.Doc (JObj [])) (GitHub.Doc (JObj []))
              true (Ret (GitHub.Doc (JObj [])))
              eq_refl eq_refl eq_refl eq_refl
              (fun _ => ex_intro _ (GitHub.Doc (JObj []))
                          (conj eq_refl
                             (fun H : GitHub.Doc (JObj []) = GitHub.Doc JNull =>
                                ltac:(discriminate H)))))
    as (data & st' & Hrun & _ & Htree & _).
  exists data, st'. split; [exact Hrun|].
  split; [exact Htree|].
  vm_compute in Hrun. now injection Hrun as <- <-.
Defined.

(** The metadata of the repository is fetched; the fetch of its root
    contents is answered with a failure status, and the call fails. *)
Lemma root_contents_failure_aborts :
  fst (Hosts.metadata_only "https://api.github.com/repos/acme/widgets" tt)
  = GitHub.Response true (Ret (GitHub.Doc (JObj [("name", JStr "widgets")]))) /\
  GitHub.analyzeRepository Hosts.metadata_only Hosts.plain_atob Hosts.plain_ToString
    "https://github.com/acme/widgets" (Hosts.start tt)
  = (Throw "Failed to analyze repository: Failed to fetch repository contents",
     {| GitHub.world := tt;
        GitHub.requests := ["https://api.github.com/repos/acme/widgets";
                            "https://api.github.com/repos/acme/widgets/contents"] |}).
Proof. split; reflexivity. Qed.

(* ================================================================= *)
(** * Further properties *)

(** ** How the matcher runs on a given input *)

(** A literal consumes itself. *)
Lemma m_lit (A : Type) (ci : bool) (u : string) :
  u <> "" ->
  forall n s caps (k : Regex.cont A),
    Regex.m ci (Regex.lit u) n (u ++ s) caps k = k (n + String.length u) s caps.
Proof.
  induction u as [|c u IH]; intros Hne n s caps k; [contradiction|].
  destruct u as [|d u].
  - change (Regex.lit (String c "")) with (Regex.RSet (Regex.CChar c)).
    change (String c "" ++ s) with (String c s).
    cbn [Regex.m]. rewrite in_cset_self. now rewrite Nat.add_1_r.
  - change (Regex.lit (String c (String d u)))
      with (Regex.RSeq (Regex.RSet (Regex.CChar c)) (Regex.lit (String d u))).
    change (String c (String d u) ++ s) with (String c (String d u ++ s)).
    cbn [Regex.m]. rewrite in_cset_self.
    rewrite IH by discriminate. f_equal. simpl. lia.
Qed.

Lemma m_seq (A : Type) (ci : bool) (r1 r2 : Regex.regex) (n : nat) (s : string)
      (caps : list string) (k : Regex.cont A) :
  Regex.m ci (Regex.RSeq r1 r2) n s caps k
  = Regex.m ci r1 n s caps (fun n' s' caps' => Regex.m ci r2 n' s' caps' k).
Proof. reflexivity. Qed.

Lemma m_char (A : Type) (ci : bool) (c : ascii) (n : nat) (s : string)
      (caps : list string) (k : Regex.cont A) :
  Regex.m ci (Regex.RSet (Regex.CChar c)) n (String c s) caps k = k (S n) s caps.
Proof. cbn [Regex.m]. now rewrite in_cset_self. Qed.

(** A greedy repetition takes a whole run, when the rest of the pattern
    matches after it. *)
Lemma star_greedy (A : Type) (ci : bool) (cs : Regex.cset) (w : string) :
  forall n rest caps (k : Regex.cont A) x,
    (forall a, JsString.count a w <> 0 -> Regex.in_cset ci cs a = true) ->
    k (n + String.length w) rest caps = Some x ->
    Regex.star ci cs n (w ++ rest) caps k = Some x \/
    exists y, Regex.star ci cs n (w ++ rest) caps k = Some y /\
              exists b rest', rest = String b rest' /\ Regex.in_cset ci cs b = true.
Proof.
  induction w as [|a w IH]; intros n rest caps k x Hw Hk.
  - simpl in *. rewrite Nat.add_0_r in Hk. destruct rest as [|b rest']; simpl.
    + now left.
    + destruct (Regex.in_cset ci cs b) eqn:Hb; [|now left].
      destruct (Regex.star ci cs (S n) rest' caps k) as [y|].
      * right. exists y. split; [reflexivity|]. now exists b, rest'.
      * now left.
  - simpl. rewrite (Hw a) by (simpl; rewrite Ascii.eqb_refl; lia).
    assert (Hw' : forall b, JsString.count b w <> 0 -> Regex.in_cset ci cs b = true)
      by (intros b Hb; apply Hw; simpl; lia).
    simpl in Hk. rewrite <- Nat.add_succ_comm in Hk.
    destruct (IH (S n) rest caps k x Hw' Hk) as [-> | (y & -> & Hrest)].
    + now left.
    + right. now exists y.
Qed.

(** When the run ends where the set ends, the repetition takes exactly
    the run. *)
Lemma star_run (A : Type) (ci : bool) (cs : Regex.cset) (w rest : string)
      (n : nat) (caps : list string) (k : Regex.cont A) (x : A) :
  (forall a, JsString.count a w <> 0 -> Regex.in_cset ci cs a = true) ->
  (rest = "" \/ exists b rest', rest = String b rest' /\ Regex.in_cset ci cs b = false) ->
  k (n + String.length w) rest caps = Some x ->
  Regex.star ci cs n (w ++ rest) caps k = Some x.
Proof.
  intros Hw Hrest Hk.
  destruct (star_greedy ci cs w n rest caps k Hw Hk)
    as [H | (y & _ & b & rest' & -> & Hb)]; [exact H|].
  destruct Hrest as [Hrest | (b' & rest'' & Heq & Hb')]; [discriminate|].
  injection Heq as <- <-. congruence.
Qed.

(** ** URL parsing *)

(** A capturing group [([^\/]+)] takes a whole path segment. *)
Lemma m_segment (A : Type) (w rest : string) (n : nat) (caps : list string)
      (k : Regex.cont A) (x : A) :
  w <> "" ->
  JsString.count "/" w = 0 ->
  (rest = "" \/ exists t, rest = String "/" t) ->
  k (n + String.length w) rest (caps ++ [w])%list = Some x ->
  Regex.m false (Regex.RGroup (Regex.RPlus (Regex.CNot "/"))) n (w ++ rest) caps k
  = Some x.
Proof.
  intros Hne Hw Hrest Hk. destruct w as [|a w]; [contradiction|].
  cbn [Regex.m append]. simpl in Hw.
  destruct (Ascii.eqb a "/") eqn:Ea; [lia|].
  cbn [Regex.in_cset]. rewrite Ea. cbn [negb].
  apply star_run.
  - intros b Hb. cbn [Regex.in_cset].
    destruct (Ascii.eqb_spec b "/") as [->|]; [simpl in Hw; lia | reflexivity].
  - destruct Hrest as [->|[t ->]]; [now left | right].
    exists "/"%char, t. split; reflexivity.
  - cbn [String.length] in Hk. rewrite Nat.add_succ_r in Hk.
    replace (S n + String.length w - n) with (S (String.length w)) by lia.
    change (String a (w ++ rest)) with (String a w ++ rest).
    change (S (String.length w)) with (String.length (String a w)).
    now rewrite substring_prefix.
Qed.

Lemma github_url_not_here (A : Type) (a : ascii) (s : string) (n : nat)
      (caps : list string) (k : Regex.cont A) :
  Ascii.eqb a "g" = false ->
  Regex.m false GitHub.github_url n (String a s) caps k = None.
Proof. intros Ha. cbn. now rewrite Ha. Qed.

Lemma github_url_skip (pre s : string) :
  JsString.count "g" pre = 0 ->
  forall n,
    Regex.exec_from false GitHub.github_url n (pre ++ s)
    = Regex.exec_from false GitHub.github_url (n + String.length pre) s.
Proof.
  induction pre as [|a pre IH]; intros Hg n.
  - simpl. now rewrite Nat.add_0_r.
  - simpl in Hg. destruct (Ascii.eqb a "g") eqn:Ea; [lia|].
    change (String a pre ++ s) with (String a (pre ++ s)).
    cbn [Regex.exec_from]. rewrite github_url_not_here by exact Ea.
    rewrite IH by lia. f_equal. simpl. lia.
Qed.

(** The owner and the repository name of a URL are read back from it:
    the two path segments after [github.com/]. *)
Theorem github_url_reads_back (pre owner repo tail : string) :
  JsString.count "g" pre = 0 ->
  owner <> "" -> repo <> "" ->
  JsString.count "/" owner = 0 ->
  JsString.count "/" repo = 0 ->
  (tail = "" \/ exists t, tail = String "/" t) ->
  Regex.exec false GitHub.github_url
    (pre ++ "github.com/" ++ owner ++ "/" ++ repo ++ tail)
  = Some {| Regex.matched := "github.com/" ++ owner ++ "/" ++ repo;
            Regex.groups := [owner; repo];
            Regex.index := String.length pre |}.
Proof.
  intros Hpre Ho Hr Hos Hrs Htail. unfold Regex.exec.
  rewrite github_url_skip by exact Hpre. simpl (0 + _).
  set (n := String.length pre).
  set (s := "github.com/" ++ owner ++ "/" ++ repo ++ tail).
  assert (Hm : Regex.m false GitHub.github_url n s []
                 (fun n' _ caps =>
                    Some (Regex.MatchResult (substring 0 (n' - n) s) caps n))
               = Some {| Regex.matched := "github.com/" ++ owner ++ "/" ++ repo;
                         Regex.groups := [owner; repo];
                         Regex.index := n |}).
  { change GitHub.github_url
      with (Regex.RSeq (Regex.lit "github.com/")
              (Regex.RSeq (Regex.RGroup (Regex.RPlus (Regex.CNot "/")))
                 (Regex.RSeq (Regex.RSet (Regex.CChar "/"))
                    (Regex.RGroup (Regex.RPlus (Regex.CNot "/")))))).
    rewrite m_seq. unfold s at 1.
    rewrite m_lit by discriminate. rewrite m_seq.
    apply m_segment; try assumption.
    - right. now exists (repo ++ tail).
    - change (("/" ++ repo ++ tail)) with (String "/" (repo ++ tail)).
      rewrite m_seq, m_char.
      apply m_segment; try assumption.
      f_equal. f_equal.
      assert (Hlen : S (n + String.length "github.com/" + String.length owner)
                     + String.length repo - n
                     = String.length ("github.com/" ++ owner ++ "/" ++ repo)).
      { rewrite (length_append "github.com/"), (length_append owner).
        change (String.length ("/" ++ repo)) with (S (String.length repo)). lia. }
      rewrite Hlen.
      unfold s.
      replace ("github.com/" ++ owner ++ "/" ++ repo ++ tail)
        with (("github.com/" ++ owner ++ "/" ++ repo) ++ tail)
        by (rewrite !append_assoc; reflexivity).
      apply substring_prefix. }
  destruct s as [|c s'] eqn:Es; [discriminate|].
  cbn [Regex.exec_from]. now rewrite Hm.
Qed.

Lemma github_url_reads_back_witness :
  Regex.exec false GitHub.github_url
    ("https://" ++ "github.com/" ++ "acme" ++ "/" ++ "widgets.git" ++ "/tree/main")
  = Some {| Regex.matched := "github.com/" ++ "acme" ++ "/" ++ "widgets.git";
            Regex.groups := ["acme"; "widgets.git"];
            Regex.index := String.length "https://" |}.
Proof.
  apply (@github_url_reads_back "https://" "acme" "widgets.git" "/tree/main");
    try reflexivity; try discriminate.
  right. now exists "tree/main".
Defined.

(** ** The span handed to [JSON.parse] *)

Lemma json_span_not_here (A : Type) (a : ascii) (s : string) (n : nat)
      (caps : list string) (k : Regex.cont A) :
  Ascii.eqb a "{" = false ->
  Regex.m false Gemini.json_span n (String a s) caps k = None.
Proof. intros Ha. cbn. now rewrite Ha. Qed.

Lemma json_span_skip (pre s : string) :
  JsString.count "{" pre = 0 ->
  forall n,
    Regex.exec_from false Gemini.json_span n (pre ++ s)
    = Regex.exec_from false Gemini.json_span (n + String.length pre) s.
Proof.
  induction pre as [|a pre IH]; intros Hg n.
  - simpl. now rewrite Nat.add_0_r.
  - simpl in Hg. destruct (Ascii.eqb a "{") eqn:Ea; [lia|].
    change (String a pre ++ s) with (String a (pre ++ s)).
    cbn [Regex.exec_from]. rewrite json_span_not_here by exact Ea.
    rewrite IH by lia. f_equal. simpl. lia.
Qed.

(** After the last closing brace nothing closes the span. *)
Lemma star_any_none (A : Type) (post : string) :
  JsString.count "}" post = 0 ->
  forall n caps (k : Regex.cont A),
    Regex.star false Regex.CAny n post caps
      (fun n' s' caps' =>
         Regex.m false (Regex.RSet (Regex.CChar "}")) n' s' caps' k)
    = None.
Proof.
  induction post as [|a post IH]; intros Hc n caps k; [reflexivity|].
  simpl in Hc. destruct (Ascii.eqb a "}") eqn:Ea; [lia|].
  cbn [Regex.star Regex.in_cset]. rewrite IH by lia.
  cbn [Regex.m Regex.in_cset]. now rewrite Ea.
Qed.

(** The greedy [[\s\S]*] runs to the last closing brace. *)
Lemma star_any_last (A : Type) (post : string) (mid : string) :
  JsString.count "}" post = 0 ->
  forall n caps (k : Regex.cont A) x,
    k (n + String.length mid + 1) post caps = Some x ->
    Regex.star false Regex.CAny n (mid ++ String "}" post) caps
      (fun n' s' caps' =>
         Regex.m false (Regex.RSet (Regex.CChar "}")) n' s' caps' k)
    = Some x.
Proof.
  intros Hc. induction mid as [|a mid IH]; intros n caps k x Hk.
  - change ("" ++ String "}" post) with (String "}" post).
    cbn [Regex.star Regex.in_cset]. rewrite star_any_none by exact Hc.
    rewrite m_char.
    replace (S n) with (n + String.length "" + 1) by (simpl; lia). exact Hk.
  - change (String a mid ++ String "}" post) with (String a (mid ++ String "}" post)).
    cbn [Regex.star Regex.in_cset]. rewrite (IH (S n) caps k x); [reflexivity|].
    replace (S n + String.length mid + 1)
      with (n + String.length (String a mid) + 1) by (simpl; lia).
    exact Hk.
Qed.

(** The span of a response text runs from its first opening brace to its
    last closing brace, and that span is what [JSON.parse] is given: prose
    around the object is dropped, braces in the prose are not. *)
Theorem json_span_first_to_last
        (JSON_parse : string -> outcome json) (ToNumber_object : json -> number)
        (pre mid post : string) :
  JsString.count "{" pre = 0 ->
  JsString.count "}" post = 0 ->
  Regex.exec false Gemini.json_span (pre ++ "{" ++ mid ++ "}" ++ post)
  = Some {| Regex.matched := "{" ++ mid ++ "}";
            Regex.groups := [];
            Regex.index := String.length pre |} /\
  Gemini.parse_or_throw JSON_parse ToNumber_object (pre ++ "{" ++ mid ++ "}" ++ post)
  = bind_outcome (JSON_parse ("{" ++ mid ++ "}")) (Gemini.validate ToNumber_object).
Proof.
  intros Hpre Hpost.
  assert (Hexec : Regex.exec false Gemini.json_span (pre ++ "{" ++ mid ++ "}" ++ post)
                  = Some {| Regex.matched := "{" ++ mid ++ "}";
                            Regex.groups := [];
                            Regex.index := String.length pre |}).
  { unfold Regex.exec. rewrite json_span_skip by exact Hpre. simpl (0 + _).
    set (n := String.length pre).
    change ("{" ++ mid ++ "}" ++ post) with (String "{" (mid ++ String "}" post)).
    cbn [Regex.exec_from]. unfold Gemini.json_span.
    rewrite m_seq, m_char, m_seq.
    change (Regex.m false (Regex.RStar Regex.CAny))
      with (Regex.star (A := Regex.match_result) false Regex.CAny).
    rewrite (@star_any_last _ post mid Hpost (S n) [] _
               {| Regex.matched := "{" ++ mid ++ "}";
                  Regex.groups := [];
                  Regex.index := n |}); [reflexivity|].
    f_equal. f_equal.
    assert (Hlen : S n + String.length mid + 1 - n
                   = String.length ("{" ++ mid ++ "}")).
    { rewrite (length_append "{"), (length_append mid).
      change (String.length "{") with 1. change (String.length "}") with 1. lia. }
    rewrite Hlen.
    replace (String "{" (mid ++ String "}" post))
      with (("{" ++ mid ++ "}") ++ post)
      by (simpl; rewrite append_assoc; reflexivity).
    apply substring_prefix. }
  split; [exact Hexec|].
  unfold Gemini.parse_or_throw. now rewrite Hexec.
Qed.

Lemma json_span_first_to_last_witness :
  Regex.exec false Gemini.json_span
    ("Here you go: " ++ "{" ++ "'a': {'b': 1}} or {}" ++ "}" ++ " (done)")
  = Some {| Regex.matched := "{" ++ "'a': {'b': 1}} or {}" ++ "}";
            Regex.groups := [];
            Regex.index := String.length "Here you go: " |}.
Proof.
  apply (@json_span_first_to_last (fun _ => Throw "SyntaxError") (fun _ => NaN)
           "Here you go: " "'a': {'b': 1}} or {}" " (done)"); reflexivity.
Defined.

(** ** What every parsed result holds *)

Lemma or_default_truthy (a : value) (d : json) :
  truthy (Some d) = true -> truthy (Some (or_default a d)) = true.
Proof.
  intros Hd. unfold or_default. destruct a as [j|]; [|exact Hd].
  destruct (truthy (Some j)) eqn:Hj; [exact Hj | exact Hd].
Qed.

Lemma clamp_range (x : number) :
  Math_max (Num 1) (Math_min (Num 10) x) = NaN /\ x = NaN \/
  exists z, Math_max (Num 1) (Math_min (Num 10) x) = Num z /\ (1 <= z <= 10)%Z.
Proof.
  destruct x as [|n]; [now left|]. right. simpl.
  eexists. split; [reflexivity | lia].
Qed.

Lemma validate_fields (ToNumber_object : json -> number) (parsed : json)
      (r : Gemini.AnalysisResult) :
  Gemini.validate ToNumber_object parsed = Ret r ->
  truthy (Some (Gemini.summary r)) = true /\
  truthy (Some (Gemini.pattern (Gemini.architecture r))) = true /\
  truthy (Some (Gemini.codeQuality (Gemini.insights r))) = true /\
  truthy (Some (Gemini.performance (Gemini.insights r))) = true /\
  (Gemini.complexity (Gemini.insights r) = NaN \/
   exists z, Gemini.complexity (Gemini.insights r) = Num z /\ (1 <= z <= 10)%Z).
Proof.
  unfold Gemini.validate. intros H.
  destruct (get (Some parsed) "summary") as [p1|]; [|discriminate].
  destruct (get (Some parsed) "features") as [p2|]; [|discriminate].
  destruct (get (Some parsed) "architecture") as [p3|]; [|discriminate].
  destruct (get (Some parsed) "insights") as [p4|]; [|discriminate].
  destruct (get (Some parsed) "recommendations") as [p5|]; [|discriminate].
  simpl in H. injection H as <-. cbn [Gemini.summary Gemini.architecture
    Gemini.insights Gemini.pattern Gemini.codeQuality Gemini.performance
    Gemini.complexity].
  repeat split; try (apply or_default_truthy; reflexivity).
  destruct (clamp_range
              (Gemini.ToNumber ToNumber_object
                 (or_default (get_opt p4 "complexity") (JNum 5))))
    as [[H _]|H]; [now left | now right].
Qed.

Lemma parseAnalysisResult_populated
        (JSON_parse : string -> outcome json) (ToNumber_object : json -> number)
        (analysisText : string) :
  let r := Gemini.parseAnalysisResult JSON_parse ToNumber_object analysisText in
  truthy (Some (Gemini.summary r)) = true /\
  truthy (Some (Gemini.pattern (Gemini.architecture r))) = true /\
  truthy (Some (Gemini.codeQuality (Gemini.insights r))) = true /\
  truthy (Some (Gemini.performance (Gemini.insights r))) = true /\
  (Gemini.complexity (Gemini.insights r) = NaN \/
   exists z, Gemini.complexity (Gemini.insights r) = Num z /\ (1 <= z <= 10)%Z).
Proof.
  unfold Gemini.parseAnalysisResult, Gemini.parse_or_throw.
  destruct (Regex.exec false Gemini.json_span analysisText) as [found|].
  - destruct (JSON_parse (Regex.matched found)) as [parsed|e]; simpl.
    + destruct (Gemini.validate ToNumber_object parsed) as [r|e] eqn:Hv.
      * exact (validate_fields _ _ Hv).
      * repeat split. right. exists 5%Z. split; [reflexivity | lia].
    + repeat split. right. exists 5%Z. split; [reflexivity | lia].
  - repeat split. right. exists 5%Z. split; [reflexivity | lia].
Qed.

(** Whatever the response text and whatever [JSON.parse] makes of it, the
    result is fully populated: its summary, pattern, code quality and
    performance are never empty or null, and its complexity is within
    1..10, or NaN. *)
Theorem parsed_result_fully_populated
        (JSON_parse : string -> outcome json) (ToNumber_object : json -> number)
        (analysisText : string) :
  let r := Gemini.parseAnalysisResult JSON_parse ToNumber_object analysisText in
  truthy (Some (Gemini.summary r)) = true /\
  truthy (Some (Gemini.pattern (Gemini.architecture r))) = true /\
  truthy (Some (Gemini.codeQuality (Gemini.insights r))) = true /\
  truthy (Some (Gemini.performance (Gemini.insights r))) = true /\
  (Gemini.complexity (Gemini.insights r) = NaN \/
   exists z, Gemini.complexity (Gemini.insights r) = Num z /\ (1 <= z <= 10)%Z).
Proof. apply parseAnalysisResult_populated. Qed.



(** ** Letter case under the [i] flag *)

Lemma In_all_ascii (a : ascii) : In a all_ascii.
Proof.
  unfold all_ascii. rewrite <- (ascii_nat_embedding a).
  apply in_map, in_seq. pose proof (nat_ascii_bounded a). lia.
Qed.

Lemma for_all_ascii (p : ascii -> bool) :
  forallb p all_ascii = true -> forall a, p a = true.
Proof. intros H a. exact (proj1 (forallb_forall p all_ascii) H a (In_all_ascii a)). Qed.

(** Under the [i] flag a code unit matches a literal that is no capital
    letter when its lower case is the literal. *)
Lemma ci_char (c a : ascii) :
  JsString.is_upper c = false ->
  (if Ascii.eqb (JsString.upper_char a) (JsString.upper_char c) then true else false)
  = Ascii.eqb (JsString.lower_char a) c.
Proof.
  intros Hc.
  assert (H : forallb (fun c0 => forallb (fun a0 =>
                implb (negb (JsString.is_upper c0))
                  (Bool.eqb (Ascii.eqb (JsString.upper_char a0) (JsString.upper_char c0))
                            (Ascii.eqb (JsString.lower_char a0) c0)))
                all_ascii) all_ascii = true) by (vm_compute; reflexivity).
  pose proof (for_all_ascii _ (for_all_ascii _ H c) a) as Hca.
  rewrite Hc in Hca. simpl in Hca. apply Bool.eqb_prop in Hca. rewrite Hca.
  now destruct (Ascii.eqb (JsString.lower_char a) c).
Qed.

Lemma line_terminator_lower (a : ascii) :
  Regex.is_line_terminator (JsString.lower_char a) = Regex.is_line_terminator a.
Proof.
  assert (H : forallb (fun a0 =>
                Bool.eqb (Regex.is_line_terminator (JsString.lower_char a0))
                         (Regex.is_line_terminator a0)) all_ascii = true)
    by (vm_compute; reflexivity).
  apply Bool.eqb_prop. exact (for_all_ascii _ H a).
Qed.

Lemma in_cset_lower (cs : Regex.cset) (a : ascii) :
  cset_lower cs = true ->
  Regex.in_cset true cs a = Regex.in_cset false cs (JsString.lower_char a).
Proof.
  destruct cs as [c|  |  |c]; simpl; intros Hc.
  - apply negb_true_iff in Hc. pose proof (ci_char c a Hc) as H.
    now destruct (Ascii.eqb (JsString.upper_char a) (JsString.upper_char c)).
  - reflexivity.
  - now rewrite line_terminator_lower.
  - apply negb_true_iff in Hc. pose proof (ci_char c a Hc) as H.
    f_equal. now destruct (Ascii.eqb (JsString.upper_char a) (JsString.upper_char c)).
Qed.

Lemma length_toLowerCase (s : string) :
  String.length (JsString.toLowerCase s) = String.length s.
Proof. induction s; simpl; congruence. Qed.

Lemma toLowerCase_split (s : string) :
  forall x1 x2,
    JsString.toLowerCase s = x1 ++ x2 ->
    exists s1 s2,
      s = s1 ++ s2 /\ JsString.toLowerCase s1 = x1 /\ JsString.toLowerCase s2 = x2.
Proof.
  induction s as [|a s IH]; intros x1 x2 H.
  - destruct x1; [|discriminate]. destruct x2; [|discriminate].
    now exists "", "".
  - destruct x1 as [|b x1].
    + exists "", (String a s). repeat split. exact H.
    + simpl in H. injection H as <- H. apply IH in H as (s1 & s2 & -> & <- & <-).
      now exists (String a s1), s2.
Qed.

Lemma toLowerCase_nil (s : string) : JsString.toLowerCase s = "" -> s = "".
Proof. destruct s; [reflexivity | discriminate]. Qed.

(** Under the [i] flag a pattern without capital letters matches what it
    matches, without the flag, in the lower-cased input. *)
Lemma Matches_lower (r : Regex.regex) (n : nat) (w rest : string) :
  regex_lower r = true ->
  Regex.Matches true r n w rest ->
  Regex.Matches false r n (JsString.toLowerCase w) (JsString.toLowerCase rest).
Proof.
  intros Hr Hm. induction Hm; simpl in Hr;
    try (apply andb_true_iff in Hr as [Hr1 Hr2]).
  - simpl. constructor. now rewrite <- in_cset_lower.
  - apply Regex.MStarNil.
  - simpl. apply Regex.MStarCons; [now rewrite <- in_cset_lower | auto].
  - simpl. apply Regex.MPlus; [now rewrite <- in_cset_lower | auto].
  - apply Regex.MOptSome. auto.
  - apply Regex.MOptNone.
  - rewrite toLowerCase_append. constructor.
    + rewrite <- toLowerCase_append. auto.
    + rewrite length_toLowerCase. auto.
  - apply Regex.MAltL. auto.
  - apply Regex.MAltR. auto.
  - constructor. auto.
  - constructor.
  - constructor.
  - constructor.
Qed.

Lemma Matches_upper (r : Regex.regex) (n : nat) (x y : string) :
  Regex.Matches false r n x y ->
  regex_lower r = true ->
  forall w rest,
    JsString.toLowerCase w = x -> JsString.toLowerCase rest = y ->
    Regex.Matches true r n w rest.
Proof.
  induction 1 as [cs n a rest0 Ha|cs n rest0|cs n a x rest0 Ha Hm IH
                 |cs n a x rest0 Ha Hm IH|r n x rest0 Hm IH|r n rest0
                 |r1 r2 n x1 x2 rest0 Hm1 IH1 Hm2 IH2|r1 r2 n x rest0 Hm IH
                 |r1 r2 n x rest0 Hm IH|r n x rest0 Hm IH|rest0|n|n rest0];
    intros Hr w rest Hw Hrest; simpl in Hr;
    try (apply andb_true_iff in Hr as [Hr1 Hr2]).
  - destruct w as [|b [|? ?]]; try discriminate. simpl in Hw. injection Hw as <-.
    constructor. now rewrite in_cset_lower.
  - apply toLowerCase_nil in Hw. subst w. apply Regex.MStarNil.
  - destruct w as [|b w]; [discriminate|]. simpl in Hw. injection Hw as <- Hw.
    apply Regex.MStarCons; [now rewrite in_cset_lower | now apply IH].
  - destruct w as [|b w]; [discriminate|]. simpl in Hw. injection Hw as <- Hw.
    apply Regex.MPlus; [now rewrite in_cset_lower | now apply IH].
  - apply Regex.MOptSome. now apply IH.
  - apply toLowerCase_nil in Hw. subst w. apply Regex.MOptNone.
  - apply toLowerCase_split in Hw as (w1 & w2 & -> & Hw1 & Hw2). constructor.
    + apply IH1; [exact Hr1 | exact Hw1 |]. now rewrite toLowerCase_append, Hw2, Hrest.
    + rewrite <- Hw1, length_toLowerCase in IH2. now apply IH2.
  - apply Regex.MAltL. now apply IH.
  - apply Regex.MAltR. now apply IH.
  - constructor. now apply IH.
  - apply toLowerCase_nil in Hw. subst w. constructor.
  - apply toLowerCase_nil in Hw, Hrest. subst w rest. constructor.
  - apply toLowerCase_nil in Hw. subst w. constructor.
Qed.

Lemma test_lower (r : Regex.regex) (s : string) :
  regex_lower r = true ->
  Regex.test true r s = Regex.test false r (JsString.toLowerCase s).
Proof.
  intros Hr. apply eq_true_iff_eq. rewrite !test_iff. split.
  - intros (pre & w & rest & -> & Hm).
    exists (JsString.toLowerCase pre), (JsString.toLowerCase w),
      (JsString.toLowerCase rest).
    split; [now rewrite !toLowerCase_append|].
    rewrite length_toLowerCase. now apply Matches_lower.
  - intros (x0 & x & y & Hs & Hm).
    apply toLowerCase_split in Hs as (pre & s' & -> & Hpre & Hs').
    apply toLowerCase_split in Hs' as (w & rest & -> & Hw & Hrest).
    exists pre, w, rest. split; [reflexivity|].
    rewrite <- Hpre, length_toLowerCase in Hm.
    now apply (Matches_upper Hm Hr).
Qed.

(** ** Patterns as substring tests *)

Lemma lit_Matches_inv (u : string) :
  u <> "" ->
  forall n x rest, Regex.Matches false (Regex.lit u) n x rest -> x = u.
Proof.
  induction u as [|c u IH]; intros Hne n x rest Hm; [contradiction|].
  destruct u as [|d u].
  - change (Regex.lit (String c "")) with (Regex.RSet (Regex.CChar c)) in Hm.
    inversion Hm as [? ? a ? Ha| | | | | | | | | | | |]; subst.
    apply in_cset_char_cs in Ha. now subst.
  - change (Regex.lit (String c (String d u)))
      with (Regex.RSeq (Regex.RSet (Regex.CChar c)) (Regex.lit (String d u))) in Hm.
    inversion Hm as [| | | | | |? ? ? w1 w2 ? H1 H2| | | | | |]; subst.
    inversion H1 as [? ? a ? Ha| | | | | | | | | | | |]; subst.
    apply in_cset_char_cs in Ha. subst a.
    apply IH in H2; [|discriminate]. now subst.
Qed.

Lemma test_lit (u s : string) :
  u <> "" -> Regex.test false (Regex.lit u) s = JsString.includes s u.
Proof.
  intros Hne. apply eq_true_iff_eq. rewrite test_iff, includes_iff. split.
  - intros (pre & w & rest & -> & Hm). apply (lit_Matches_inv Hne) in Hm.
    subst w. now exists pre, rest.
  - intros (a & b & ->). exists a, u, b. split; [reflexivity|].
    now apply lit_matches.
Qed.

Lemma dir_word_unfold (w : string) :
  GitHub.dir_word w
  = Regex.RSeq (Regex.lit (String "/" w))
      (Regex.RSeq (Regex.ROpt (Regex.RSet (Regex.CChar "s")))
                  (Regex.RSet (Regex.CChar "/"))).
Proof. reflexivity. Qed.

Lemma dir_word_Matches (w : string) (n : nat) (x rest : string) :
  Regex.Matches false (GitHub.dir_word w) n x rest <->
  x = "/" ++ w ++ "/" \/ x = "/" ++ w ++ "s/".
Proof.
  rewrite dir_word_unfold. split.
  - intros Hm. remember (Regex.lit (String "/" w)) as L eqn:HL.
    inversion Hm as [| | | | | |? ? ? w1 w23 ? H1 H23| | | | | |]; subst.
    apply lit_Matches_inv in H1; [|discriminate]. subst w1.
    inversion H23 as [| | | | | |? ? ? w2 w3 ? H2 H3| | | | | |]; subst.
    inversion H3 as [? ? b ? Hb| | | | | | | | | | | |]; subst.
    apply in_cset_char_cs in Hb. subst b.
    inversion H2 as [| | | |? ? ? ? Hs|? ? ?| | | | | | |]; subst.
    + inversion Hs as [? ? a ? Ha| | | | | | | | | | | |]; subst.
      apply in_cset_char_cs in Ha. subst a. right. reflexivity.
    + left. reflexivity.
  - intros [-> | ->].
    + change ("/" ++ w ++ "/") with (String "/" w ++ "" ++ "/").
      constructor; [apply lit_matches; discriminate|].
      constructor; [apply Regex.MOptNone | constructor; reflexivity].
    + change ("/" ++ w ++ "s/") with (String "/" w ++ "s" ++ "/").
      constructor; [apply lit_matches; discriminate|].
      constructor; [apply Regex.MOptSome; constructor; reflexivity
                   | constructor; reflexivity].
Qed.

Lemma test_dir_word (w s : string) :
  Regex.test false (GitHub.dir_word w) s
  = JsString.includes s ("/" ++ w ++ "/") || JsString.includes s ("/" ++ w ++ "s/").
Proof.
  apply eq_true_iff_eq. rewrite test_iff, orb_true_iff, !includes_iff. split.
  - intros (pre & x & rest & -> & Hm). apply dir_word_Matches in Hm as [-> | ->];
      [left | right]; now exists pre, rest.
  - intros [(a & b & ->) | (a & b & ->)].
    + exists a, ("/" ++ w ++ "/"), b. split; [reflexivity|].
      apply dir_word_Matches. now left.
    + exists a, ("/" ++ w ++ "s/"), b. split; [reflexivity|].
      apply dir_word_Matches. now right.
Qed.

(** A file is a component exactly when its name ends with one of the four
    extensions and its path, in lower case, holds one of the six
    directory segments. *)
Theorem isComponent_by_segments (fileName filePath : string) :
  GitHub.isComponent fileName filePath
  = existsb (fun ext => JsString.endsWith fileName ext) GitHub.componentExtensions
    && existsb (fun segment =>
                  JsString.includes (JsString.toLowerCase filePath) segment)
               componentSegments.
Proof.
  unfold GitHub.isComponent. f_equal.
  unfold GitHub.componentPatterns, componentSegments. cbn [existsb].
  rewrite !test_lower by reflexivity.
  rewrite !test_dir_word, !test_lit by discriminate.
  cbn [append].
  repeat match goal with
         | |- context [JsString.includes ?s ?u] =>
             generalize (JsString.includes s u); intro
         end.
  repeat match goal with b : bool |- _ => destruct b end; reflexivity.
Qed.

(** *** What each construct matches *)

Lemma Matches_seq_iff (ci : bool) (r1 r2 : Regex.regex) (n : nat) (x rest : string) :
  Regex.Matches ci (Regex.RSeq r1 r2) n x rest <->
  exists w1 w2,
    x = w1 ++ w2 /\ Regex.Matches ci r1 n w1 (w2 ++ rest) /\
    Regex.Matches ci r2 (n + String.length w1) w2 rest.
Proof.
  split.
  - intros H. inversion H; subst. now exists w1, w2.
  - intros (w1 & w2 & -> & H1 & H2). now constructor.
Qed.

Lemma Matches_char_iff (c : ascii) (n : nat) (x rest : string) :
  Regex.Matches false (Regex.RSet (Regex.CChar c)) n x rest <-> x = String c "".
Proof.
  split.
  - intros H. inversion H as [? ? a ? Ha| | | | | | | | | | | |]; subst.
    apply in_cset_char_cs in Ha. now subst.
  - intros ->. constructor. apply in_cset_self.
Qed.

Lemma Matches_opt_iff (ci : bool) (r : Regex.regex) (n : nat) (x rest : string) :
  Regex.Matches ci (Regex.ROpt r) n x rest <->
  x = "" \/ Regex.Matches ci r n x rest.
Proof.
  split.
  - intros H. inversion H; subst; auto.
  - intros [-> | H]; [apply Regex.MOptNone | now apply Regex.MOptSome].
Qed.

Lemma Matches_alt_iff (ci : bool) (r1 r2 : Regex.regex) (n : nat) (x rest : string) :
  Regex.Matches ci (Regex.RAlt r1 r2) n x rest <->
  Regex.Matches ci r1 n x rest \/ Regex.Matches ci r2 n x rest.
Proof.
  split.
  - intros H. inversion H; subst; auto.
  - intros [H | H]; [now apply Regex.MAltL | now apply Regex.MAltR].
Qed.

Lemma Matches_group_iff (ci : bool) (r : Regex.regex) (n : nat) (x rest : string) :
  Regex.Matches ci (Regex.RGroup r) n x rest <-> Regex.Matches ci r n x rest.
Proof.
  split.
  - intros H. now inversion H; subst.
  - intros H. now constructor.
Qed.

Lemma Matches_bol_iff (ci : bool) (n : nat) (x rest : string) :
  Regex.Matches ci Regex.RBol n x rest <-> x = "" /\ n = 0.
Proof.
  split.
  - intros H. now inversion H; subst.
  - intros [-> ->]. constructor.
Qed.

Lemma Matches_eol_iff (ci : bool) (n : nat) (x rest : string) :
  Regex.Matches ci Regex.REol n x rest <-> x = "" /\ rest = "".
Proof.
  split.
  - intros H. now inversion H; subst.
  - intros [-> ->]. constructor.
Qed.

Lemma lit_Matches_iff (u : string) (n : nat) (x rest : string) :
  u <> "" -> (Regex.Matches false (Regex.lit u) n x rest <-> x = u).
Proof.
  intros Hne. split.
  - now apply lit_Matches_inv.
  - intros ->. now apply lit_matches.
Qed.

Lemma length_zero (s : string) : String.length s = 0 -> s = "".
Proof. destruct s; [reflexivity | discriminate]. Qed.

(** [/^pages?\//], without the flag: the input starts with page/ or pages/. *)
Lemma test_page_prefix (s : string) :
  Regex.test false
    (GitHub.seqs [Regex.RBol; Regex.lit "page";
                  Regex.ROpt (Regex.RSet (Regex.CChar "s"));
                  Regex.RSet (Regex.CChar "/")]) s
  = JsString.startsWith s "page/" || JsString.startsWith s "pages/".
Proof.
  unfold JsString.startsWith.
  change (GitHub.seqs [Regex.RBol; Regex.lit "page";
                       Regex.ROpt (Regex.RSet (Regex.CChar "s"));
                       Regex.RSet (Regex.CChar "/")])
    with (Regex.RSeq Regex.RBol
            (Regex.RSeq (Regex.lit "page")
               (Regex.RSeq (Regex.ROpt (Regex.RSet (Regex.CChar "s")))
                           (Regex.RSet (Regex.CChar "/"))))).
  apply eq_true_iff_eq. rewrite test_iff, orb_true_iff, !prefix_iff. split.
  - intros (pre & x & rest & -> & Hm).
    apply Matches_seq_iff in Hm as (w0 & w1 & -> & H0 & H1).
    apply Matches_bol_iff in H0 as [-> Hn]. apply length_zero in Hn. subst pre.
    apply Matches_seq_iff in H1 as (w2 & w34 & -> & H2 & H34).
    apply lit_Matches_iff in H2; [|discriminate]. subst w2.
    apply Matches_seq_iff in H34 as (w3 & w4 & -> & H3 & H4).
    apply Matches_char_iff in H4. subst w4.
    apply Matches_opt_iff in H3 as [-> | H3].
    + left. now exists rest.
    + apply Matches_char_iff in H3. subst w3. right. now exists rest.
  - intros [[r ->] | [r ->]].
    + exists "", "page/", r. split; [reflexivity|].
      apply Matches_seq_iff. exists "", "page/". split; [reflexivity|].
      split; [constructor|].
      apply Matches_seq_iff. exists "page", "/". split; [reflexivity|].
      split; [apply lit_matches; discriminate|].
      apply Matches_seq_iff. exists "", "/". split; [reflexivity|].
      split; [apply Regex.MOptNone | now apply Matches_char_iff].
    + exists "", "pages/", r. split; [reflexivity|].
      apply Matches_seq_iff. exists "", "pages/". split; [reflexivity|].
      split; [constructor|].
      apply Matches_seq_iff. exists "page", "s/". split; [reflexivity|].
      split; [apply lit_matches; discriminate|].
      apply Matches_seq_iff. exists "s", "/". split; [reflexivity|].
      split; [apply Regex.MOptSome; now apply Matches_char_iff
             | now apply Matches_char_iff].
Qed.

Lemma star_dot_Matches (n : nat) (x rest : string) :
  Regex.Matches false (Regex.RStar Regex.CDot) n x rest <->
  all_chars (fun a => negb (Regex.is_line_terminator a)) x = true.
Proof.
  split.
  - remember (Regex.RStar Regex.CDot) as r eqn:Hr. intros Hm.
    induction Hm; try discriminate; injection Hr as ->.
    + reflexivity.
    + simpl. simpl in H. rewrite H. simpl. now apply IHHm.
  - revert n. induction x as [|a x IH]; intros n Hx.
    + apply Regex.MStarNil.
    + simpl in Hx. apply andb_true_iff in Hx as [Ha Hx].
      apply Regex.MStarCons; [exact Ha | now apply IH].
Qed.

Lemma app_extension_Matches (n : nat) (x rest : string) :
  Regex.Matches false
    (Regex.RGroup
       (Regex.RAlt (Regex.lit "tsx")
          (Regex.RAlt (Regex.lit "jsx")
             (Regex.RAlt (Regex.lit "js") (Regex.lit "ts"))))) n x rest <->
  In x appExtensions.
Proof.
  rewrite Matches_group_iff, !Matches_alt_iff.
  rewrite !lit_Matches_iff by discriminate.
  unfold appExtensions. simpl. intuition congruence.
Qed.

(** [/app\/.*\.(tsx|jsx|js|ts)$/], without the flag. *)
Lemma test_app_route (s : string) :
  Regex.test false
    (GitHub.seqs [Regex.lit "app/"; Regex.RStar Regex.CDot;
                  Regex.RSet (Regex.CChar ".");
                  Regex.RGroup
                    (Regex.RAlt (Regex.lit "tsx")
                       (Regex.RAlt (Regex.lit "jsx")
                          (Regex.RAlt (Regex.lit "js") (Regex.lit "ts"))));
                  Regex.REol]) s = true <->
  app_route_path s.
Proof.
  change (GitHub.seqs [Regex.lit "app/"; Regex.RStar Regex.CDot;
                       Regex.RSet (Regex.CChar ".");
                       Regex.RGroup
                         (Regex.RAlt (Regex.lit "tsx")
                            (Regex.RAlt (Regex.lit "jsx")
                               (Regex.RAlt (Regex.lit "js") (Regex.lit "ts"))));
                       Regex.REol])
    with (Regex.RSeq (Regex.lit "app/")
            (Regex.RSeq (Regex.RStar Regex.CDot)
               (Regex.RSeq (Regex.RSet (Regex.CChar "."))
                  (Regex.RSeq
                     (Regex.RGroup
                        (Regex.RAlt (Regex.lit "tsx")
                           (Regex.RAlt (Regex.lit "jsx")
                              (Regex.RAlt (Regex.lit "js") (Regex.lit "ts")))))
                     Regex.REol)))).
  rewrite test_iff. unfold app_route_path. split.
  - intros (pre & x & rest & -> & Hm).
    apply Matches_seq_iff in Hm as (w1 & w2345 & -> & H1 & H2345).
    apply lit_Matches_iff in H1; [|discriminate]. subst w1.
    apply Matches_seq_iff in H2345 as (mid & w345 & -> & H2 & H345).
    apply star_dot_Matches in H2.
    apply Matches_seq_iff in H345 as (w3 & w45 & -> & H3 & H45).
    apply Matches_char_iff in H3. subst w3.
    apply Matches_seq_iff in H45 as (ext & w5 & -> & H4 & H5).
    apply app_extension_Matches in H4.
    apply Matches_eol_iff in H5 as [-> ->].
    exists pre, mid, ext. split; [|now split].
    now rewrite !append_nil_r.
  - intros (pre & mid & ext & -> & Hext & Hmid).
    exists pre, ("app/" ++ mid ++ "." ++ ext), "". split; [now rewrite append_nil_r|].
    apply Matches_seq_iff. exists "app/", (mid ++ "." ++ ext).
    split; [reflexivity|]. split; [apply lit_matches; discriminate|].
    apply Matches_seq_iff. exists mid, ("." ++ ext).
    split; [reflexivity|]. split; [now apply star_dot_Matches|].
    apply Matches_seq_iff. exists ".", ext.
    split; [reflexivity|]. split; [now apply Matches_char_iff|].
    apply Matches_seq_iff. exists ext, "".
    split; [now rewrite append_nil_r|].
    split; [now apply app_extension_Matches | now apply Matches_eol_iff].
Qed.

(** A file is a page exactly when its path, in lower case, holds one of
    the eight directory segments, starts with page/ or pages/, or follows
    the application-router convention, or when its name, in lower case,
    holds "page" or "route". *)
Theorem isPage_by_paths (fileName filePath : string) :
  GitHub.isPage fileName filePath = true <->
  existsb (fun segment => JsString.includes (JsString.toLowerCase filePath) segment)
          pageSegments = true \/
  JsString.startsWith (JsString.toLowerCase filePath) "page/" = true \/
  JsString.startsWith (JsString.toLowerCase filePath) "pages/" = true \/
  app_route_path (JsString.toLowerCase filePath) \/
  JsString.includes (JsString.toLowerCase fileName) "page" = true \/
  JsString.includes (JsString.toLowerCase fileName) "route" = true.
Proof.
  unfold GitHub.isPage, GitHub.pagePatterns, pageSegments. cbn [existsb].
  rewrite !test_lower by reflexivity.
  rewrite !test_dir_word, test_page_prefix.
  rewrite <- test_app_route. cbn [append].
  rewrite !orb_false_r, !orb_true_iff. tauto.
Qed.

(** ** Technology detection *)

Lemma set_add_spec (x : string) (set : list string) :
  (In x set /\ GitHub.set_add x set = set) \/
  (~ In x set /\ GitHub.set_add x set = (set ++ [x])%list).
Proof.
  unfold GitHub.set_add. destruct (existsb (String.eqb x) set) eqn:E.
  - left. split; [|reflexivity].
    apply existsb_exists in E as (y & Hy & Heq). apply String.eqb_eq in Heq.
    now subst.
  - right. split; [|reflexivity]. intros Hin.
    assert (existsb (String.eqb x) set = true)
      by (apply existsb_exists; exists x; split; [exact Hin | apply String.eqb_refl]).
    congruence.
Qed.

Lemma set_add_In (x t : string) (set : list string) :
  In t (GitHub.set_add x set) <-> t = x \/ In t set.
Proof.
  destruct (set_add_spec x set) as [[Hin ->] | [Hnin ->]].
  - split; [auto | intros [-> | H]; assumption].
  - rewrite in_app_iff. simpl. intuition congruence.
Qed.

Lemma set_add_NoDup (x : string) (set : list string) :
  NoDup set -> NoDup (GitHub.set_add x set).
Proof.
  intros Hnd. destruct (set_add_spec x set) as [[Hin ->] | [Hnin ->]]; [exact Hnd|].
  apply NoDup_app; [exact Hnd | repeat constructor; intros [] |].
  intros a Ha [<- | []]. contradiction.
Qed.

Lemma set_add_extends (x : string) (set : list string) :
  exists more, GitHub.set_add x set = (set ++ more)%list.
Proof.
  destruct (set_add_spec x set) as [[Hin ->] | [Hnin ->]].
  - exists []. now rewrite app_nil_r.
  - now exists [x].
Qed.

Lemma add_markers_In (markers : list (string * string)) (text t : string) :
  forall set,
    In t (GitHub.add_markers markers text set) <->
    In t set \/
    exists marker, In (marker, t) markers /\ JsString.includes text marker = true.
Proof.
  unfold GitHub.add_markers.
  induction markers as [|[m tag] markers IH]; intros set; simpl.
  - split; [auto | intros [H | (marker & [] & _)]; exact H].
  - rewrite IH. destruct (JsString.includes text m) eqn:Hm.
    + rewrite set_add_In. split.
      * intros [[-> | H] | (marker & Hin & Hinc)].
        -- right. exists m. auto.
        -- now left.
        -- right. exists marker. auto.
      * intros [H | (marker & [Heq | Hin] & Hinc)].
        -- left. now right.
        -- injection Heq as <- <-. left. now left.
        -- right. now exists marker.
    + split.
      * intros [H | (marker & Hin & Hinc)]; [now left|].
        right. exists marker. auto.
      * intros [H | (marker & [Heq | Hin] & Hinc)]; [now left | |].
        -- injection Heq as <- <-. congruence.
        -- right. now exists marker.
Qed.

Lemma add_markers_NoDup (markers : list (string * string)) (text : string) :
  forall set, NoDup set -> NoDup (GitHub.add_markers markers text set).
Proof.
  unfold GitHub.add_markers.
  induction markers as [|[m tag] markers IH]; intros set Hnd; simpl; [exact Hnd|].
  apply IH. destruct (JsString.includes text m); [now apply set_add_NoDup | exact Hnd].
Qed.

Lemma add_markers_extends (markers : list (string * string)) (text : string) :
  forall set, exists more, GitHub.add_markers markers text set = (set ++ more)%list.
Proof.
  unfold GitHub.add_markers.
  induction markers as [|[m tag] markers IH]; intros set; simpl.
  - exists []. now rewrite app_nil_r.
  - destruct (JsString.includes text m); [|apply IH].
    destruct (set_add_extends tag set) as [more1 ->].
    destruct (IH (set ++ more1)%list) as [more2 ->].
    exists (more1 ++ more2)%list. now rewrite app_assoc.
Qed.

(** The tags after a file: those before it, and those the file gives. *)
Lemma tech_of_file_In (name path t : string) (set : list string) :
  In t (GitHub.tech_of_file name path set) <->
  In t set \/ file_gives_tag name path t.
Proof.
  unfold GitHub.tech_of_file, file_gives_tag, fileNameRules.
  rewrite add_markers_In.
  destruct (JsString.includes (JsString.toLowerCase path) "graphql") eqn:Hg.
  - rewrite set_add_In, add_markers_In. split.
    + intros [[-> | [H | (m & Hin & Hinc)]] | (m & Hin & Hinc)].
      * right. right. auto.
      * now left.
      * right. left. exists m. split; [apply in_or_app; now left | exact Hinc].
      * right. left. exists m. split; [apply in_or_app; now right | exact Hinc].
    + intros [H | [(m & Hin & Hinc) | [-> _]]].
      * left. right. now left.
      * apply in_app_or in Hin as [Hin | Hin].
        -- left. right. right. now exists m.
        -- right. now exists m.
      * left. now left.
  - rewrite add_markers_In. split.
    + intros [[H | (m & Hin & Hinc)] | (m & Hin & Hinc)].
      * now left.
      * right. left. exists m. split; [apply in_or_app; now left | exact Hinc].
      * right. left. exists m. split; [apply in_or_app; now right | exact Hinc].
    + intros [H | [(m & Hin & Hinc) | [_ Hc]]].
      * left. now left.
      * apply in_app_or in Hin as [Hin | Hin].
        -- left. right. now exists m.
        -- right. now exists m.
      * discriminate.
Qed.

Lemma tech_of_file_NoDup (name path : string) (set : list string) :
  NoDup set -> NoDup (GitHub.tech_of_file name path set).
Proof.
  intros Hnd. unfold GitHub.tech_of_file.
  apply add_markers_NoDup.
  destruct (JsString.includes _ "graphql"); [apply set_add_NoDup|];
    now apply add_markers_NoDup.
Qed.

Lemma tech_of_file_extends (name path : string) (set : list string) :
  exists more, GitHub.tech_of_file name path set = (set ++ more)%list.
Proof.
  unfold GitHub.tech_of_file.
  destruct (add_markers_extends GitHub.fileNameMarkers (JsString.toLowerCase name) set)
    as [more1 ->].
  destruct (JsString.includes _ "graphql").
  - destruct (set_add_extends "GraphQL" (set ++ more1)%list) as [more2 ->].
    destruct (add_markers_extends GitHub.fileNameMarkersAfterGraphql
                (JsString.toLowerCase name) ((set ++ more1) ++ more2)%list)
      as [more3 ->].
    exists (more1 ++ more2 ++ more3)%list. now rewrite !app_assoc.
  - destruct (add_markers_extends GitHub.fileNameMarkersAfterGraphql
                (JsString.toLowerCase name) (set ++ more1)%list) as [more3 ->].
    exists (more1 ++ more3)%list. now rewrite !app_assoc.
Qed.

Lemma analyzeTechFile_dir (name path : string) (children : list GitHub.node)
      (set : list string) :
  GitHub.analyzeTechFile (GitHub.DirNode name path children) set
  = GitHub.analyzeTech children set.
Proof. reflexivity. Qed.

Lemma tech_step_compose (a b : list GitHub.node) (set mid result : list string) :
  tech_step a set mid -> tech_step b mid result -> tech_step (a ++ b) set result.
Proof.
  intros (Hnd1 & [more1 Hm1] & Hin1) (Hnd2 & [more2 Hm2] & Hin2). repeat split.
  - auto.
  - exists (more1 ++ more2)%list. now rewrite Hm2, Hm1, app_assoc.
  - intros H. apply Hin2 in H as [H | (name & path & size & Hn & Hg)].
    + apply Hin1 in H as [H | (name & path & size & Hn & Hg)]; [now left|].
      right. exists name, path, size. split; [apply in_or_app; now left | exact Hg].
    + right. exists name, path, size. split; [apply in_or_app; now right | exact Hg].
  - intros [H | (name & path & size & Hn & Hg)].
    + apply Hin2. left. apply Hin1. now left.
    + apply in_app_or in Hn as [Hn | Hn].
      * apply Hin2. left. apply Hin1. right. now exists name, path, size.
      * apply Hin2. right. now exists name, path, size.
Qed.

Lemma tech_step_nil (set : list string) : tech_step [] set set.
Proof.
  repeat split; auto.
  - exists []. now rewrite app_nil_r.
  - intros [H | (name & path & size & [] & _)]. exact H.
Qed.

Lemma analyzeTech_Forall (files : list GitHub.node) :
  Forall (fun n => forall set,
              tech_step (GitHub.nodes_of n) set (GitHub.analyzeTechFile n set)) files ->
  forall set, tech_step (GitHub.all_nodes files) set (GitHub.analyzeTech files set).
Proof.
  induction 1 as [|n files Hn _ IH]; intros set.
  - apply tech_step_nil.
  - change (GitHub.all_nodes (n :: files))
      with (GitHub.nodes_of n ++ GitHub.all_nodes files)%list.
    simpl. eapply tech_step_compose; [apply Hn | apply IH].
Qed.

Lemma analyzeTechFile_step (n : GitHub.node) :
  forall set, tech_step (GitHub.nodes_of n) set (GitHub.analyzeTechFile n set).
Proof.
  induction n as [name path size|name path children IH] using node_forest_ind;
    intros set.
  - simpl. repeat split.
    + apply tech_of_file_NoDup.
    + apply tech_of_file_extends.
    + intros H. apply tech_of_file_In in H as [H | H]; [now left|].
      right. exists name, path, size. split; [now left | exact H].
    + intros [H | (name' & path' & size' & [Heq | []] & Hg)];
        apply tech_of_file_In; [now left|].
      injection Heq as <- <- _. now right.
  - rewrite analyzeTechFile_dir.
    destruct (analyzeTech_Forall IH set) as (Hnd & Hext & Hin).
    repeat split; [exact Hnd | exact Hext | |].
    + intros H. apply Hin in H as [H | (name' & path' & size' & Hn & Hg)];
        [now left|].
      right. exists name', path', size'. split; [|exact Hg]. simpl. now right.
    + intros [H | (name' & path' & size' & [Heq | Hn] & Hg)];
        [apply Hin; now left | discriminate |].
      apply Hin. right. now exists name', path', size'.
Qed.

Lemma analyzeTech_step (files : list GitHub.node) (set : list string) :
  tech_step (GitHub.all_nodes files) set (GitHub.analyzeTech files set).
Proof.
  apply analyzeTech_Forall, Forall_forall. intros n _. apply analyzeTechFile_step.
Qed.

Lemma seed_languages (languages : list string) :
  forall set,
    (NoDup set ->
     NoDup (fold_left (fun acc lang => GitHub.set_add lang acc) languages set)) /\
    (forall t,
        In t (fold_left (fun acc lang => GitHub.set_add lang acc) languages set)
        <-> In t set \/ In t languages).
Proof.
  induction languages as [|l languages IH]; intros set; simpl.
  - split; [auto | intros t; tauto].
  - destruct (IH (GitHub.set_add l set)) as [Hnd Hin]. split.
    + intros H. apply Hnd. now apply set_add_NoDup.
    + intros t. rewrite Hin, set_add_In. intuition congruence.
Qed.

Lemma detectTechnologies_facts (fileStructure : list GitHub.node)
      (languages : list string) :
  NoDup (GitHub.detectTechnologies fileStructure languages) /\
  (exists more,
      GitHub.detectTechnologies fileStructure languages
      = (GitHub.detectTechnologies [] languages ++ more)%list) /\
  (forall tag,
      In tag (GitHub.detectTechnologies fileStructure languages) <->
      In tag languages \/
      exists name path size,
        In (GitHub.FileNode name path size) (GitHub.all_nodes fileStructure) /\
        file_gives_tag name path tag).
Proof.
  unfold GitHub.detectTechnologies.
  set (seed := fold_left (fun acc lang => GitHub.set_add lang acc) languages []).
  destruct (seed_languages languages []) as [Hnd Hin]. fold seed in Hnd, Hin.
  destruct (analyzeTech_step fileStructure seed) as (Hnd' & Hext & Hin').
  repeat split.
  - apply Hnd', Hnd. constructor.
  - exact Hext.
  - intros H. apply Hin' in H as [H | H]; [|now right].
    apply Hin in H as [[] | H]. now left.
  - intros [H | H]; apply Hin'; [|now right].
    left. apply Hin. now right.
Qed.

(** The technologies are a set in insertion order: no tag occurs twice,
    the declared languages come first, and a tag is detected exactly when
    it is a declared language or some file of the tree, at any depth,
    gives it. *)
Theorem detectTechnologies_tags (fileStructure : list GitHub.node)
        (languages : list string) :
  NoDup (GitHub.detectTechnologies fileStructure languages) /\
  (exists more,
      GitHub.detectTechnologies fileStructure languages
      = (GitHub.detectTechnologies [] languages ++ more)%list) /\
  (forall tag,
      In tag (GitHub.detectTechnologies fileStructure languages) <->
      In tag languages \/
      exists name path size,
        In (GitHub.FileNode name path size) (GitHub.all_nodes fileStructure) /\
        file_gives_tag name path tag).
Proof. apply detectTechnologies_facts. Qed.

Lemma docker_compose_marker (marker : string) :
  In (marker, "Docker Compose") fileNameRules -> marker = "docker-compose".
Proof.
  unfold fileNameRules, GitHub.fileNameMarkers, GitHub.fileNameMarkersAfterGraphql.
  simpl. intros H.
  repeat (destruct H as [H | H];
          [first [discriminate H | now injection H as <-]|]).
  contradiction.
Qed.

(** Docker Compose is never detected without Docker: a name that holds
    "docker-compose" holds "docker". *)
Theorem docker_compose_brings_docker (fileStructure : list GitHub.node)
        (languages : list string) :
  ~ In "Docker Compose" languages ->
  In "Docker Compose" (GitHub.detectTechnologies fileStructure languages) ->
  In "Docker" (GitHub.detectTechnologies fileStructure languages).
Proof.
  intros Hlang Hdc.
  destruct (detectTechnologies_facts fileStructure languages) as (_ & _ & Hin).
  apply Hin in Hdc as [Hdc | (name & path & size & Hn & Hg)]; [contradiction|].
  apply Hin. right. exists name, path, size. split; [exact Hn|].
  destruct Hg as [(marker & Hm & Hinc) | [Heq _]]; [|discriminate].
  apply docker_compose_marker in Hm. subst marker.
  left. exists "docker". split.
  - unfold fileNameRules, GitHub.fileNameMarkers. simpl. tauto.
  - apply includes_iff in Hinc as (a & b & Hs). apply includes_iff.
    exists a, ("-compose" ++ b). rewrite Hs. reflexivity.
Qed.

Lemma docker_compose_brings_docker_witness :
  In "Docker"
     (GitHub.detectTechnologies
        [GitHub.DirNode "deploy" "deploy"
           [GitHub.FileNode "Docker-Compose.yml" "deploy/Docker-Compose.yml" 300]]
        ["TypeScript"]).
Proof.
  apply (@docker_compose_brings_docker
           [GitHub.DirNode "deploy" "deploy"
              [GitHub.FileNode "Docker-Compose.yml" "deploy/Docker-Compose.yml" 300]]
           ["TypeScript"]).
  - intros [H | []]. discriminate H.
  - vm_compute. tauto.
Defined.

Lemma lower_char_idem (a : ascii) :
  JsString.lower_char (JsString.lower_char a) = JsString.lower_char a.
Proof.
  assert (H : forallb (fun a0 =>
                Ascii.eqb (JsString.lower_char (JsString.lower_char a0))
                          (JsString.lower_char a0)) all_ascii = true)
    by (vm_compute; reflexivity).
  apply Ascii.eqb_eq. exact (for_all_ascii _ H a).
Qed.

Lemma toLowerCase_idem (s : string) :
  JsString.toLowerCase (JsString.toLowerCase s) = JsString.toLowerCase s.
Proof. induction s as [|a s IH]; simpl; [reflexivity|]. now rewrite lower_char_idem, IH. Qed.

Lemma analyzeTech_rename (f g : string -> string) (files : list GitHub.node) :
  Forall (fun n => forall set,
              GitHub.analyzeTechFile (rename f g n) set
              = GitHub.analyzeTechFile n set) files ->
  forall set,
    GitHub.analyzeTech (map (rename f g) files) set = GitHub.analyzeTech files set.
Proof.
  induction 1 as [|n files Hn _ IH]; intros set; simpl; [reflexivity|].
  now rewrite Hn, IH.
Qed.

(** Detection reads names and paths in lower case only: rewriting them in
    a way that keeps their lower case keeps the technologies. *)
Theorem detectTechnologies_ignores_case (f g : string -> string)
        (fileStructure : list GitHub.node) (languages : list string) :
  (forall s, JsString.toLowerCase (f s) = JsString.toLowerCase s) ->
  (forall s, JsString.toLowerCase (g s) = JsString.toLowerCase s) ->
  GitHub.detectTechnologies (map (rename f g) fileStructure) languages
  = GitHub.detectTechnologies fileStructure languages.
Proof.
  intros Hf Hg. unfold GitHub.detectTechnologies.
  apply analyzeTech_rename, Forall_forall. intros n _.
  induction n as [name path size|name path children IH] using node_forest_ind;
    intros set.
  - simpl. unfold GitHub.tech_of_file. now rewrite Hf, Hg.
  - change (rename f g (GitHub.DirNode name path children))
      with (GitHub.DirNode (f name) (g path) (map (rename f g) children)).
    rewrite !analyzeTechFile_dir. now apply analyzeTech_rename.
Qed.

Lemma detectTechnologies_ignores_case_witness :
  GitHub.detectTechnologies
    (map (rename JsString.toLowerCase JsString.toLowerCase)
         [GitHub.FileNode "Dockerfile" "API/GraphQL/Dockerfile" 10])
    ["Go"]
  = GitHub.detectTechnologies
      [GitHub.FileNode "Dockerfile" "API/GraphQL/Dockerfile" 10] ["Go"].
Proof.
  apply (@detectTechnologies_ignores_case JsString.toLowerCase JsString.toLowerCase
           [GitHub.FileNode "Dockerfile" "API/GraphQL/Dockerfile" 10] ["Go"]);
    apply toLowerCase_idem.
Defined.

(** ** More on the tree walker *)

Section WalkerMore.

Variable World : Type.
Variable fetch : string -> World -> GitHub.response * World.
Variables owner repo : string.

(** A call at a depth of at most 3 sends its request. *)
Lemma walk_S_fetches (levels : nat) (path : string) (depth : Z)
      (st : GitHub.state World) :
  (depth <= 3)%Z ->
  exists contents added st',
    GitHub.emitted (fun p => GitHub.walk fetch levels owner repo p (depth + 1)%Z)
                   contents
                   (snd (GitHub.do_fetch fetch (GitHub.contents_url owner repo path) st))
                   added st' /\
    (fst (GitHub.do_fetch fetch (GitHub.contents_url owner repo path) st)
     = GitHub.Response true (Ret (GitHub.Entries contents)) \/ contents = []) /\
    GitHub.walk fetch (S levels) owner repo path depth st = (added, st').
Proof.
  intros Hd. simpl. destruct (Z.gtb_spec depth 3); [lia|].
  unfold GitHub.bind.
  destruct (GitHub.do_fetch fetch (GitHub.contents_url owner repo path) st)
    as [r st1] eqn:Hf. simpl.
  assert (Hnone : exists contents added st',
             GitHub.emitted
               (fun p => GitHub.walk fetch levels owner repo p (depth + 1)%Z)
               contents st1 added st' /\
             (r = GitHub.Response true (Ret (GitHub.Entries contents))
              \/ contents = []) /\
             (@nil GitHub.node, st1) = (added, st'))
    by (exists [], [], st1; split; [constructor | split; [now right | reflexivity]]).
  destruct r as [message|ok json]; [exact Hnone|].
  destruct ok; simpl; [|exact Hnone].
  destruct json as [[contents|j]|message]; try exact Hnone.
  destruct (walk_items_emitted
              (fun p => GitHub.walk fetch levels owner repo p (depth + 1)%Z)
              contents [] st1) as (added & st' & Heq & Hem).
  exists contents, added, st'. split; [exact Hem|]. split; [now left | exact Heq].
Qed.

(** The nodes added are the kept entries, in the order of the listing. *)
Lemma emitted_kept (walk : string -> GitHub.M World (list GitHub.node))
      contents st added st' :
  GitHub.emitted walk contents st added st' ->
  map (fun n => (node_name n, node_path n, is_dir n)) added
  = map (fun item => (GitHub.item_name item, GitHub.item_path item,
                      negb (String.eqb (GitHub.item_type item) "file")))
        (filter kept contents).
Proof.
  induction 1 as [st|item rest st added st' Hf _ IH
                 |item rest st subFiles st1 added st' Hd Hex Hw _ IH
                 |item rest st added st' Hf Hd _ IH]; cbn [filter].
  - reflexivity.
  - assert (Hk : kept item = true) by (unfold kept; now rewrite Hf).
    rewrite Hk. cbn [map node_name node_path is_dir]. rewrite IH.
    now rewrite Hf.
  - assert (Hk : kept item = true) by (unfold kept; now rewrite Hd, Hex).
    rewrite Hk. cbn [map node_name node_path is_dir]. rewrite IH.
    now rewrite Hd.
  - assert (Hk : kept item = false).
    { unfold kept. apply String.eqb_neq in Hf. rewrite Hf. simpl.
      destruct Hd as [Hd | Hex].
      - apply String.eqb_neq in Hd. now rewrite Hd.
      - rewrite Hex. now rewrite andb_false_r. }
    rewrite Hk. exact IH.
Qed.

Lemma emitted_request_count (levels : nat)
      (walk : string -> GitHub.M World (list GitHub.node))
      contents st added st' :
  (forall p st0,
      exists new,
        GitHub.requests (snd (walk p st0)) = (GitHub.requests st0 ++ new)%list /\
        List.length new
        = match levels with
          | 0 => 0
          | S l => 1 + dirs_within l (fst (walk p st0))
          end) ->
  GitHub.emitted walk contents st added st' ->
  exists new,
    GitHub.requests st' = (GitHub.requests st ++ new)%list /\
    List.length new = dirs_within levels added.
Proof.
  intros Hwalk. induction 1 as [st|item rest st added st' Hf _ IH
                               |item rest st subFiles st1 added st' Hd Hex Hw _ IH
                               |item rest st added st' Hf Hd _ IH].
  - exists []. rewrite app_nil_r. split; [reflexivity|]. now destruct levels.
  - destruct IH as (new & Hreq & Hlen). exists new. split; [exact Hreq|].
    rewrite Hlen. now destruct levels.
  - destruct IH as (new & Hreq & Hlen).
    destruct (Hwalk (GitHub.item_path item) st) as (new1 & Hreq1 & Hlen1).
    rewrite Hw in Hreq1, Hlen1. simpl in Hreq1, Hlen1.
    exists (new1 ++ new)%list. split; [now rewrite Hreq, Hreq1, app_assoc|].
    rewrite length_app, Hlen1, Hlen. destruct levels; simpl; lia.
  - exact IH.
Qed.

Lemma walk_request_count (levels : nat) :
  forall path depth st,
    (depth = 4 - Z.of_nat levels)%Z ->
    exists new,
      GitHub.requests (snd (GitHub.walk fetch levels owner repo path depth st))
      = (GitHub.requests st ++ new)%list /\
      List.length new
      = match levels with
        | 0 => 0
        | S l => 1 + dirs_within l
                       (fst (GitHub.walk fetch levels owner repo path depth st))
        end.
Proof.
  induction levels as [|levels IH]; intros path depth st Hd.
  - exists []. simpl. now rewrite app_nil_r.
  - destruct (@walk_S_fetches levels path depth st ltac:(lia))
      as (contents & added & st' & Hem & _ & ->). simpl.
    apply (@emitted_request_count levels) in Hem as (new & Hreq & Hlen).
    + rewrite do_fetch_requests in Hreq.
      exists (GitHub.contents_url owner repo path :: new). split.
      * now rewrite Hreq, <- app_assoc.
      * simpl. now rewrite Hlen.
    + intros p st0. apply IH. lia.
Qed.

End WalkerMore.

(** A listing that cannot be fetched or read gives the empty sequence,
    after the one request for it: a rejected fetch, a failure status, a
    body that is not JSON or not a listing. *)
Theorem listing_failure_gives_empty
        (World : Type) (fetch : string -> World -> GitHub.response * World)
        (owner repo path : string) (depth : Z) (st : GitHub.state World)
        (r : GitHub.response) (w : World) :
  (depth <= 3)%Z ->
  fetch (GitHub.contents_url owner repo path) (GitHub.world st) = (r, w) ->
  (forall contents, r <> GitHub.Response true (Ret (GitHub.Entries contents))) ->
  GitHub.analyzeFileStructure fetch owner repo path depth st
  = ([], {| GitHub.world := w;
            GitHub.requests :=
              (GitHub.requests st ++ [GitHub.contents_url owner repo path])%list |}).
Proof.
  intros Hd Hf Hr. unfold GitHub.analyzeFileStructure.
  replace (Z.to_nat (4 - depth)) with (S (Z.to_nat (3 - depth))) by lia.
  simpl. destruct (Z.gtb_spec depth 3); [lia|].
  unfold GitHub.bind, GitHub.do_fetch. rewrite Hf.
  destruct r as [message|ok json]; [reflexivity|].
  destruct ok; simpl; [|reflexivity].
  destruct json as [[contents|j]|message]; try reflexivity.
  now destruct (Hr contents).
Qed.

Lemma listing_failure_gives_empty_witness :
  GitHub.analyzeFileStructure Hosts.hidden "acme" "widgets" "src" 1 (Hosts.start tt)
  = ([], {| GitHub.world := tt;
            GitHub.requests :=
              ["https://api.github.com/repos/acme/widgets/contents/src"] |}).
Proof.
  apply (@listing_failure_gives_empty unit Hosts.hidden "acme" "widgets" "src" 1
           (Hosts.start tt) (GitHub.Response false (Throw "Unexpected token")) tt).
  - lia.
  - reflexivity.
  - intros contents H. discriminate H.
Defined.

(** The nodes of a listing that was fetched are its files and its
    directories that are not excluded, with their names and paths, in the
    order of the listing. *)
Theorem listing_order_kept
        (World : Type) (fetch : string -> World -> GitHub.response * World)
        (owner repo path : string) (depth : Z) (st : GitHub.state World)
        (contents : list GitHub.entry) (w : World) :
  (depth <= 3)%Z ->
  fetch (GitHub.contents_url owner repo path) (GitHub.world st)
  = (GitHub.Response true (Ret (GitHub.Entries contents)), w) ->
  map (fun n => (node_name n, node_path n, is_dir n))
      (fst (GitHub.analyzeFileStructure fetch owner repo path depth st))
  = map (fun item => (GitHub.item_name item, GitHub.item_path item,
                      negb (String.eqb (GitHub.item_type item) "file")))
        (filter kept contents).
Proof.
  intros Hd Hf. unfold GitHub.analyzeFileStructure.
  replace (Z.to_nat (4 - depth)) with (S (Z.to_nat (3 - depth))) by lia.
  cbn [GitHub.walk]. destruct (Z.gtb_spec depth 3); [lia|].
  unfold GitHub.bind, GitHub.do_fetch. rewrite Hf. cbn [negb].
  destruct (walk_items_emitted
              (fun p => GitHub.walk fetch (Z.to_nat (3 - depth)) owner repo p
                          (depth + 1)%Z)
              contents []
              {| GitHub.world := w;
                 GitHub.requests :=
                   (GitHub.requests st ++ [GitHub.contents_url owner repo path])%list |})
    as (added & st' & Heq & Hem).
  rewrite Heq. simpl. now apply emitted_kept in Hem.
Qed.

Lemma listing_order_kept_witness :
  map (fun n => (node_name n, node_path n, is_dir n))
      (fst (GitHub.analyzeFileStructure Hosts.hidden "acme" "widgets" "" 0
              (Hosts.start tt)))
  = [("src", "src", true); ("README.md", "README.md", false)].
Proof.
  apply (@listing_order_kept unit Hosts.hidden "acme" "widgets" "" 0 (Hosts.start tt)
           [Hosts.dir_entry ".git" ".git";
            Hosts.dir_entry "node_modules" "node_modules";
            Hosts.dir_entry "src" "src";
            Hosts.file_entry "README.md" "README.md" 10] tt).
  - lia.
  - reflexivity.
Defined.

(** A walk from depth 0 sends one request for the root and one for each
    directory of the tree at the nesting levels 1 to 3, and no other. *)
Theorem walk_requests_counted
        (World : Type) (fetch : string -> World -> GitHub.response * World)
        (owner repo path : string) (st : GitHub.state World) :
  exists new,
    GitHub.requests (snd (GitHub.analyzeFileStructure fetch owner repo path 0 st))
    = (GitHub.requests st ++ new)%list /\
    List.length new
    = 1 + dirs_within 3 (fst (GitHub.analyzeFileStructure fetch owner repo path 0 st)).
Proof.
  unfold GitHub.analyzeFileStructure. change (Z.to_nat (4 - 0)) with 4.
  apply (@walk_request_count World fetch owner repo 4 path 0%Z st). reflexivity.
Qed.

(** ** More on the sampler *)

Lemma firstn_In (A : Type) (n : nat) (l : list A) (x : A) :
  In x (firstn n l) -> In x l.
Proof.
  intros H. rewrite <- (firstn_skipn n l). apply in_or_app. now left.
Qed.

Section SamplerMore.

Variable World : Type.
Variable fetch : string -> World -> GitHub.response * World.
Variable atob : string -> outcome string.
Variable ToString : value -> string.
Variables owner repo : string.

Lemma fetch_sample_request (path : string) (st : GitHub.state World) :
  GitHub.requests (snd (GitHub.fetch_sample fetch atob ToString owner repo path st))
  = (GitHub.requests st ++ [GitHub.contents_url owner repo path])%list.
Proof.
  unfold GitHub.fetch_sample, GitHub.bind.
  pose proof (do_fetch_requests fetch (GitHub.contents_url owner repo path) st) as H.
  now destruct (GitHub.do_fetch fetch (GitHub.contents_url owner repo path) st).
Qed.

Lemma fetch_sample_path (path : string) (st : GitHub.state World)
      (found : GitHub.SampleFile) :
  fst (GitHub.fetch_sample fetch atob ToString owner repo path st) = Some found ->
  GitHub.sample_path found = path.
Proof.
  unfold GitHub.fetch_sample, GitHub.bind.
  destruct (GitHub.do_fetch fetch (GitHub.contents_url owner repo path) st) as [r st1].
  simpl. destruct r as [e|[] [[items|data]|e]]; try discriminate.
  - destruct (atob (ToString None)); [|discriminate]. now intros [= <-].
  - destruct data; try discriminate;
      (match goal with
       | |- context [atob ?x] => destruct (atob x); [|discriminate]
       end; now intros [= <-]).
Qed.

Lemma fetch_each_requests (paths : list string) :
  forall sampleFiles st,
    GitHub.requests
      (snd (GitHub.fetch_each fetch atob ToString owner repo paths sampleFiles st))
    = (GitHub.requests st ++ map (GitHub.contents_url owner repo) paths)%list.
Proof.
  induction paths as [|path paths IH]; intros sampleFiles st; simpl.
  - now rewrite app_nil_r.
  - unfold GitHub.bind. pose proof (fetch_sample_request path st) as Hreq.
    destruct (GitHub.fetch_sample fetch atob ToString owner repo path st)
      as [found st1].
    rewrite IH. simpl in Hreq. now rewrite Hreq, <- app_assoc.
Qed.

Lemma fetch_each_paths (paths : list string) :
  forall sampleFiles st s,
    In s (fst (GitHub.fetch_each fetch atob ToString owner repo paths sampleFiles st)) ->
    In s sampleFiles \/ In (GitHub.sample_path s) paths.
Proof.
  induction paths as [|path paths IH]; intros sampleFiles st s Hin; simpl in Hin.
  - now left.
  - unfold GitHub.bind in Hin. pose proof (@fetch_sample_path path st) as Hpath.
    destruct (GitHub.fetch_sample fetch atob ToString owner repo path st)
      as [found st1].
    apply IH in Hin as [Hin | Hin]; [|right; now right].
    destruct found as [f|]; simpl in Hin; [|now left].
    apply in_app_or in Hin as [Hin | [<- | []]]; [now left|].
    right. left. symmetry. now apply Hpath.
Qed.

End SamplerMore.

(** The sampler sends one request for every candidate of the tree, in
    pre-order, also after five samples are found; and every sample it
    returns is the content of a candidate. *)
Theorem sampler_requests_every_candidate
        (World : Type) (fetch : string -> World -> GitHub.response * World)
        (atob : string -> outcome string) (ToString : value -> string)
        (owner repo : string) (tree : list GitHub.node) (st : GitHub.state World) :
  GitHub.requests (snd (GitHub.getSampleFiles fetch atob ToString owner repo tree st))
  = (GitHub.requests st
     ++ map (GitHub.contents_url owner repo) (GitHub.candidates tree))%list /\
  (forall s,
      In s (fst (GitHub.getSampleFiles fetch atob ToString owner repo tree st)) ->
      In (GitHub.sample_path s) (GitHub.candidates tree)).
Proof.
  split.
  - unfold GitHub.getSampleFiles, GitHub.bind.
    rewrite findAndFetchFiles_candidates.
    pose proof (fetch_each_requests fetch atob ToString owner repo
                  (GitHub.candidates tree) [] st) as H.
    now destruct (GitHub.fetch_each fetch atob ToString owner repo
                    (GitHub.candidates tree) [] st).
  - intros s Hin. rewrite getSampleFiles_first_five in Hin.
    apply firstn_In in Hin.
    apply fetch_each_paths in Hin as [[] | H]. exact H.
Qed.

(** ** More on the snapshot builder *)

Section BuilderMore.

Variable World : Type.
Variable fetch : string -> World -> GitHub.response * World.
Variable atob : string -> outcome string.
Variable ToString : value -> string.


End BuilderMore.

(** Every error of [analyzeRepository] is the invalid-URL error, thrown
    in the state the call started in, or an error of the [try] block
    under the prefix 'Failed to analyze repository: '. *)
Theorem analyzeRepository_errors
        (World : Type) (fetch : string -> World -> GitHub.response * World)
        (atob : string -> outcome string) (ToString : value -> string)
        (repoUrl message : string) (st st' : GitHub.state World) :
  GitHub.analyzeRepository fetch atob ToString repoUrl st = (Throw message, st') ->
  (message = "Invalid GitHub repository URL" /\ st' = st /\
   Regex.exec false GitHub.github_url repoUrl = None) \/
  (exists inner, message = "Failed to analyze repository: " ++ inner) /\
  Regex.exec false GitHub.github_url repoUrl <> None.
Proof.
  unfold GitHub.analyzeRepository.
  destruct (Regex.exec false GitHub.github_url repoUrl) as [found|].
  - unfold GitHub.bind.
    destruct (GitHub.analyze_or_throw _ _ _ _ _ st) as [[data|inner] st1];
      [discriminate|].
    intros H. injection H as <- <-. right. split; [now exists inner | discriminate].
  - intros H. injection H as <- <-. now left.
Qed.

Lemma analyzeRepository_errors_witness :
  (exists inner,
      "Failed to analyze repository: Failed to fetch repository contents"
      = "Failed to analyze repository: " ++ inner) /\
  Regex.exec false GitHub.github_url "https://github.com/acme/widgets" <> None.
Proof.
  destruct (@analyzeRepository_errors unit Hosts.metadata_only Hosts.plain_atob
              Hosts.plain_ToString "https://github.com/acme/widgets"
              "Failed to analyze repository: Failed to fetch repository contents"
              (Hosts.start tt)
              {| GitHub.world := tt;
                 GitHub.requests :=
                   ["https://api.github.com/repos/acme/widgets";
                    "https://api.github.com/repos/acme/widgets/contents"] |}
              eq_refl) as [(H & _) | H].
  - discriminate H.
  - exact H.
Defined.






(** A metadata fetch that fails ends the call after that one request: a
    failure status gives 'Repository not found or not accessible', a
    rejection or an unreadable body gives its own message, each under the
    prefix of the [catch] block. *)
Theorem metadata_failure_aborts
        (World : Type) (fetch : string -> World -> GitHub.response * World)
        (atob : string -> outcome string) (ToString : value -> string)
        (repoUrl : string) (found : Regex.match_result)
        (st : GitHub.state World) (r : GitHub.response) (w : World)
        (message : string) :
  let url := GitHub.repo_url
               (nth 0 (Regex.groups found) "")
               (Regex.remove_first false GitHub.dot_git_suffix
                  (nth 1 (Regex.groups found) "")) in
  Regex.exec false GitHub.github_url repoUrl = Some found ->
  fetch url (GitHub.world st) = (r, w) ->
  fetch_error "Repository not found or not accessible" r = Some message ->
  GitHub.analyzeRepository fetch atob ToString repoUrl st
  = (Throw ("Failed to analyze repository: " ++ message),
     {| GitHub.world := w;
        GitHub.requests := (GitHub.requests st ++ [url])%list |}).
Proof.
  intros url Hfound Hf Hr. unfold GitHub.analyzeRepository. rewrite Hfound.
  unfold GitHub.analyze_or_throw. fold url. clearbody url.
  unfold GitHub.lift, GitHub.bindE, GitHub.fetch_or_throw, GitHub.bind,
    GitHub.do_fetch, GitHub.pure, GitHub.ret, GitHub.throw.
  rewrite Hf. destruct r as [e|[] [d|e]]; simpl in Hr; try discriminate;
    injection Hr as <-; reflexivity.
Qed.

Lemma metadata_failure_aborts_witness :
  GitHub.analyzeRepository Hosts.hidden Hosts.plain_atob Hosts.plain_ToString
    "https://github.com/acme/widgets.git" (Hosts.start tt)
  = (Throw "Failed to analyze repository: Repository not found or not accessible",
     {| GitHub.world := tt;
        GitHub.requests := ["https://api.github.com/repos/acme/widgets"] |}).
Proof.
  exact (@metadata_failure_aborts unit Hosts.hidden Hosts.plain_atob
           Hosts.plain_ToString "https://github.com/acme/widgets.git"
           {| Regex.matched := "github.com/acme/widgets.git";
              Regex.groups := ["acme"; "widgets.git"];
              Regex.index := 8 |}
           (Hosts.start tt) (GitHub.Response false (Throw "Unexpected token")) tt
           "Repository not found or not accessible" eq_refl eq_refl eq_refl).
Defined.

(** The language fetch is not best effort on a network error: when it is
    rejected, or answered with success and a body that is not JSON, the
    call ends before the tree is walked, after three requests. *)
Theorem language_failure_aborts
        (World : Type) (fetch : string -> World -> GitHub.response * World)
        (atob : string -> outcome string) (ToString : value -> string)
        (repoUrl : string) (found : Regex.match_result)
        (st : GitHub.state World) (w1 w2 w3 : World)
        (repository contents : GitHub.document)
        (r3 : GitHub.response) (message : string) :
  let url := GitHub.repo_url
               (nth 0 (Regex.groups found) "")
               (Regex.remove_first false GitHub.dot_git_suffix
                  (nth 1 (Regex.groups found) "")) in
  Regex.exec false GitHub.github_url repoUrl = Some found ->
  fetch url (GitHub.world st) = (GitHub.Response true (Ret repository), w1) ->
  fetch (url ++ "/contents") w1 = (GitHub.Response true (Ret contents), w2) ->
  fetch (url ++ "/languages") w2 = (r3, w3) ->
  (r3 = GitHub.Rejected message \/ r3 = GitHub.Response true (Throw message)) ->
  GitHub.analyzeRepository fetch atob ToString repoUrl st
  = (Throw ("Failed to analyze repository: " ++ message),
     {| GitHub.world := w3;
        GitHub.requests :=
          (GitHub.requests st
           ++ [url; (url ++ "/contents")%string; (url ++ "/languages")%string])%list |}).
Proof.
  intros url Hfound H1 H2 H3 Hr. unfold GitHub.analyzeRepository. rewrite Hfound.
  unfold GitHub.analyze_or_throw. fold url. clearbody url.
  unfold GitHub.lift, GitHub.bindE, GitHub.fetch_or_throw, GitHub.bind,
    GitHub.do_fetch, GitHub.pure, GitHub.ret, GitHub.throw.
  rewrite H1. cbn [fst snd negb GitHub.world GitHub.requests].
  rewrite H2. cbn [fst snd negb GitHub.world GitHub.requests].
  rewrite H3. cbn [fst snd negb GitHub.world GitHub.requests].
  rewrite <- !app_assoc. cbn [app].
  destruct Hr as [-> | ->]; reflexivity.
Qed.

Lemma language_failure_aborts_witness :
  GitHub.analyzeRepository two_then_down Hosts.plain_atob Hosts.plain_ToString
    "https://github.com/acme/widgets.git" (Hosts.start 0)
  = (Throw "Failed to analyze repository: Failed to fetch",
     {| GitHub.world := 3;
        GitHub.requests := ["https://api.github.com/repos/acme/widgets";
                            "https://api.github.com/repos/acme/widgets/contents";
                            "https://api.github.com/repos/acme/widgets/languages"] |}).
Proof.
  exact (@language_failure_aborts nat two_then_down Hosts.plain_atob
           Hosts.plain_ToString "https://github.com/acme/widgets.git"
           {| Regex.matched := "github.com/acme/widgets.git";
              Regex.groups := ["acme"; "widgets.git"];
              Regex.index := 8 |}
           (Hosts.start 0) 1 2 3
           (GitHub.Doc (JObj [])) (GitHub.Doc (JObj []))
           (GitHub.Rejected "Failed to fetch") "Failed to fetch"
           eq_refl eq_refl eq_refl eq_refl (or_introl eq_refl)).
Defined.

(** ** The client of the generative text service *)

Lemma length_substring_0 (s : string) :
  forall n, String.length (substring 0 n s) = Nat.min n (String.length s).
Proof.
  induction s as [|c s IH]; intros [|n]; simpl; try reflexivity.
  now rewrite IH.
Qed.

Lemma substring_0_all (s : string) :
  forall n, String.length s <= n -> substring 0 n s = s.
Proof.
  induction s as [|c s IH]; intros [|n] H; simpl in *; try reflexivity; try lia.
  f_equal. apply IH. lia.
Qed.

Lemma excerpt_facts (content : string) :
  String.length (Client.excerpt content) <= 1003 /\
  (String.length content <= 1000 -> Client.excerpt content = content) /\
  (1000 < String.length content ->
   Client.excerpt content = substring 0 1000 content ++ "..." /\
   String.length (Client.excerpt content) = 1003).
Proof.
  unfold Client.excerpt.
  destruct (Nat.ltb_spec 1000 (String.length content)) as [Hlong|Hshort].
  - rewrite length_append, length_substring_0.
    change (String.length "...") with 3. repeat split; lia.
  - rewrite append_nil_r, length_substring_0. repeat split; try lia.
    intros _. now apply substring_0_all.
Qed.

Lemma join_In (sep x : string) (l : list string) :
  In x l -> exists a b, Client.join sep l = a ++ x ++ b.
Proof.
  induction l as [|y l IH]; intros Hin; [contradiction|].
  destruct Hin as [-> | Hin].
  - destruct l as [|z l].
    + exists "", "". simpl. now rewrite append_nil_r.
    + exists "", (sep ++ Client.join sep (z :: l)). reflexivity.
  - destruct l as [|z l]; [contradiction|].
    destruct (IH Hin) as (a & b & Hj).
    exists (y ++ sep ++ a), b.
    change (Client.join sep (y :: z :: l)) with (y ++ sep ++ Client.join sep (z :: l)).
    rewrite Hj. now rewrite !append_assoc.
Qed.

Lemma lines_In (x : string) (l : list string) :
  In x l -> exists a b, Client.lines l = a ++ x ++ b.
Proof.
  induction l as [|y l IH]; intros Hin; [contradiction|].
  destruct Hin as [-> | Hin].
  - exists "", (Client.newline ++ Client.lines l). reflexivity.
  - destruct (IH Hin) as (a & b & Hj).
    exists (y ++ Client.newline ++ a), b. simpl. rewrite Hj.
    now rewrite !append_assoc.
Qed.

Lemma createAnalysisPrompt_total (ToString : value -> string)
      (repoData : GitHub.RepoData) :
  GitHub.repository repoData <> GitHub.Doc JNull ->
  exists name description stars language created updated,
    Client.createAnalysisPrompt ToString repoData
    = Ret (Client.lines
             (Client.prompt_lines name description stars language created updated
                (Client.count_text (GitHub.totalFiles (GitHub.stats repoData)))
                (Client.count_text (GitHub.components (GitHub.stats repoData)))
                (Client.count_text (GitHub.pages (GitHub.stats repoData)))
                (Client.join ", " (GitHub.languages repoData))
                (Client.join ", " (GitHub.technologies repoData))
                (Client.join Client.newline
                   (map Client.sample_section (GitHub.sampleFiles repoData))))).
Proof.
  intros Hne. unfold Client.createAnalysisPrompt.
  destruct (GitHub.repository repoData) as [items|j].
  - simpl. do 6 eexists. reflexivity.
  - destruct j; try contradiction; simpl; do 6 eexists; reflexivity.
Qed.

(** Every sample of the snapshot enters the prompt, under its path, with
    at most its first 1000 characters, and '...' after them exactly when
    the content is longer. *)
Theorem prompt_carries_samples (ToString : value -> string)
        (repoData : GitHub.RepoData) (prompt : string) (file : GitHub.SampleFile) :
  Client.createAnalysisPrompt ToString repoData = Ret prompt ->
  In file (GitHub.sampleFiles repoData) ->
  JsString.includes prompt
    (Client.newline ++ "--- " ++ GitHub.sample_path file ++ " ---" ++ Client.newline
     ++ Client.excerpt (GitHub.content file) ++ Client.newline) = true /\
  String.length (Client.excerpt (GitHub.content file)) <= 1003 /\
  (String.length (GitHub.content file) <= 1000 ->
   Client.excerpt (GitHub.content file) = GitHub.content file) /\
  (1000 < String.length (GitHub.content file) ->
   Client.excerpt (GitHub.content file)
   = substring 0 1000 (GitHub.content file) ++ "...").
Proof.
  intros Hp Hin.
  destruct (excerpt_facts (GitHub.content file)) as (Hlen & Hshort & Hlong).
  split; [|split; [exact Hlen | split; [exact Hshort | apply Hlong]]].
  assert (Hne : GitHub.repository repoData <> GitHub.Doc JNull).
  { intros Heq. unfold Client.createAnalysisPrompt in Hp. rewrite Heq in Hp.
    discriminate Hp. }
  destruct (@createAnalysisPrompt_total ToString repoData Hne)
    as (name & description & stars & language & created & updated & Heq).
  assert (Hprompt : prompt = (Client.lines
             (Client.prompt_lines name description stars language created updated
                (Client.count_text (GitHub.totalFiles (GitHub.stats repoData)))
                (Client.count_text (GitHub.components (GitHub.stats repoData)))
                (Client.count_text (GitHub.pages (GitHub.stats repoData)))
                (Client.join ", " (GitHub.languages repoData))
                (Client.join ", " (GitHub.technologies repoData))
                (Client.join Client.newline
                   (map Client.sample_section (GitHub.sampleFiles repoData))))))
    by congruence.
  clear Hp Heq. apply includes_iff.
  destruct (@join_In Client.newline (Client.sample_section file)
              (map Client.sample_section (GitHub.sampleFiles repoData))
              (in_map _ _ _ Hin)) as (a & b & Hj).
  destruct (@lines_In
              (Client.join Client.newline
                 (map Client.sample_section (GitHub.sampleFiles repoData)))
              (Client.prompt_lines name description stars language created updated
                (Client.count_text (GitHub.totalFiles (GitHub.stats repoData)))
                (Client.count_text (GitHub.components (GitHub.stats repoData)))
                (Client.count_text (GitHub.pages (GitHub.stats repoData)))
                (Client.join ", " (GitHub.languages repoData))
                (Client.join ", " (GitHub.technologies repoData))
                (Client.join Client.newline
                   (map Client.sample_section (GitHub.sampleFiles repoData)))))
    as (a' & b' & Hl).
  { unfold Client.prompt_lines. simpl. tauto. }
  rewrite Hprompt, Hl, Hj. exists (a' ++ a), (b ++ b').
  unfold Client.sample_section. now rewrite !append_assoc.
Qed.

Lemma prompt_carries_samples_witness :
  JsString.includes
    (match Client.createAnalysisPrompt Hosts.plain_ToString Services.small_snapshot with
     | Ret prompt => prompt
     | Throw _ => ""
     end)
    (Client.newline ++ "--- " ++ "README.md" ++ " ---" ++ Client.newline
     ++ Client.excerpt "# widgets" ++ Client.newline) = true.
Proof.
  apply (@prompt_carries_samples Hosts.plain_ToString Services.small_snapshot _
           {| GitHub.sample_path := "README.md"; GitHub.content := "# widgets" |}).
  - reflexivity.
  - simpl. auto.
Defined.

Section ClientMore.

Variable World : Type.
Variable post : string -> string -> World -> Client.response * World.
Variable JSON_parse : string -> outcome json.
Variable ToNumber_object : json -> number.
Variable ToString : value -> string.


Lemma parse_value_populated (v : value) :
  populated (Client.parse_value JSON_parse ToNumber_object v).
Proof.
  assert (Hf : populated Gemini.fallback).
  { repeat split. right. exists 5%Z. split; [reflexivity | lia]. }
  unfold Client.parse_value. destruct v as [j|]; [|exact Hf].
  destruct j; try exact Hf.
  exact (parseAnalysisResult_populated JSON_parse ToNumber_object s).
Qed.

Lemma read_candidates_inv (data : json) (result : Gemini.AnalysisResult) :
  Client.read_candidates JSON_parse ToNumber_object data = Ret result ->
  (exists candidates candidate content,
     get (Some data) "candidates" = Ret candidates /\ truthy candidates = true /\
     Client.first_of candidates = Ret candidate /\ truthy candidate = true /\
     get candidate "content" = Ret content /\ truthy content = true) /\
  populated result.
Proof.
  unfold Client.read_candidates. intros H.
  destruct (get (Some data) "candidates") as [candidates|e] eqn:H1; [|discriminate H].
  cbn [bind_outcome] in H.
  destruct (truthy candidates) eqn:T1; [|discriminate H]. cbn [negb] in H.
  destruct (Client.first_of candidates) as [candidate|e] eqn:H2; [|discriminate H].
  cbn [bind_outcome] in H.
  destruct (truthy candidate) eqn:T2; [|discriminate H]. cbn [negb] in H.
  destruct (get candidate "content") as [content|e] eqn:H3; [|discriminate H].
  cbn [bind_outcome] in H.
  destruct (truthy content) eqn:T3; [|discriminate H]. cbn [negb] in H.
  destruct (get content "parts") as [parts|e]; [|discriminate H].
  cbn [bind_outcome] in H.
  destruct (Client.first_of parts) as [part|e]; [|discriminate H].
  cbn [bind_outcome] in H.
  destruct (get part "text") as [analysisText|e]; [|discriminate H].
  cbn [bind_outcome] in H.
  split.
  - exists candidates, candidate, content. now repeat split.
  - assert (Hr : result = Client.parse_value JSON_parse ToNumber_object analysisText)
      by congruence.
    rewrite Hr. apply parse_value_populated.
Qed.

Lemma analyzeWithGemini_answer (repoData : GitHub.RepoData) (apiKey prompt : string)
      (st : Client.state World) (status : Z) (data : json) (w : World) :
  Client.createAnalysisPrompt ToString repoData = Ret prompt ->
  post (Client.endpoint ++ apiKey) prompt (Client.service st)
  = (Client.Response true status (Ret data), w) ->
  fst (Client.analyzeWithGemini post JSON_parse ToNumber_object ToString
         repoData apiKey st)
  = Client.read_candidates JSON_parse ToNumber_object data.
Proof.
  intros Hp Hpost. unfold Client.analyzeWithGemini. rewrite Hp, Hpost. reflexivity.
Qed.

End ClientMore.


(** A response that is not ok always ends in an error.  For the statuses
    400, 403 and 429 the message is fixed, whatever the body holds; for
    another status and a body that is not JSON, or is an object without
    [error], the message names the status and 'Unknown error'. *)
Theorem refused_request_messages
        (World : Type) (post : string -> string -> World -> Client.response * World)
        (JSON_parse : string -> outcome json) (ToNumber_object : json -> number)
        (ToString : value -> string)
        (repoData : GitHub.RepoData) (apiKey prompt : string)
        (st : Client.state World) (status : Z) (body : outcome json) (w : World) :
  Client.createAnalysisPrompt ToString repoData = Ret prompt ->
  post (Client.endpoint ++ apiKey) prompt (Client.service st)
  = (Client.Response false status body, w) ->
  exists message,
    fst (Client.analyzeWithGemini post JSON_parse ToNumber_object ToString
           repoData apiKey st) = Throw message /\
    (status = 400%Z ->
     message = "Invalid API key or request format. Please check your Gemini API key.") /\
    (status = 403%Z ->
     message = "API key does not have permission to access Gemini API.") /\
    (status = 429%Z -> message = "Rate limit exceeded. Please try again later.") /\
    (status <> 400%Z -> status <> 403%Z -> status <> 429%Z ->
     (exists e, body = Throw e) \/
     (exists fields, body = Ret (JObj fields) /\ lookup "error" fields = None) ->
     message = "Gemini API error (" ++ Client.status_text status ++ "): "
               ++ ToString (Some (JStr "Unknown error"))).
Proof.
  intros Hp Hpost. exists (Client.status_error ToString status body).
  split; [unfold Client.analyzeWithGemini; rewrite Hp, Hpost; reflexivity|].
  unfold Client.status_error. repeat split.
  - intros ->. reflexivity.
  - intros ->. reflexivity.
  - intros ->. reflexivity.
  - intros H400 H403 H429 Hbody.
    destruct (Z.eqb_spec status 400) as [|_]; [contradiction|].
    destruct (Z.eqb_spec status 403) as [|_]; [contradiction|].
    destruct (Z.eqb_spec status 429) as [|_]; [contradiction|].
    destruct Hbody as [[e ->] | (fields & -> & Hl)].
    + reflexivity.
    + cbn [get]. rewrite Hl. reflexivity.
Qed.

Lemma refused_request_messages_witness :
  fst (Client.analyzeWithGemini Services.rate_limited
         (fun _ => Throw "SyntaxError") (fun _ => NaN) Hosts.plain_ToString
         Services.small_snapshot "key" (Services.start tt))
  = Throw "Rate limit exceeded. Please try again later.".
Proof.
  destruct (@refused_request_messages unit Services.rate_limited
              (fun _ => Throw "SyntaxError") (fun _ => NaN) Hosts.plain_ToString
              Services.small_snapshot "key"
              (match Client.createAnalysisPrompt Hosts.plain_ToString
                       Services.small_snapshot with
               | Ret prompt => prompt
               | Throw _ => ""
               end)
              (Services.start tt) 429%Z (Throw "Unexpected end of JSON input") tt
              eq_refl eq_refl)
    as (message & Hrun & _ & _ & H429 & _).
  rewrite Hrun. f_equal. apply H429. reflexivity.
Defined.

(** A result is returned only when the service gave an ok response whose
    body is JSON with a first candidate that has content; and every result
    returned is fully populated. *)
Theorem result_needs_ok_answer
        (World : Type) (post : string -> string -> World -> Client.response * World)
        (JSON_parse : string -> outcome json) (ToNumber_object : json -> number)
        (ToString : value -> string)
        (repoData : GitHub.RepoData) (apiKey : string) (st : Client.state World)
        (result : Gemini.AnalysisResult) :
  fst (Client.analyzeWithGemini post JSON_parse ToNumber_object ToString
         repoData apiKey st) = Ret result ->
  exists prompt status data,
    Client.createAnalysisPrompt ToString repoData = Ret prompt /\
    fst (post (Client.endpoint ++ apiKey) prompt (Client.service st))
    = Client.Response true status (Ret data) /\
    (exists candidates candidate content,
       get (Some data) "candidates" = Ret candidates /\ truthy candidates = true /\
       Client.first_of candidates = Ret candidate /\ truthy candidate = true /\
       get candidate "content" = Ret content /\ truthy content = true) /\
    populated result.
Proof.
  unfold Client.analyzeWithGemini.
  destruct (Client.createAnalysisPrompt ToString repoData) as [prompt|e];
    [|discriminate].
  destruct (post (Client.endpoint ++ apiKey) prompt (Client.service st))
    as [[e|ok status body] w] eqn:Hpost; cbn [fst]; [discriminate|].
  destruct ok; cbn [negb]; [|discriminate].
  destruct body as [data|e]; cbn [bind_outcome]; [|discriminate].
  intros H. exists prompt, status, data.
  split; [reflexivity | split; [now rewrite Hpost|]].
  exact (read_candidates_inv _ _ _ H).
Qed.

Lemma result_needs_ok_answer_witness :
  populated Gemini.fallback.
Proof.
  destruct (@result_needs_ok_answer unit (Services.answers "I cannot say.")
              (fun _ => Throw "SyntaxError") (fun _ => NaN) Hosts.plain_ToString
              Services.small_snapshot "key" (Services.start tt) Gemini.fallback
              eq_refl)
    as (prompt & status & data & _ & _ & _ & H).
  exact H.
Defined.

(** An ok response whose document has no candidates, no first candidate,
    or a first candidate without content, is rejected as an invalid
    response format. *)
Theorem answer_without_content_rejected
        (World : Type) (post : string -> string -> World -> Client.response * World)
        (JSON_parse : string -> outcome json) (ToNumber_object : json -> number)
        (ToString : value -> string)
        (repoData : GitHub.RepoData) (apiKey prompt : string)
        (st : Client.state World) (status : Z) (fields : list (string * json))
        (w : World) :
  Client.createAnalysisPrompt ToString repoData = Ret prompt ->
  post (Client.endpoint ++ apiKey) prompt (Client.service st)
  = (Client.Response true status (Ret (JObj fields)), w) ->
  truthy (lookup "candidates" fields) = false \/
  (exists candidate,
     Client.first_of (lookup "candidates" fields) = Ret candidate /\
     (truthy candidate = false \/
      exists content, get candidate "content" = Ret content /\
                      truthy content = false)) ->
  fst (Client.analyzeWithGemini post JSON_parse ToNumber_object ToString
         repoData apiKey st)
  = Throw "Invalid response format from Gemini API".
Proof.
  intros Hp Hpost Hshape.
  rewrite (analyzeWithGemini_answer post JSON_parse ToNumber_object ToString
             repoData apiKey st Hp Hpost).
  unfold Client.read_candidates. cbn [get bind_outcome].
  destruct (truthy (lookup "candidates" fields)) eqn:T1; cbn [negb]; [|reflexivity].
  destruct Hshape as [H | (candidate & Hc & Hrest)]; [discriminate H|].
  rewrite Hc. cbn [bind_outcome].
  destruct (truthy candidate) eqn:T2; cbn [negb]; [|reflexivity].
  destruct Hrest as [H | (content & Hcontent & T3)]; [discriminate H|].
  rewrite Hcontent. cbn [bind_outcome]. rewrite T3. reflexivity.
Qed.

Lemma answer_without_content_rejected_witness :
  fst (Client.analyzeWithGemini Services.blocked
         (fun _ => Throw "SyntaxError") (fun _ => NaN) Hosts.plain_ToString
         Services.small_snapshot "key" (Services.start tt))
  = Throw "Invalid response format from Gemini API".
Proof.
  apply (@answer_without_content_rejected unit Services.blocked
           (fun _ => Throw "SyntaxError") (fun _ => NaN) Hosts.plain_ToString
           Services.small_snapshot "key"
           (match Client.createAnalysisPrompt Hosts.plain_ToString
                    Services.small_snapshot with
            | Ret prompt => prompt
            | Throw _ => ""
            end)
           (Services.start tt) 200%Z [("promptFeedback", JObj [])] tt
           eq_refl eq_refl).
  left. reflexivity.
Defined.

(** An ok response whose first candidate holds, as the text of its first
    part, a string, gives what the parser makes of that string. *)
Theorem well_formed_answer_parsed
        (World : Type) (post : string -> string -> World -> Client.response * World)
        (JSON_parse : string -> outcome json) (ToNumber_object : json -> number)
        (ToString : value -> string)
        (repoData : GitHub.RepoData) (apiKey prompt : string)
        (st : Client.state World) (status : Z) (w : World)
        (fields cfields pfields tfields : list (string * json))
        (others more : list json) (text : string) :
  Client.createAnalysisPrompt ToString repoData = Ret prompt ->
  post (Client.endpoint ++ apiKey) prompt (Client.service st)
  = (Client.Response true status (Ret (JObj fields)), w) ->
  lookup "candidates" fields = Some (JArr (JObj cfields :: others)) ->
  lookup "content" cfields = Some (JObj pfields) ->
  lookup "parts" pfields = Some (JArr (JObj tfields :: more)) ->
  lookup "text" tfields = Some (JStr text) ->
  fst (Client.analyzeWithGemini post JSON_parse ToNumber_object ToString
         repoData apiKey st)
  = Ret (Gemini.parseAnalysisResult JSON_parse ToNumber_object text).
Proof.
  intros Hp Hpost H1 H2 H3 H4.
  rewrite (analyzeWithGemini_answer post JSON_parse ToNumber_object ToString
             repoData apiKey st Hp Hpost).
  unfold Client.read_candidates. cbn [get bind_outcome]. rewrite H1.
  cbn [truthy negb Client.first_of nth_error bind_outcome get]. rewrite H2.
  cbn [truthy negb bind_outcome get]. rewrite H3.
  cbn [Client.first_of nth_error bind_outcome get]. rewrite H4.
  reflexivity.
Qed.

Lemma well_formed_answer_parsed_witness :
  fst (Client.analyzeWithGemini (Services.answers "I cannot say.")
         (fun _ => Throw "SyntaxError") (fun _ => NaN) Hosts.plain_ToString
         Services.small_snapshot "key" (Services.start tt))
  = Ret (Gemini.parseAnalysisResult (fun _ => Throw "SyntaxError") (fun _ => NaN)
           "I cannot say.").
Proof.
  apply (@well_formed_answer_parsed unit (Services.answers "I cannot say.")
           (fun _ => Throw "SyntaxError") (fun _ => NaN) Hosts.plain_ToString
           Services.small_snapshot "key"
           (match Client.createAnalysisPrompt Hosts.plain_ToString
                    Services.small_snapshot with
            | Ret prompt => prompt
            | Throw _ => ""
            end)
           (Services.start tt) 200%Z tt
           [("candidates",
             JArr [JObj [("content",
                          JObj [("parts", JArr [JObj [("text", JStr "I cannot say.")]]);
                                ("role", JStr "model")])]])]
           [("content",
             JObj [("parts", JArr [JObj [("text", JStr "I cannot say.")]]);
                   ("role", JStr "model")])]
           [("parts", JArr [JObj [("text", JStr "I cannot say.")]]);
            ("role", JStr "model")]
           [("text", JStr "I cannot say.")] [] [] "I cannot say.");
    reflexivity.
Defined.

(** An ok response whose first part has no text, or a text that is no
    string, is no error: the fallback result is returned. *)
Theorem answer_without_text_gives_fallback
        (World : Type) (post : string -> string -> World -> Client.response * World)
        (JSON_parse : string -> outcome json) (ToNumber_object : json -> number)
        (ToString : value -> string)
        (repoData : GitHub.RepoData) (apiKey prompt : string)
        (st : Client.state World) (status : Z) (w : World)
        (fields cfields pfields tfields : list (string * json))
        (others more : list json) :
  Client.createAnalysisPrompt ToString repoData = Ret prompt ->
  post (Client.endpoint ++ apiKey) prompt (Client.service st)
  = (Client.Response true status (Ret (JObj fields)), w) ->
  lookup "candidates" fields = Some (JArr (JObj cfields :: others)) ->
  lookup "content" cfields = Some (JObj pfields) ->
  lookup "parts" pfields = Some (JArr (JObj tfields :: more)) ->
  (forall text, lookup "text" tfields <> Some (JStr text)) ->
  fst (Client.analyzeWithGemini post JSON_parse ToNumber_object ToString
         repoData apiKey st)
  = Ret Gemini.fallback.
Proof.
  intros Hp Hpost H1 H2 H3 H4.
  rewrite (analyzeWithGemini_answer post JSON_parse ToNumber_object ToString
             repoData apiKey st Hp Hpost).
  unfold Client.read_candidates. cbn [get bind_outcome]. rewrite H1.
  cbn [truthy negb Client.first_of nth_error bind_outcome get]. rewrite H2.
  cbn [truthy negb bind_outcome get]. rewrite H3.
  cbn [Client.first_of nth_error bind_outcome get].
  unfold Client.parse_value.
  destruct (lookup "text" tfields) as [j|] eqn:Ht; [|reflexivity].
  destruct j; try reflexivity. now destruct (H4 s).
Qed.

Lemma answer_without_text_gives_fallback_witness :
  fst (Client.analyzeWithGemini (Services.replies Services.no_text)
         (fun _ => Throw "SyntaxError") (fun _ => NaN) Hosts.plain_ToString
         Services.small_snapshot "key" (Services.start tt))
  = Ret Gemini.fallback.
Proof.
  apply (@answer_without_text_gives_fallback unit (Services.replies Services.no_text)
           (fun _ => Throw "SyntaxError") (fun _ => NaN) Hosts.plain_ToString
           Services.small_snapshot "key"
           (match Client.createAnalysisPrompt Hosts.plain_ToString
                    Services.small_snapshot with
            | Ret prompt => prompt
            | Throw _ => ""
            end)
           (Services.start tt) 200%Z tt
           [("candidates",
             JArr [JObj [("content", JObj [("parts", JArr [JObj []])])]])]
           [("content", JObj [("parts", JArr [JObj []])])]
           [("parts", JArr [JObj []])]
           [] [] []); try reflexivity.
  intros text. discriminate.
Defined.



(** ** The name of the repository *)

Lemma endsWith_append (base suffix : string) :
  JsString.endsWith (base ++ suffix) suffix = true.
Proof.
  unfold JsString.endsWith. rewrite length_append.
  destruct (Nat.ltb_spec (String.length base + String.length suffix)
              (String.length suffix)) as [H|_]; [lia|].
  replace (String.length base + String.length suffix - String.length suffix)
    with (String.length base) by lia.
  rewrite substring_skip, substring_all. apply String.eqb_refl.
Qed.

Lemma dot_git_Matches (n : nat) (x rest : string) :
  Regex.Matches false GitHub.dot_git_suffix n x rest <-> x = ".git" /\ rest = "".
Proof.
  change GitHub.dot_git_suffix with (Regex.RSeq (Regex.lit ".git") Regex.REol).
  rewrite Matches_seq_iff. split.
  - intros (w1 & w2 & -> & H1 & H2).
    apply lit_Matches_iff in H1; [|discriminate].
    apply Matches_eol_iff in H2 as [-> ->]. subst w1. now split.
  - intros [-> ->]. exists ".git", "". repeat split.
    + apply lit_Matches_iff; [discriminate | reflexivity].
    + now apply Matches_eol_iff.
Qed.

(** A repository name that does not end in '.git' is used as it is, also
    when '.git' stands inside it. *)
Theorem other_repo_names_kept (repo : string) :
  JsString.endsWith repo ".git" = false ->
  Regex.remove_first false GitHub.dot_git_suffix repo = repo.
Proof.
  intros He. unfold Regex.remove_first, Regex.exec.
  destruct (Regex.exec_from false GitHub.dot_git_suffix 0 repo) as [res|] eqn:E;
    [|reflexivity].
  apply exec_from_sound in E as (pre & w & rest & Hs & Hm & _).
  apply dot_git_Matches in Hm as [-> ->].
  change (pre ++ ".git" ++ "") with (pre ++ ".git") in Hs. subst repo.
  rewrite endsWith_append in He. discriminate He.
Qed.

Lemma other_repo_names_kept_witness :
  Regex.remove_first false GitHub.dot_git_suffix "my.github.io" = "my.github.io".
Proof.
  apply (@other_repo_names_kept "my.github.io"). reflexivity.
Defined.
